(** * Gregorian Easter (Anonymous Gregorian Computus): the JavaScript sources
      [src/easter.js], [src/main.js] and the third UI script, embedded in Rocq.

    JavaScript has one numeric type, the IEEE-754 binary64 double.  The year
    handed to [calculateEasterYMD] is such a double, and [%], [/], [*], [+],
    [-] and [Math.floor] are the double operations.  The embedding keeps this:
    module [JSNumber] gives the value of every operation as the exact result
    rounded to the nearest double (ties to even), and the program below is
    written with these operations, line by line as in the source. *)

From Stdlib Require Import ZArith Lia Bool List String.
From Stdlib Require Import Floats.SpecFloat.
Import ListNotations.
Local Open Scope Z_scope.

(** ** JavaScript numbers *)

Module JSNumber.

(** Every finite double is an integer multiple of 2^-1074 (the smallest
    subnormal).  A finite number is stored as that integer multiple [k]:
    its value is [k / 2^1074].  The sign of zero is not represented: no
    operation of the program observes it. *)
Inductive number : Type :=
| NaN
| Infinity (negative : bool)
| Finite (k : Z).

(** The number 1, in units of 2^-1074. *)
Definition one : Z := 2 ^ 1074.

(** 2^1024 in units of 2^-1074: a rounded magnitude that reaches it
    overflows to an infinity. *)
Definition overflow : Z := 2 ^ 2098.

(** Number.MAX_VALUE = 2^1024 - 2^971 and Number.MAX_SAFE_INTEGER = 2^53 - 1,
    as integers. *)
Definition MAX_VALUE : Z := 2 ^ 1024 - 2 ^ 971.
Definition MAX_SAFE_INTEGER : Z := 2 ^ 53 - 1.

(** The double whose value is the integer [z]. *)
Definition of_Z (z : Z) : number := Finite (z * one).

(** [p / q] rounded to the nearest integer, ties to the even one ([0 < q]). *)
Definition rne_div (p q : Z) : Z :=
  let d := p / q in
  match 2 * (p mod q) ?= q with
  | Lt => d
  | Gt => d + 1
  | Eq => if Z.even d then d else d + 1
  end.

(** The double nearest to [p / q] units ([0 <= p], [0 < q]), exponent
    unbounded above: below 2^53 units the doubles are the integers
    (subnormals and the first binades); from there on a double has 53
    significant bits, a multiple of [2^e] with [e = log2 (p/q) - 52]. *)
Definition round_pos (p q : Z) : Z :=
  let n := p / q in
  if n <? 2 ^ 53 then rne_div p q
  else let e := Z.log2 n - 52 in rne_div p (q * 2 ^ e) * 2 ^ e.

(** Round to nearest, ties to even, of the exact value [p / q] units
    ([0 < q]); overflow gives an infinity of the sign of the value. *)
Definition round_ratio (p q : Z) : number :=
  let r := round_pos (Z.abs p) q in
  if r <? overflow then Finite (Z.sgn p * r) else Infinity (p <? 0).

Definition neg (x : number) : number :=
  match x with
  | NaN => NaN
  | Infinity s => Infinity (negb s)
  | Finite k => Finite (- k)
  end.

(** [x + y] *)
Definition add (x y : number) : number :=
  match x, y with
  | NaN, _ | _, NaN => NaN
  | Infinity s, Infinity t => if Bool.eqb s t then Infinity s else NaN
  | Infinity s, Finite _ | Finite _, Infinity s => Infinity s
  | Finite a, Finite b => round_ratio (a + b) 1
  end.

(** [x - y] *)
Definition sub (x y : number) : number := add x (neg y).

(** [x * y] *)
Definition mul (x y : number) : number :=
  match x, y with
  | NaN, _ | _, NaN => NaN
  | Infinity s, Infinity t => Infinity (xorb s t)
  | Infinity s, Finite b | Finite b, Infinity s =>
      if b =? 0 then NaN else Infinity (xorb s (b <? 0))
  | Finite a, Finite b => round_ratio (a * b) one
  end.

(** [x / y] *)
Definition div (x y : number) : number :=
  match x, y with
  | NaN, _ | _, NaN => NaN
  | Infinity _, Infinity _ => NaN
  | Infinity s, Finite b => Infinity (xorb s (b <? 0))
  | Finite _, Infinity _ => Finite 0
  | Finite a, Finite b =>
      if b =? 0 then (if a =? 0 then NaN else Infinity (a <? 0))
      else round_ratio (Z.sgn b * a * one) (Z.abs b)
  end.

(** [x % y]: the remainder of the truncated division, exact, with the sign
    of the dividend. *)
Definition rem (x y : number) : number :=
  match x, y with
  | NaN, _ | _, NaN => NaN
  | Infinity _, _ => NaN
  | Finite a, Infinity _ => Finite a
  | Finite a, Finite b => if b =? 0 then NaN else Finite (Z.rem a b)
  end.

(** [Math.floor(x)] *)
Definition Math_floor (x : number) : number :=
  match x with
  | Finite k => Finite (k / one * one)
  | _ => x
  end.

(** [x < y] *)
Definition lt (x y : number) : bool :=
  match x, y with
  | NaN, _ | _, NaN => false
  | Infinity s, Infinity t => s && negb t
  | Infinity s, Finite _ => s
  | Finite _, Infinity t => negb t
  | Finite a, Finite b => a <? b
  end.

(** [Number.isInteger(x)] for a number [x]. *)
Definition is_integer (x : number) : bool :=
  match x with
  | Finite k => k mod one =? 0
  | _ => false
  end.

(** A value of the model that is a double: at most 53 significant bits and
    a magnitude of at most MAX_VALUE. *)
Definition is_double (x : number) : bool :=
  match x with
  | Finite k => (round_pos (Z.abs k) 1 =? Z.abs k) && (Z.abs k <=? MAX_VALUE * one)
  | _ => true
  end.

(** Reading an integer-valued number back, for displaying literals. *)
Definition to_Z (x : number) : option Z :=
  match x with
  | Finite k => if k mod one =? 0 then Some (k / one) else None
  | _ => None
  end.

End JSNumber.


Import JSNumber.

Declare Scope js_scope.
Delimit Scope js_scope with js.
Bind Scope js_scope with number.
Number Notation number of_Z to_Z : js_scope.
Infix "+" := add : js_scope.
Infix "-" := sub : js_scope.
Infix "*" := mul : js_scope.
Infix "/" := div : js_scope.
Infix "rem" := rem (at level 40, left associativity) : js_scope.
Infix "<?" := lt : js_scope.

(** ** JavaScript values, and the ways a call completes *)

Inductive JSValue : Type :=
| JSUndefined
| JSNull
| JSBoolean (b : bool)
| JSString (s : string)
| JSBigInt (z : Z)
| JSObject (address : nat)
| JSNumber (n : number).

(** [typeof v === 'number'] *)
Definition typeof_is_number (v : JSValue) : bool :=
  match v with JSNumber _ => true | _ => false end.

(** [Number.isInteger(v)]: false for every value that is not a number. *)
Definition Number_isInteger (v : JSValue) : bool :=
  match v with JSNumber n => JSNumber.is_integer n | _ => false end.

(** [v === s] for a string literal [s]. *)
Definition strict_equals (v : JSValue) (s : string) : bool :=
  match v with JSString u => String.eqb u s | _ => false end.

Inductive JSError : Type :=
| TypeError (message : string)
| RangeError (message : string).

(** A call returns a value or throws. *)
Inductive completion (A : Type) : Type :=
| Return (value : A)
| Throw (error : JSError).
Arguments Return {A} value.
Arguments Throw {A} error.

(** ** src/easter.js *)

Module Easter.

Local Open Scope js_scope.

(** The constants of [calculateEasterYMD], under the names of the source. *)
Record locals : Type := {
  a : number;  (* the Golden Number *)
  b : number;  (* the century number *)
  c : number;  (* the year within the century *)
  d : number;
  e : number;
  f : number;
  g : number;
  h : number;  (* the epact *)
  i : number;
  k : number;
  l : number;  (* the weekday shift *)
  m : number;  (* the final correction *)
  month : number;
  day : number
}.

(** Lines 58-125 of [calculateEasterYMD], for a year that passed the guards. *)
Definition computus (y : number) : locals :=
  let mc := 19 in
  let a := y rem mc in
  let b := Math_floor (y / 100) in
  let c := y rem 100 in
  let d := Math_floor (b / 4) in
  let e := b rem 4 in
  let f := Math_floor ((b + 8) / 25) in
  let g := Math_floor ((b - f + 1) / 3) in
  let h := ((mc * a) + b - d - g + 15) rem 30 in
  let i := Math_floor (c / 4) in
  let k := c rem 4 in
  let l := (32 + (2 * e) + (2 * i) - h - k) rem 7 in
  let m := Math_floor ((a + (11 * h) + (22 * l)) / 451) in
  let month := Math_floor ((h + l - (7 * m) + 114) / 31) in
  let day := ((h + l - (7 * m) + 114) rem 31) + 1 in
  {| a := a; b := b; c := c; d := d; e := e; f := f; g := g; h := h;
     i := i; k := k; l := l; m := m; month := month; day := day |}.

(** The left operand of each [%] of [calculateEasterYMD], in source order
    (lines 59, 71, 81, 93, 104, 105 and 125). *)
Definition rem_operands (y : number) : list (number * number) :=
  let v := computus y in
  [ (y, 19); (y, 100); (b v, 4);
    ((19 * a v) + b v - d v - g v + 15, 30);
    (c v, 4);
    (32 + (2 * e v) + (2 * i v) - h v - k v, 7);
    (h v + l v - (7 * m v) + 114, 31) ].

(** Only a number passes the first guard of [calculateEasterYMD], so its
    arithmetic never coerces a value of another type: [as_number] reads the
    number that [y] is. *)
Definition as_number (y : JSValue) : number :=
  match y with JSNumber n => n | _ => NaN end.

(** [calculateEasterYMD(y)]: the guards of lines 45-50, then the tuple
    [[y, month, day]]. *)
Definition calculateEasterYMD (y : JSValue) : completion (number * number * number) :=
  if negb (typeof_is_number y) || negb (Number_isInteger y) then
    Throw (TypeError "year must be an integer")
  else
    let y := as_number y in
    if y <? 1583 then
      Throw (RangeError "Gregorian Easter is defined for years >= 1583")
    else
      let v := computus y in
      Return (y, month v, day v).

(** The date that lines 124-125 give when the final correction is left out,
    that is with 0 in the place of [m]. *)
Definition uncorrected (v : locals) : number * number :=
  let h := h v in
  let l := l v in
  let m := 0 in
  let month := Math_floor ((h + l - (7 * m) + 114) / 31) in
  let day := ((h + l - (7 * m) + 114) rem 31) + 1 in
  (month, day).

End Easter.

(** ** src/main.js, first script: the page before [easter.js] was split off

    A classic script (no [import]), so it runs in sloppy mode: the
    assignments to the undeclared [m], [month] and [day] create global
    variables and the function returns [[y, month, day]]. *)

Module Main1.

Local Open Scope js_scope.

(** [calculateEaster(y)], lines 20-100: the copy of the Computus, without
    guards (the caller tests [isNaN(y) || y < 1583]). *)
Definition calculateEaster (y : number) : number * number * number :=
  let mc := 19 in
  let a := y rem mc in
  let b := Math_floor (y / 100) in
  let c := y rem 100 in
  let d := Math_floor (b / 4) in
  let e := b rem 4 in
  let f := Math_floor ((b + 8) / 25) in
  let g := Math_floor ((b - f + 1) / 3) in
  let h := ((mc * a) + b - d - g + 15) rem 30 in
  let i := Math_floor (c / 4) in
  let k := c rem 4 in
  let l := (32 + (2 * e) + (2 * i) - h - k) rem 7 in
  let m := Math_floor ((a + (11 * h) + (22 * 1)) / 451) in
  let month := Math_floor ((h + l - (7 * m) + 114) / 31) in
  let day := ((h + l - (7 * m) + 114) rem 31) + 1 in
  (y, month, day).

(** [tenseSetter(t)], lines 173-181: [tenseWord] starts undefined and three
    independent tests assign it. *)
Definition tenseSetter (t : JSValue) : JSValue :=
  let tenseWord := JSUndefined in
  let tenseWord := if strict_equals t "past" then JSString "was Easter" else tenseWord in
  let tenseWord := if strict_equals t "present" then JSString "is Easter" else tenseWord in
  let tenseWord := if strict_equals t "future" then JSString "will Easter be" else tenseWord in
  tenseWord.

End Main1.

(** ** src/main.js, second script: the page on top of [easter.js] *)

Module Main2.

(** [tenseSetter(t)], lines 277-282. *)
Definition tenseSetter (t : JSValue) : string :=
  if strict_equals t "past" then "was Easter"
  else if strict_equals t "present" then "is Easter"
  else if strict_equals t "future" then "will Easter be"
  else String.EmptyString.

End Main2.

(** ** src/unnamed/part_000: the third script *)

Module Script3.

(** [tenseSetter(t)], lines 81-86. *)
Definition tenseSetter (t : JSValue) : string :=
  if strict_equals t "past" then "was Easter"
  else if strict_equals t "present" then "is Easter"
  else if strict_equals t "future" then "will be Easter"
  else String.EmptyString.

End Script3.

(** ** The algorithm of section 4.1 of the specification, on the integers *)

Module Spec41.

(** The named quantities of steps 1 to 12. *)
Record quantities : Type := {
  goldenNumber : Z;
  century : Z;
  yearInCentury : Z;
  centuryLeapBlocks : Z;
  centuryLeapRemainder : Z;
  gregorianLeapSkip : Z;
  lunarCorrection : Z;
  epact : Z;
  yearLeapBlocks : Z;
  yearLeapRemainder : Z;
  weekdayShift : Z;
  overflowCorrection : Z;
  rawOffset : Z;
  month : Z;
  day : Z
}.

(** The thirteen steps.  [Z.div] is the floor division and [Z.modulo] the
    non-negative modulo. *)
Definition steps (year : Z) : quantities :=
  let goldenNumber := year mod 19 in
  let century := year / 100 in
  let yearInCentury := year mod 100 in
  let centuryLeapBlocks := century / 4 in
  let centuryLeapRemainder := century mod 4 in
  let gregorianLeapSkip := (century + 8) / 25 in
  let lunarCorrection := (century - gregorianLeapSkip + 1) / 3 in
  let epact :=
    (19 * goldenNumber + century - centuryLeapBlocks - lunarCorrection + 15) mod 30 in
  let yearLeapBlocks := yearInCentury / 4 in
  let yearLeapRemainder := yearInCentury mod 4 in
  let weekdayShift :=
    (32 + 2 * centuryLeapRemainder + 2 * yearLeapBlocks - epact - yearLeapRemainder) mod 7 in
  let overflowCorrection := (goldenNumber + 11 * epact + 22 * weekdayShift) / 451 in
  let rawOffset := epact + weekdayShift - 7 * overflowCorrection + 114 in
  let month := rawOffset / 31 in
  let day := rawOffset mod 31 + 1 in
  {| goldenNumber := goldenNumber;
     century := century;
     yearInCentury := yearInCentury;
     centuryLeapBlocks := centuryLeapBlocks;
     centuryLeapRemainder := centuryLeapRemainder;
     gregorianLeapSkip := gregorianLeapSkip;
     lunarCorrection := lunarCorrection;
     epact := epact;
     yearLeapBlocks := yearLeapBlocks;
     yearLeapRemainder := yearLeapRemainder;
     weekdayShift := weekdayShift;
     overflowCorrection := overflowCorrection;
     rawOffset := rawOffset;
     month := month;
     day := day |}.

(** Step 13. *)
Definition compute (year : Z) : Z * Z * Z :=
  let q := steps year in (year, month q, day q).

(** The same steps from step 6 on, with the century, its three corrections
    and the dividend of the epact given: the shape the constants of the
    source keep when the divisions by 100, 4, 25 and 3 and the sums of
    step 6 are rounded. *)
Definition from_century (year century blocks skip lunar dividend : Z) : quantities :=
  let goldenNumber := year mod 19 in
  let yearInCentury := year mod 100 in
  let centuryLeapRemainder := century mod 4 in
  let epact := dividend mod 30 in
  let yearLeapBlocks := yearInCentury / 4 in
  let yearLeapRemainder := yearInCentury mod 4 in
  let weekdayShift :=
    (32 + 2 * centuryLeapRemainder + 2 * yearLeapBlocks - epact - yearLeapRemainder) mod 7 in
  let overflowCorrection := (goldenNumber + 11 * epact + 22 * weekdayShift) / 451 in
  let rawOffset := epact + weekdayShift - 7 * overflowCorrection + 114 in
  {| goldenNumber := goldenNumber;
     century := century;
     yearInCentury := yearInCentury;
     centuryLeapBlocks := blocks;
     centuryLeapRemainder := centuryLeapRemainder;
     gregorianLeapSkip := skip;
     lunarCorrection := lunar;
     epact := epact;
     yearLeapBlocks := yearLeapBlocks;
     yearLeapRemainder := yearLeapRemainder;
     weekdayShift := weekdayShift;
     overflowCorrection := overflowCorrection;
     rawOffset := rawOffset;
     month := rawOffset / 31;
     day := rawOffset mod 31 + 1 |}.

End Spec41.


(** The quantities of the specification, as the constants of the source. *)
Definition embed (q : Spec41.quantities) : Easter.locals :=
  {| Easter.a := of_Z (Spec41.goldenNumber q);
     Easter.b := of_Z (Spec41.century q);
     Easter.c := of_Z (Spec41.yearInCentury q);
     Easter.d := of_Z (Spec41.centuryLeapBlocks q);
     Easter.e := of_Z (Spec41.centuryLeapRemainder q);
     Easter.f := of_Z (Spec41.gregorianLeapSkip q);
     Easter.g := of_Z (Spec41.lunarCorrection q);
     Easter.h := of_Z (Spec41.epact q);
     Easter.i := of_Z (Spec41.yearLeapBlocks q);
     Easter.k := of_Z (Spec41.yearLeapRemainder q);
     Easter.l := of_Z (Spec41.weekdayShift q);
     Easter.m := of_Z (Spec41.overflowCorrection q);
     Easter.month := of_Z (Spec41.month q);
     Easter.day := of_Z (Spec41.day q) |}.


(** A triple of integers, as the tuple of numbers the source returns. *)
Definition tuple (t : Z * Z * Z) : number * number * number :=
  let '(y, month, day) := t in (of_Z y, of_Z month, of_Z day).

(** [x] is the integer-valued number of an integer between [lo] and [hi]. *)
Definition int_between (lo hi : Z) (x : number) : Prop :=
  exists z : Z, x = of_Z z /\ lo <= z <= hi.

(** [x] is the integer-valued number of an integer that is not negative. *)
Definition int_nonneg (x : number) : Prop :=
  exists z : Z, x = of_Z z /\ 0 <= z.

(** A [%] whose result is the mathematical modulo: the dividend is a
    non-negative integer, the divisor a positive one, and [%] returns the
    non-negative modulo of the two. *)
Definition rem_is_modulo (operands : number * number) : Prop :=
  exists z n : Z,
    fst operands = of_Z z /\ snd operands = of_Z n /\ 0 <= z /\ 0 < n /\
    JSNumber.rem (fst operands) (snd operands) = of_Z (z mod n).


(** ** ECMAScript dates (ECMA-262, Date objects): what [new Date(y, m, d)],
    [Date.UTC], the getters and [Math.round] compute *)

Module JSDate.

(** [Math.round(x)]: the integer nearest to [x], a tie going up. *)
Definition Math_round (x : number) : number :=
  match x with
  | Finite k => Finite ((2 * k + one) / (2 * one) * one)
  | _ => x
  end.

(** [x === y] on numbers: NaN equals nothing. *)
Definition strict_equal (x y : number) : bool :=
  match x, y with
  | Finite a, Finite b => (a =? b)
  | Infinity s, Infinity t => Bool.eqb s t
  | _, _ => false
  end.

(** The Number value of a mathematical integer: the nearest double. *)
Definition number_of_integer (z : Z) : number := round_ratio (z * one) 1.

(** ToIntegerOrInfinity on a finite number: the fraction is dropped. *)
Definition truncated (x : number) : option Z :=
  match x with
  | Finite k => Some (Z.quot k one)
  | _ => None
  end.

Definition msPerDay : Z := 86400000.
Definition msPerHour : Z := 3600000.
Definition msPerMinute : Z := 60000.
Definition msPerSecond : Z := 1000.

(** Day(t) *)
Definition Day (t : Z) : Z := t / msPerDay.

(** DaysInYear(y) *)
Definition DaysInYear (y : Z) : Z :=
  if negb (y mod 4 =? 0) then 365
  else if negb (y mod 100 =? 0) then 366
  else if negb (y mod 400 =? 0) then 365
  else 366.

(** DayFromYear(y): the day number of the first day of the year [y]. *)
Definition DayFromYear (y : Z) : Z :=
  365 * (y - 1970) + (y - 1969) / 4 - (y - 1901) / 100 + (y - 1601) / 400.

(** InLeapYear, as a function of the year. *)
Definition leap_day (y : Z) : Z := if (DaysInYear y =? 366) then 1 else 0.

(** YearFromTime(t) is the largest [y] with TimeFromYear(y) <= t.  It is
    computed from an estimate that is not above it and is brought nearer
    three times, which reaches it for every day number of a time value. *)
Definition nearer_year (D y : Z) : Z := y + (D - DayFromYear y) / 366.

Definition YearFromDay (D : Z) : Z :=
  let y0 := 1970 + Z.min (D / 366) (D / 365) in
  let y3 := nearer_year D (nearer_year D (nearer_year D y0)) in
  if (DayFromYear (y3 + 1) <=? D) then y3 + 1 else y3.

Definition YearFromTime (t : Z) : Z := YearFromDay (Day t).

(** DayWithinYear(t) *)
Definition DayWithinYear (t : Z) : Z := Day t - DayFromYear (YearFromTime t).

(** The table of MonthFromTime, on the day within the year. *)
Definition month_of_day (d leap : Z) : Z :=
  if (d <? 31) then 0
  else if (d <? 59 + leap) then 1
  else if (d <? 90 + leap) then 2
  else if (d <? 120 + leap) then 3
  else if (d <? 151 + leap) then 4
  else if (d <? 181 + leap) then 5
  else if (d <? 212 + leap) then 6
  else if (d <? 243 + leap) then 7
  else if (d <? 273 + leap) then 8
  else if (d <? 304 + leap) then 9
  else if (d <? 334 + leap) then 10
  else 11.

(** The day within the year of the first day of each month. *)
Definition days_before_month (m leap : Z) : Z :=
  match m with
  | 0 => 0
  | 1 => 31
  | 2 => 59 + leap
  | 3 => 90 + leap
  | 4 => 120 + leap
  | 5 => 151 + leap
  | 6 => 181 + leap
  | 7 => 212 + leap
  | 8 => 243 + leap
  | 9 => 273 + leap
  | 10 => 304 + leap
  | _ => 334 + leap
  end.

(** The number of days of each month. *)
Definition DaysInMonth (m leap : Z) : Z :=
  match m with
  | 1 => 28 + leap
  | 3 | 5 | 8 | 10 => 30
  | _ => 31
  end.

(** A date of the calendar: a month from 0 to 11 and a day of that month. *)
Definition calendar_date (y m d : Z) : Prop :=
  0 <= m <= 11 /\ 1 <= d <= DaysInMonth m (leap_day y).

(** The day number of a date of the calendar. *)
Definition day_number (y m d : Z) : Z :=
  DayFromYear y + days_before_month m (leap_day y) + d - 1.

(** MonthFromTime(t), DateFromTime(t) and WeekDay(t) *)
Definition MonthFromTime (t : Z) : Z :=
  month_of_day (DayWithinYear t) (leap_day (YearFromTime t)).

Definition DateFromTime (t : Z) : Z :=
  DayWithinYear t
  - days_before_month (MonthFromTime t) (leap_day (YearFromTime t)) + 1.

Definition WeekDay (t : Z) : Z := (Day t + 4) mod 7.

(** MakeTime(hour, min, sec, ms) *)
Definition MakeTime (hour min sec ms : number) : number :=
  match truncated hour, truncated min, truncated sec, truncated ms with
  | Some h, Some m, Some s, Some milli =>
      (of_Z h * of_Z msPerHour + of_Z m * of_Z msPerMinute
       + of_Z s * of_Z msPerSecond + of_Z milli)%js
  | _, _, _, _ => NaN
  end.

(** MakeDay(year, month, date).  The time value [t] looked for is one of the
    first day of the month; the time values are the integers from -2^53 to
    2^53, and when none of them lies in that day the result is NaN. *)
Definition MakeDay (year month date : number) : number :=
  match truncated year, truncated month, truncated date with
  | Some y, Some m, Some dt =>
      match (of_Z y + number_of_integer (m / 12))%js with
      | Finite k =>
          let ym := k / one in
          let mn := m mod 12 in
          let D := DayFromYear ym + days_before_month mn (leap_day ym) in
          if (D * msPerDay <=? 2 ^ 53) && (- 2 ^ 53 <? (D + 1) * msPerDay)
          then (of_Z D + of_Z dt - of_Z 1)%js
          else NaN
      | _ => NaN
      end
  | _, _, _ => NaN
  end.

(** MakeDate(day, time) *)
Definition MakeDate (day time : number) : number :=
  match day, time with
  | Finite _, Finite _ =>
      match (day * of_Z msPerDay + time)%js with
      | Finite tv => Finite tv
      | _ => NaN
      end
  | _, _ => NaN
  end.

(** MakeFullYear(year) *)
Definition MakeFullYear (year : number) : number :=
  match year with
  | Finite k =>
      let y := Z.quot k one in
      if (0 <=? y) && (y <=? 99) then of_Z (1900 + y) else of_Z y
  | _ => year
  end.

(** TimeClip(time) *)
Definition TimeClip (time : number) : number :=
  match time with
  | Finite k =>
      if 8640000000000000 * one <? Z.abs k then NaN
      else of_Z (Z.quot k one)
  | _ => NaN
  end.

(** What the host knows: its time zone, as the offset in milliseconds of
    the local time at a UTC time value and the offset it picks for a local
    time, and the name of the month of a time value in its locale. *)
Record Host : Type := {
  offset_at_utc : Z -> Z;
  offset_at_local : Z -> Z;
  month_long : Z -> string
}.

(** A Date object: its time value, an integer number of milliseconds or NaN. *)
Record Date : Type := { time_value : number }.

(** LocalTime(t) and UTC(t) *)
Definition LocalTime (host : Host) (t : Z) : Z := t + offset_at_utc host t.

Definition UTC (host : Host) (t : number) : number :=
  match t with
  | Finite k => (t - of_Z (offset_at_local host (k / one)))%js
  | _ => NaN
  end.

(** [new Date(year, month, date)] *)
Definition construct (host : Host) (year month date : number) : Date :=
  let yr := MakeFullYear year in
  let finalDate := MakeDate (MakeDay yr month date) (MakeTime 0 0 0 0)%js in
  {| time_value := TimeClip (UTC host finalDate) |}.

(** [Date.UTC(year, month, date)] *)
Definition Date_UTC (year month date : number) : number :=
  let yr := MakeFullYear year in
  TimeClip (MakeDate (MakeDay yr month date) (MakeTime 0 0 0 0)%js).

(** The local time of a Date, when its time value is not NaN. *)
Definition local_time (host : Host) (d : Date) : option Z :=
  match time_value d with
  | Finite k => Some (LocalTime host (k / one))
  | _ => None
  end.

Definition getter (f : Z -> Z) (host : Host) (d : Date) : number :=
  match local_time host d with
  | Some t => of_Z (f t)
  | None => NaN
  end.

(** [d.getFullYear()], [d.getMonth()], [d.getDate()] and [d.getDay()] *)
Definition getFullYear : Host -> Date -> number := getter YearFromTime.
Definition getMonth : Host -> Date -> number := getter MonthFromTime.
Definition getDate : Host -> Date -> number := getter DateFromTime.
Definition getDay : Host -> Date -> number := getter WeekDay.

(** [d.toLocaleDateString('default', { month: 'long' })] *)
Definition toLocaleDateString_month_long (host : Host) (d : Date) : string :=
  match time_value d with
  | Finite k => month_long host (k / one)
  | _ => "Invalid Date"
  end.

(** The host keeps the local day of the local midnight [T]: the time value
    it picks for [T] is, in local time, on the day of [T].  (It is [T]
    itself unless a change of the clocks skips that midnight.) *)
Definition keeps_local_day (host : Host) (T : Z) : Prop :=
  Day (LocalTime host (T - offset_at_local host T)) = Day T.

(** The offsets of a time zone stay below one day. *)
Definition offsets_below_a_day (host : Host) : Prop :=
  forall t : Z,
    Z.abs (offset_at_utc host t) < msPerDay /\
    Z.abs (offset_at_local host t) < msPerDay.

(** [isNaN(x)] and [Number.isNaN(x)] on a number. *)
Definition isNaN (x : number) : bool :=
  match x with NaN => true | _ => false end.

(** The time values of the Date objects that are not invalid: the integers
    that TimeClip keeps. *)
Definition time_in_range (t : Z) : Prop :=
  - 8640000000000000 <= t <= 8640000000000000.

(** The local day number, year, month (from 0) and day of the month of a
    time value. *)
Definition local_day (host : Host) (t : Z) : Z := Day (LocalTime host t).
Definition local_year (host : Host) (t : Z) : Z := YearFromTime (LocalTime host t).
Definition local_month (host : Host) (t : Z) : Z := MonthFromTime (LocalTime host t).
Definition local_date (host : Host) (t : Z) : Z := DateFromTime (LocalTime host t).

(** A host on Greenwich Mean Time all the year, with the English names of
    the months. *)
Definition english_month (m : Z) : string :=
  match m with
  | 0 => "January" | 1 => "February" | 2 => "March" | 3 => "April"
  | 4 => "May" | 5 => "June" | 6 => "July" | 7 => "August"
  | 8 => "September" | 9 => "October" | 10 => "November" | _ => "December"
  end.

Definition greenwich : Host :=
  {| offset_at_utc := fun _ => 0;
     offset_at_local := fun _ => 0;
     month_long := fun t => english_month (MonthFromTime t) |}.

End JSDate.

(** ** src/easter.js, [calculateEaster]: the date as a Date object *)

Module EasterWrapper.

Import JSDate.

(** [calculateEaster(year)], lines 137-140.  An exception of
    [calculateEasterYMD] propagates; [Number(x)] is [x] on a number. *)
Definition calculateEaster (host : Host) (year : JSValue) : completion Date :=
  match Easter.calculateEasterYMD year with
  | Throw error => Throw error
  | Return (y, month, day) => Return (construct host y (month - 1)%js day)
  end.

(** The day number of the date of the thirteen steps, and the time of its
    local midnight. *)
Definition easter_day_number (y : Z) : Z :=
  let q := Spec41.steps y in day_number y (Spec41.month q - 1) (Spec41.day q).

Definition easter_midnight (y : Z) : Z := easter_day_number y * msPerDay.

(** The time value the host picks for that local midnight. *)
Definition easter_time (host : Host) (y : Z) : Z :=
  easter_midnight y - offset_at_local host (easter_midnight y).

End EasterWrapper.

(** ** The messages of the three scripts *)

(** A template literal: its strings and the numbers it interpolates, in
    order.  Evaluating it converts the numbers with ToString and
    concatenates. *)
Inductive piece : Type :=
| Text (s : string)
| Interpolated (n : number).

Definition template : Type := list piece.

(** The message of an Invalid Date: its year and its day are NaN. *)
Definition invalid_message : template :=
  [Text "In "; Interpolated NaN; Text ", Easter will be on "; Text "Invalid Date";
   Text " "; Interpolated NaN; Text "."].

(** The three tenses of [compareDate]. *)
Definition known_tense (t : string) : Prop :=
  t = "past"%string \/ t = "present"%string \/ t = "future"%string.

(** ** src/main.js, first script: [compareDate] *)

Module Main1UI.

Import JSDate.
Local Open Scope js_scope.

(** [compareDate(jahr, monat, tag)], lines 103-171, called with the three
    numbers [calculateEaster] returns.  [today] is the [new Date()] of line
    111; the result is the array [[msg, tense]]. *)
Definition compareDate (host : Host) (today : Date) (jahr monat tag : number)
  : template * string :=
  let compDate := construct host jahr (monat - 1) tag in
  let compYear := getFullYear host compDate in
  let compMonth := getMonth host compDate + 1 in
  let compDay := getDate host compDate in
  let readableMonth := toLocaleDateString_month_long host compDate in
  let year := getFullYear host today in
  let month := getMonth host today + 1 in
  let day := getDate host today in
  if compYear <? year then
    if strict_equal compYear (year - 1) then
      ([Text "Last year, Easter was on "; Text readableMonth; Text " ";
        Interpolated compDay; Text "."], "past"%string)
    else
      ([Text "In "; Interpolated compYear; Text ", Easter was on ";
        Text readableMonth; Text " "; Interpolated compDay; Text "."], "past"%string)
  else if strict_equal compYear year then
    if strict_equal compMonth month && strict_equal compDay day then
      ([Text "Today, "; Text readableMonth; Text " "; Interpolated compDay;
        Text ", "; Interpolated compYear; Text " is Easter!"], "present"%string)
    else if strict_equal compMonth month && strict_equal compDay (day + 1) then
      ([Text "Tomorrow, "; Text readableMonth; Text " "; Interpolated compDay;
        Text ", "; Interpolated compYear; Text " is Easter!"], "future"%string)
    else if strict_equal compMonth month && strict_equal compDay (day - 1) then
      ([Text "Yesterday, "; Text readableMonth; Text " "; Interpolated compDay;
        Text ", "; Interpolated compYear; Text " was Easter!"], "past"%string)
    else if (compMonth <? month)
            || (strict_equal compMonth month && (compDay <? day)) then
      ([Text "This year, Easter was on "; Text readableMonth; Text " ";
        Interpolated compDay; Text "."], "past"%string)
    else
      ([Text "This year, Easter will be on "; Text readableMonth; Text " ";
        Interpolated compDay; Text "."], "future"%string)
  else
    if strict_equal compYear (year + 1) then
      ([Text "Next year, Easter will be on "; Text readableMonth; Text " ";
        Interpolated compDay; Text "."], "future"%string)
    else
      ([Text "In "; Interpolated compYear; Text ", Easter will be on ";
        Text readableMonth; Text " "; Interpolated compDay; Text "."], "future"%string).

(** The listener of lines 183-196, from the [y] that [parseInt] returned
    on.  [today1] and [today2] are the [new Date()] of the two calls of
    [compareDate].  The result is the text given to [output] and, when one
    is given, the value given as text to [tenseField]. *)
Definition input_listener (host : Host) (today1 today2 : Date) (y : number)
  : template * option JSValue :=
  if isNaN y || (y <? 1583) then
    ([Text "Pick any year after 1582."], None)
  else
    let '(jahr, monat, tag) := Main1.calculateEaster y in
    let msg := fst (compareDate host today1 jahr monat tag) in
    let tenseWord :=
      Main1.tenseSetter (JSString (snd (compareDate host today2 jahr monat tag))) in
    (msg, Some tenseWord).

End Main1UI.

(** ** src/main.js, second script: [compareDate] *)

(** The object [{ msg, tense }]. *)
Record report : Type := { msg : template; tense : string }.

(** What [compareDate] is called with: a Date or another value. *)
Inductive argument : Type :=
| ADate (d : JSDate.Date)
| NotADate (v : JSValue).

Module Main2UI.

Import JSDate.
Local Open Scope js_scope.

(** [compareDate(dateObj)], lines 209-275.  [today] is the [new Date()] of
    line 218. *)
Definition compareDate (host : Host) (today : Date) (dateObj : argument)
  : completion report :=
  match dateObj with
  | NotADate _ => Throw (TypeError "compareDate expects a Date")
  | ADate dateObj =>
      let compYear := getFullYear host dateObj in
      let compDay := getDate host dateObj in
      let readableMonth := toLocaleDateString_month_long host dateObj in
      let t0 := Date_UTC (getFullYear host today) (getMonth host today)
                         (getDate host today) in
      let t1 := Date_UTC (getFullYear host dateObj) (getMonth host dateObj)
                         (getDate host dateObj) in
      let diffDays := Math_round ((t1 - t0) / (24 * 60 * 60 * 1000)) in
      if strict_equal diffDays 0 then
        Return {| msg := [Text "Today, "; Text readableMonth; Text " ";
                          Interpolated compDay; Text ", "; Interpolated compYear;
                          Text " is Easter!"];
                  tense := "present" |}
      else if strict_equal diffDays 1 then
        Return {| msg := [Text "Tomorrow, "; Text readableMonth; Text " ";
                          Interpolated compDay; Text ", "; Interpolated compYear;
                          Text " is Easter!"];
                  tense := "future" |}
      else if strict_equal diffDays (-1) then
        Return {| msg := [Text "Yesterday, "; Text readableMonth; Text " ";
                          Interpolated compDay; Text ", "; Interpolated compYear;
                          Text " was Easter!"];
                  tense := "past" |}
      else
        let thisYear := getFullYear host today in
        if strict_equal compYear thisYear then
          if diffDays <? 0 then
            Return {| msg := [Text "This year, Easter was on "; Text readableMonth;
                              Text " "; Interpolated compDay; Text "."];
                      tense := "past" |}
          else
            Return {| msg := [Text "This year, Easter will be on ";
                              Text readableMonth; Text " "; Interpolated compDay;
                              Text "."];
                      tense := "future" |}
        else if strict_equal compYear (thisYear - 1) then
          Return {| msg := [Text "Last year, Easter was on "; Text readableMonth;
                            Text " "; Interpolated compDay; Text "."];
                    tense := "past" |}
        else if strict_equal compYear (thisYear + 1) then
          Return {| msg := [Text "Next year, Easter will be on "; Text readableMonth;
                            Text " "; Interpolated compDay; Text "."];
                    tense := "future" |}
        else if compYear <? thisYear then
          Return {| msg := [Text "In "; Interpolated compYear;
                            Text ", Easter was on "; Text readableMonth; Text " ";
                            Interpolated compDay; Text "."];
                    tense := "past" |}
        else
          Return {| msg := [Text "In "; Interpolated compYear;
                            Text ", Easter will be on "; Text readableMonth;
                            Text " "; Interpolated compDay; Text "."];
                    tense := "future" |}
  end.

(** [updateUIForYear(year)], lines 284-289: the texts given to [output] and
    to [tenseField] (each is written when its element exists). *)
Definition updateUIForYear (host : Host) (today : Date) (year : JSValue)
  : completion (template * string) :=
  match EasterWrapper.calculateEaster host year with
  | Throw error => Throw error
  | Return easterDate =>
      match compareDate host today (ADate easterDate) with
      | Throw error => Throw error
      | Return r => Return (msg r, Main2.tenseSetter (JSString (tense r)))
      end
  end.


End Main2UI.

(** ** src/unnamed/part_000: [compareDate] *)

Module Script3UI.

Import JSDate.
Local Open Scope js_scope.

(** [compareDate(dateObj)], lines 9-78: the text of the second script of
    [main.js], line for line. *)
Definition compareDate (host : Host) (today : Date) (dateObj : argument)
  : completion report :=
  match dateObj with
  | NotADate _ => Throw (TypeError "compareDate expects a Date")
  | ADate dateObj =>
      let compYear := getFullYear host dateObj in
      let compDay := getDate host dateObj in
      let readableMonth := toLocaleDateString_month_long host dateObj in
      let t0 := Date_UTC (getFullYear host today) (getMonth host today)
                         (getDate host today) in
      let t1 := Date_UTC (getFullYear host dateObj) (getMonth host dateObj)
                         (getDate host dateObj) in
      let diffDays := Math_round ((t1 - t0) / (24 * 60 * 60 * 1000)) in
      if strict_equal diffDays 0 then
        Return {| msg := [Text "Today, "; Text readableMonth; Text " ";
                          Interpolated compDay; Text ", "; Interpolated compYear;
                          Text " is Easter!"];
                  tense := "present" |}
      else if strict_equal diffDays 1 then
        Return {| msg := [Text "Tomorrow, "; Text readableMonth; Text " ";
                          Interpolated compDay; Text ", "; Interpolated compYear;
                          Text " is Easter!"];
                  tense := "future" |}
      else if strict_equal diffDays (-1) then
        Return {| msg := [Text "Yesterday, "; Text readableMonth; Text " ";
                          Interpolated compDay; Text ", "; Interpolated compYear;
                          Text " was Easter!"];
                  tense := "past" |}
      else
        let thisYear := getFullYear host today in
        if strict_equal compYear thisYear then
          if diffDays <? 0 then
            Return {| msg := [Text "This year, Easter was on "; Text readableMonth;
                              Text " "; Interpolated compDay; Text "."];
                      tense := "past" |}
          else
            Return {| msg := [Text "This year, Easter will be on ";
                              Text readableMonth; Text " "; Interpolated compDay;
                              Text "."];
                      tense := "future" |}
        else if strict_equal compYear (thisYear - 1) then
          Return {| msg := [Text "Last year, Easter was on "; Text readableMonth;
                            Text " "; Interpolated compDay; Text "."];
                    tense := "past" |}
        else if strict_equal compYear (thisYear + 1) then
          Return {| msg := [Text "Next year, Easter will be on "; Text readableMonth;
                            Text " "; Interpolated compDay; Text "."];
                    tense := "future" |}
        else if compYear <? thisYear then
          Return {| msg := [Text "In "; Interpolated compYear;
                            Text ", Easter was on "; Text readableMonth; Text " ";
                            Interpolated compDay; Text "."];
                    tense := "past" |}
        else
          Return {| msg := [Text "In "; Interpolated compYear;
                            Text ", Easter will be on "; Text readableMonth;
                            Text " "; Interpolated compDay; Text "."];
                    tense := "future" |}
  end.

(** [onYearInput(e)], lines 88-100, from the [y] that [parseInt] returned
    on: the texts given to [output] and to [tenseField]. *)
Definition onYearInput (host : Host) (today : Date) (y : number)
  : completion (template * string) :=
  if isNaN y || (y <? 1583) then
    Return ([Text "Pick any year after 1582."], String.EmptyString)
  else
    match EasterWrapper.calculateEaster host (JSNumber y) with
    | Throw error => Throw error
    | Return easterDate =>
        match compareDate host today (ADate easterDate) with
        | Throw error => Throw error
        | Return r => Return (msg r, Script3.tenseSetter (JSString (tense r)))
        end
    end.

End Script3UI.


(** ** Rounding: the facts the proofs need *)

Section Rounding.

Lemma one_pos : 0 < one.
Proof. unfold one. apply Z.pow_pos_nonneg; lia. Qed.

Lemma pow2_pos (n : Z) : 0 <= n -> 0 < 2 ^ n.
Proof. intros. apply Z.pow_pos_nonneg; lia. Qed.

(** [one] is [2^n] times a power of two, for every [n] up to 1074. *)
Lemma one_split (n : Z) : 0 <= n <= 1074 -> one = 2 ^ (1074 - n) * 2 ^ n.
Proof.
  intros Hn. unfold one. rewrite <- Z.pow_add_r by lia. f_equal. lia.
Qed.

Lemma pow53_le_one : 2 ^ 53 <= one.
Proof. unfold one. apply Z.pow_le_mono_r; lia. Qed.

(** A quotient that is an integer is not changed by the rounding. *)
Lemma rne_div_exact (c q : Z) : 0 < q -> rne_div (c * q) q = c.
Proof.
  intros Hq. unfold rne_div.
  rewrite Z.div_mul, Z.mod_mul by lia.
  replace (2 * 0) with 0 by reflexivity.
  destruct (Z.compare_spec 0 q); try lia; reflexivity.
Qed.

(** The rounded quotient is the floor or the floor plus one, and it is
    within half a unit of the exact quotient. *)
Lemma rne_div_bounds (p q : Z) :
  0 < q ->
  p / q <= rne_div p q <= p / q + 1 /\
  - q <= 2 * (rne_div p q * q - p) <= q.
Proof.
  intros Hq. unfold rne_div.
  pose proof (Z.div_mod p q ltac:(lia)) as Hdm.
  pose proof (Z.mod_pos_bound p q Hq) as Hr.
  destruct (Z.compare_spec (2 * (p mod q)) q) as [He | Hl | Hg];
    [destruct (Z.even (p / q)) | | ]; nia.
Qed.

(** Rounding depends on the value of the quotient only. *)
Lemma rne_div_scale (s p q : Z) :
  0 < s -> 0 < q -> rne_div (s * p) (s * q) = rne_div p q.
Proof.
  intros Hs Hq. unfold rne_div.
  rewrite Z.div_mul_cancel_l by lia.
  rewrite Z.mul_mod_distr_l by lia.
  destruct (Z.compare_spec (2 * (s * (p mod q))) (s * q));
    destruct (Z.compare_spec (2 * (p mod q)) q); try nia; reflexivity.
Qed.

(** From 2^53 on, the logarithm is at least 53. *)
Lemma log2_ge_53 (n : Z) : 2 ^ 53 <= n -> 53 <= Z.log2 n.
Proof.
  intros Hn. apply Z.log2_le_pow2; [|assumption].
  pose proof (pow2_pos 53). lia.
Qed.

Lemma round_pos_scale (s p q : Z) :
  0 < s -> 0 < q -> round_pos (s * p) (s * q) = round_pos p q.
Proof.
  intros Hs Hq. unfold round_pos.
  rewrite Z.div_mul_cancel_l by lia.
  rewrite rne_div_scale by assumption.
  destruct (Z.ltb_spec (p / q) (2 ^ 53)) as [|Hn]; [reflexivity|].
  apply log2_ge_53 in Hn.
  rewrite <- Z.mul_assoc.
  rewrite rne_div_scale; [reflexivity | assumption |].
  apply Z.mul_pos_pos; [assumption|].
  apply pow2_pos. lia.
Qed.

(** The standard error model.  Below 2^53 units the result is within half
    a unit of the exact value; from there on the error is at most the value
    divided by 2^53. *)
Lemma round_pos_error (p q : Z) :
  0 <= p -> 0 < q ->
  (p / q < 2 ^ 53 /\ - q <= 2 * (round_pos p q * q - p) <= q) \/
  (2 ^ 53 <= p / q /\ 2 ^ 53 * Z.abs (round_pos p q * q - p) <= p).
Proof.
  intros Hp Hq. unfold round_pos.
  destruct (Z.ltb_spec (p / q) (2 ^ 53)) as [Hn | Hn].
  - left. split; [assumption|]. apply rne_div_bounds; assumption.
  - right. split; [assumption|].
    pose proof (log2_ge_53 _ Hn) as Hl.
    assert (Hn0 : 0 < p / q) by (pose proof (pow2_pos 53); lia).
    destruct (Z.log2_spec _ Hn0) as [Hlo _].
    replace (Z.log2 (p / q)) with (52 + (Z.log2 (p / q) - 52)) in Hlo by lia.
    rewrite Z.pow_add_r in Hlo by lia.
    pose proof (pow2_pos (Z.log2 (p / q) - 52) ltac:(lia)) as HP.
    set (P := 2 ^ (Z.log2 (p / q) - 52)) in *.
    assert (HqP : 0 < q * P) by nia.
    destruct (rne_div_bounds p (q * P) HqP) as [_ Hb].
    set (r := rne_div p (q * P)) in *.
    pose proof (Z.mul_div_le p q Hq) as Hm.
    change (2 ^ 53) with (2 * 2 ^ 52).
    assert (2 ^ 52 * (q * P) <= p) by nia.
    assert (0 < 2 ^ 52) by (apply pow2_pos; lia).
    nia.
Qed.

Lemma round_pos_nonneg (p q : Z) : 0 <= p -> 0 < q -> 0 <= round_pos p q.
Proof.
  intros Hp Hq. unfold round_pos.
  assert (Hd : forall q', 0 < q' -> 0 <= rne_div p q').
  { intros q' Hq'. destruct (rne_div_bounds p q' Hq') as [[Hl _] _].
    pose proof (Z.div_pos p q' Hp Hq'). lia. }
  destruct (Z.ltb_spec (p / q) (2 ^ 53)) as [Hn | Hn]; [auto|].
  pose proof (log2_ge_53 _ Hn) as Hl.
  pose proof (pow2_pos (Z.log2 (p / q) - 52) ltac:(lia)) as HP.
  apply Z.mul_nonneg_nonneg; [apply Hd; nia | lia].
Qed.

End Rounding.

(** ** Integers as doubles *)

Section IntegerValues.

(** The exponent chosen for a positive integer value [z]: its logarithm
    plus 1074 - 52. *)
Lemma round_pos_int_unfold (z : Z) :
  0 < z ->
  round_pos (z * one) 1 =
  rne_div (z * one) (2 ^ (Z.log2 z + 1022)) * 2 ^ (Z.log2 z + 1022).
Proof.
  intros Hz. unfold round_pos. rewrite Z.div_1_r.
  pose proof pow53_le_one as H53. pose proof one_pos as H1.
  destruct (Z.ltb_spec (z * one) (2 ^ 53)) as [Hn | Hn]; [nia|].
  unfold one at 2 3. rewrite Z.log2_mul_pow2 by lia.
  rewrite Z.mul_1_l.
  replace (1074 + Z.log2 z - 52) with (Z.log2 z + 1022) by lia.
  reflexivity.
Qed.

(** Integers below 2^53 are doubles: rounding leaves them as they are. *)
Lemma round_int_small (z : Z) :
  0 <= z < 2 ^ 53 -> round_pos (z * one) 1 = z * one.
Proof.
  intros [Hz0 Hz]. destruct (Z.eq_dec z 0) as [-> | Hne].
  - reflexivity.
  - rewrite round_pos_int_unfold by lia.
    assert (Hl : Z.log2 z < 53) by (apply Z.log2_lt_pow2; lia).
    pose proof (Z.log2_nonneg z) as Hl0.
    set (e := Z.log2 z + 1022) in *.
    rewrite (one_split e) by lia.
    rewrite Z.mul_assoc, rne_div_exact by (apply pow2_pos; lia).
    reflexivity.
Qed.

(** Every non-negative integer rounds to an integer, with a relative error
    of at most 2^-53. *)
Lemma round_int_big (z : Z) :
  0 <= z ->
  exists z', round_pos (z * one) 1 = z' * one /\ 0 <= z' /\
             2 ^ 53 * Z.abs (z' - z) <= z.
Proof.
  intros Hz0. destruct (Z.lt_ge_cases z (2 ^ 53)) as [Hz | Hz].
  - exists z. rewrite round_int_small by lia.
    replace (z - z) with 0 by lia. simpl Z.abs. lia.
  - pose proof (log2_ge_53 _ Hz) as Hl.
    assert (Hz1 : 0 < z) by (pose proof (pow2_pos 53); lia).
    rewrite round_pos_int_unfold by assumption.
    replace (Z.log2 z + 1022) with (1074 + (Z.log2 z - 52)) by lia.
    rewrite Z.pow_add_r by lia. fold one.
    destruct (Z.log2_spec _ Hz1) as [Hlo _].
    replace (Z.log2 z) with (52 + (Z.log2 z - 52)) in Hlo by lia.
    rewrite Z.pow_add_r in Hlo by lia.
    pose proof (pow2_pos (Z.log2 z - 52) ltac:(lia)) as HP.
    set (P := 2 ^ (Z.log2 z - 52)) in *.
    rewrite (Z.mul_comm z one), rne_div_scale by (auto using one_pos).
    destruct (rne_div_bounds z P HP) as [[Hfl _] Hb].
    pose proof (Z.div_pos z P Hz0 HP).
    exists (rne_div z P * P). split; [ring|]. split; [nia|].
    change (2 ^ 53) with (2 * 2 ^ 52).
    assert (0 < 2 ^ 52) by (apply pow2_pos; lia).
    nia.
Qed.

(** The quotient of an integer [x >= 1] by an integer [n <= 2^53] has at
    least 2^53 units. *)
Lemma quot_units_large (x n : Z) :
  0 < x -> 0 < n <= 2 ^ 53 -> 2 ^ 53 <= x * one / n.
Proof.
  intros Hx Hn. apply Z.div_le_lower_bound; [lia|].
  assert (2 ^ 53 * 2 ^ 53 <= one).
  { unfold one. rewrite <- Z.pow_add_r by lia. apply Z.pow_le_mono_r; lia. }
  nia.
Qed.

(** [Math.floor(x / n)] on integers, in the error model: the floor [F] of
    the rounded quotient satisfies [n * F <= x * (1 + 2^-53)] and
    [x * (1 - 2^-53) < n * (F + 1)]. *)
Lemma round_quot_floor_big (x n : Z) :
  0 <= x -> 0 < n <= 2 ^ 53 ->
  0 <= round_pos (x * one) n / one /\
  2 ^ 53 * (n * (round_pos (x * one) n / one)) <= (2 ^ 53 + 1) * x /\
  (2 ^ 53 - 1) * x < 2 ^ 53 * (n * (round_pos (x * one) n / one + 1)) /\
  2 ^ 53 * round_pos (x * one) n <= (2 ^ 53 + 1) * (x * one).
Proof.
  intros Hx Hn. pose proof one_pos as H1.
  assert (Hp : 0 <= x * one) by nia.
  pose proof (round_pos_nonneg (x * one) n Hp ltac:(lia)) as HR0.
  pose proof (Z.div_pos _ one HR0 H1) as HF0.
  pose proof (Z.mul_div_le (round_pos (x * one) n) one H1) as Hlo.
  pose proof (Z.mul_succ_div_gt (round_pos (x * one) n) one H1) as Hhi.
  assert (H53 : 0 < 2 ^ 53) by (apply pow2_pos; lia).
  assert (Herr : 2 ^ 53 * Z.abs (round_pos (x * one) n * n - x * one) <= x * one).
  { destruct (Z.eq_dec x 0) as [-> | Hne].
    - rewrite Z.mul_0_l. unfold round_pos, rne_div. rewrite Z.div_0_l, Z.mod_0_l by lia.
      simpl. destruct n; simpl; lia.
    - destruct (round_pos_error (x * one) n Hp ltac:(lia)) as [[Hc _] | [_ Hc]];
        [|exact Hc].
      pose proof (quot_units_large x n ltac:(lia) Hn). lia. }
  set (R := round_pos (x * one) n) in *.
  set (F := R / one) in *.
  repeat split; try assumption.
  - apply (Z.mul_le_mono_pos_r _ _ one H1). nia.
  - apply (Z.mul_lt_mono_pos_r one _ _ H1). nia.
  - nia.
Qed.

(** ... and exactly: on integers below 2^53 the floor of the rounded
    quotient is the quotient of the integer division. *)
Lemma round_quot_floor_small (x n : Z) :
  0 <= x < 2 ^ 53 -> 0 < n <= 2 ^ 53 ->
  round_pos (x * one) n / one = x / n.
Proof.
  intros [Hx0 Hx] Hn. pose proof one_pos as H1.
  assert (H53 : 0 < 2 ^ 53) by (apply pow2_pos; lia).
  destruct (round_quot_floor_big x n Hx0 Hn) as (HF0 & Hup & _ & _).
  apply Z.le_antisymm.
  - apply Z.div_le_lower_bound; [lia|].
    set (F := round_pos (x * one) n / one) in *. nia.
  - apply Z.div_le_lower_bound; [lia|].
    destruct (Z.eq_dec x 0) as [-> | Hne].
    { rewrite Z.div_0_l by lia. rewrite Z.mul_0_r.
      apply round_pos_nonneg; lia. }
    pose proof (quot_units_large x n ltac:(lia) Hn) as Hq.
    unfold round_pos.
    destruct (Z.ltb_spec (x * one / n) (2 ^ 53)) as [Hc | _]; [lia|].
    pose proof (log2_ge_53 _ Hq) as Hl.
    assert (Hlt : Z.log2 (x * one / n) < 1127).
    { apply Z.log2_lt_pow2; [lia|].
      apply Z.div_lt_upper_bound; [lia|].
      replace 1127 with (53 + 1074) by lia. rewrite Z.pow_add_r by lia. fold one.
      nia. }
    set (e := Z.log2 (x * one / n) - 52) in *.
    pose proof (pow2_pos e ltac:(lia)) as HP.
    pose proof (pow2_pos (1074 - e) ltac:(lia)) as HE.
    rewrite (one_split e) by lia.
    set (P := 2 ^ e) in *. set (E := 2 ^ (1074 - e)) in *.
    replace (x * (E * P)) with (P * (x * E)) by ring.
    rewrite (Z.mul_comm n P), rne_div_scale by lia.
    destruct (rne_div_bounds (x * E) n ltac:(lia)) as [[Hfl _] _].
    assert (x / n * E <= x * E / n).
    { apply Z.div_le_lower_bound; [lia|].
      pose proof (Z.mul_div_le x n ltac:(lia)). nia. }
    nia.
Qed.

End IntegerValues.

(** ** The operations on integer-valued numbers *)

Section NumberOps.

Lemma max_value_eq : MAX_VALUE = (2 ^ 53 - 1) * 2 ^ 971.
Proof. reflexivity. Qed.

Lemma overflow_eq : overflow = 2 ^ 53 * 2 ^ 971 * one.
Proof. reflexivity. Qed.

Lemma of_Z_inj (x y : Z) : of_Z x = of_Z y -> x = y.
Proof.
  unfold of_Z. intros H. injection H as H.
  pose proof one_pos. nia.
Qed.

Lemma round_ratio_scale (s p q : Z) :
  0 < s -> 0 < q -> round_ratio (s * p) (s * q) = round_ratio p q.
Proof.
  intros Hs Hq. unfold round_ratio.
  rewrite Z.abs_mul, (Z.abs_eq s) by lia.
  rewrite round_pos_scale by assumption.
  rewrite Z.sgn_mul, (Z.sgn_pos s) by lia. rewrite Z.mul_1_l.
  replace (s * p <? 0) with (p <? 0); [reflexivity|].
  destruct (Z.ltb_spec p 0), (Z.ltb_spec (s * p) 0); try reflexivity; nia.
Qed.

(** Rounding an integer value of magnitude below 2^53 changes nothing. *)
Lemma round_ratio_int_small (z : Z) :
  Z.abs z < 2 ^ 53 -> round_ratio (z * one) 1 = of_Z z.
Proof.
  intros Hz. unfold round_ratio, of_Z. pose proof one_pos as H1.
  rewrite Z.abs_mul, (Z.abs_eq one) by lia.
  rewrite round_int_small by lia.
  rewrite overflow_eq.
  pose proof (pow2_pos 971 ltac:(lia)) as HW. set (W := 2 ^ 971) in *. clearbody W.
  destruct (Z.ltb_spec (Z.abs z * one) (2 ^ 53 * W * one)) as [_ | Hc]; [|nia].
  f_equal. rewrite Z.sgn_mul, (Z.sgn_pos one) by lia.
  rewrite Z.mul_1_r, Z.mul_assoc, (Z.mul_comm (Z.sgn z)), Z.abs_sgn.
  reflexivity.
Qed.

(** Rounding a non-negative integer value up to MAX_VALUE gives an integer
    value, with a relative error of at most 2^-53, and no overflow. *)
Lemma round_ratio_int_big (z : Z) :
  0 <= z <= MAX_VALUE ->
  exists z', round_ratio (z * one) 1 = of_Z z' /\ 0 <= z' <= MAX_VALUE + 2 ^ 971 /\
             2 ^ 53 * Z.abs (z' - z) <= z.
Proof.
  intros [Hz0 Hz]. unfold round_ratio, of_Z. pose proof one_pos as H1.
  assert (Hp : 0 <= z * one) by nia.
  rewrite (Z.abs_eq _ Hp).
  destruct (round_int_big z Hz0) as (z' & -> & Hz'0 & Hz').
  rewrite overflow_eq. rewrite max_value_eq in *.
  pose proof (pow2_pos 971 ltac:(lia)) as HW. set (W := 2 ^ 971) in *. clearbody W.
  assert (Hlt : z' < 2 ^ 53 * W) by lia.
  destruct (Z.ltb_spec (z' * one) (2 ^ 53 * W * one)) as [_ | Hc]; [|nia].
  exists z'. split; [|lia].
  f_equal. destruct (Z.eq_dec z 0) as [-> | Hne].
  - assert (z' = 0) by lia. subst. reflexivity.
  - rewrite Z.sgn_pos by nia. lia.
Qed.

Local Open Scope js_scope.

Lemma add_small (x y : Z) :
  (Z.abs (x + y) < 2 ^ 53)%Z -> of_Z x + of_Z y = of_Z (x + y).
Proof.
  intros H. change (of_Z x + of_Z y) with (round_ratio (x * one + y * one) 1).
  rewrite <- Z.mul_add_distr_r. apply round_ratio_int_small, H.
Qed.

Lemma sub_small (x y : Z) :
  (Z.abs (x - y) < 2 ^ 53)%Z -> of_Z x - of_Z y = of_Z (x - y).
Proof.
  intros H.
  change (of_Z x - of_Z y) with (round_ratio (x * one + - (y * one)) 1).
  replace (x * one + - (y * one))%Z with ((x - y) * one)%Z by ring.
  apply round_ratio_int_small, H.
Qed.

Lemma mul_small (x y : Z) :
  (Z.abs (x * y) < 2 ^ 53)%Z -> of_Z x * of_Z y = of_Z (x * y).
Proof.
  intros H.
  change (of_Z x * of_Z y) with (round_ratio (x * one * (y * one)) one).
  replace (x * one * (y * one))%Z with (one * (x * y * one))%Z by ring.
  rewrite <- (Z.mul_1_r one) at 3.
  rewrite round_ratio_scale by (pose proof one_pos; lia).
  apply round_ratio_int_small, H.
Qed.

(** [%] is exact whatever the size of the operands. *)
Lemma rem_of_Z (x n : Z) :
  n <> 0%Z -> (of_Z x) rem (of_Z n) = of_Z (Z.rem x n).
Proof.
  intros Hn. pose proof one_pos as H1.
  change (of_Z x rem of_Z n)
    with (if (n * one =? 0)%Z then NaN else Finite (Z.rem (x * one) (n * one))).
  destruct (Z.eqb_spec (n * one) 0) as [Hc | _]; [nia|].
  rewrite Z.mul_rem_distr_r by lia. reflexivity.
Qed.

Lemma div_of_Z (x n : Z) :
  (0 < n)%Z -> of_Z x / of_Z n = round_ratio (x * one) n.
Proof.
  intros Hn. pose proof one_pos as H1.
  change (of_Z x / of_Z n)
    with (if (n * one =? 0)%Z
          then (if (x * one =? 0)%Z then NaN else Infinity (x * one <? 0)%Z)
          else round_ratio (Z.sgn (n * one) * (x * one) * one) (Z.abs (n * one))).
  destruct (Z.eqb_spec (n * one) 0) as [Hc | _]; [nia|].
  rewrite Z.sgn_pos, Z.abs_eq by nia.
  rewrite Z.mul_1_l, (Z.mul_comm n one), (Z.mul_comm _ one).
  apply round_ratio_scale; lia.
Qed.

(** [Math.floor(x / n)] on a non-negative integer [x] up to MAX_VALUE and a
    positive integer [n]: an integer, within the error model. *)
Lemma floor_div_big (x n : Z) :
  (0 <= x <= MAX_VALUE)%Z -> (0 < n <= 2 ^ 53)%Z ->
  exists F : Z,
    Math_floor (of_Z x / of_Z n) = of_Z F /\
    (0 <= F)%Z /\
    (2 ^ 53 * (n * F) <= (2 ^ 53 + 1) * x)%Z /\
    ((2 ^ 53 - 1) * x < 2 ^ 53 * (n * (F + 1)))%Z /\
    (x < 2 ^ 53 -> F = x / n)%Z.
Proof.
  intros [Hx0 Hx] Hn. rewrite div_of_Z by lia.
  unfold round_ratio. pose proof one_pos as H1.
  assert (Hp : (0 <= x * one)%Z) by nia.
  rewrite (Z.abs_eq _ Hp).
  destruct (round_quot_floor_big x n Hx0 Hn) as (HF0 & Hup & Hlo & HR).
  pose proof (round_pos_nonneg (x * one) n Hp ltac:(lia)) as HR0.
  rewrite overflow_eq. rewrite max_value_eq in Hx.
  pose proof (pow2_pos 971 ltac:(lia)) as HW. set (W := (2 ^ 971)%Z) in *. clearbody W.
  destruct (Z.ltb_spec (round_pos (x * one) n) (2 ^ 53 * W * one)) as [_ | Hc];
    [|nia].
  exists (round_pos (x * one) n / one)%Z. split; [|repeat split; try assumption].
  - unfold Math_floor, of_Z. f_equal.
    destruct (Z.eq_dec x 0) as [-> | Hne].
    + assert (round_pos (0 * one) n = 0)%Z as -> by nia. reflexivity.
    + rewrite Z.sgn_pos by nia. rewrite Z.mul_1_l. reflexivity.
  - intros Hs. apply round_quot_floor_small; lia.
Qed.

Lemma floor_div_small (x n : Z) :
  (0 <= x < 2 ^ 53)%Z -> (0 < n <= 2 ^ 53)%Z ->
  Math_floor (of_Z x / of_Z n) = of_Z (x / n).
Proof.
  intros Hx Hn.
  destruct (floor_div_big x n) as (F & -> & _ & _ & _ & HF); try lia.
  - rewrite max_value_eq. pose proof (pow2_pos 971 ltac:(lia)). nia.
  - rewrite HF by lia. reflexivity.
Qed.

(** [+] and [-] on integers with a non-negative result up to MAX_VALUE. *)
Lemma add_big (x y : Z) :
  (0 <= x + y <= MAX_VALUE)%Z ->
  exists z : Z, of_Z x + of_Z y = of_Z z /\ (0 <= z)%Z /\
                (- (x + y) <= 2 ^ 53 * (z - (x + y)) <= x + y)%Z.
Proof.
  intros H. change (of_Z x + of_Z y) with (round_ratio (x * one + y * one) 1).
  rewrite <- Z.mul_add_distr_r.
  destruct (round_ratio_int_big _ H) as (z & Hz & Hb & He).
  exists z. repeat split; try assumption; lia.
Qed.

Lemma sub_big (x y : Z) :
  (0 <= x - y <= MAX_VALUE)%Z ->
  exists z : Z, of_Z x - of_Z y = of_Z z /\ (0 <= z)%Z /\
                (- (x - y) <= 2 ^ 53 * (z - (x - y)) <= x - y)%Z.
Proof.
  intros H.
  change (of_Z x - of_Z y) with (round_ratio (x * one + - (y * one)) 1).
  replace (x * one + - (y * one))%Z with ((x - y) * one)%Z by ring.
  destruct (round_ratio_int_big _ H) as (z & Hz & Hb & He).
  exists z. repeat split; try assumption; lia.
Qed.

Lemma lt_of_Z (x y : Z) : (of_Z x <? of_Z y) = (x <? y)%Z.
Proof.
  unfold lt, of_Z. pose proof one_pos.
  destruct (Z.ltb_spec (x * one) (y * one)), (Z.ltb_spec x y);
    try reflexivity; nia.
Qed.

(** [Number.isInteger] holds of the integer-valued numbers, and of no other. *)
Lemma isInteger_of_Z (z : Z) : JSNumber.is_integer (of_Z z) = true.
Proof.
  unfold JSNumber.is_integer, of_Z.
  rewrite Z.mod_mul by (pose proof one_pos; lia). reflexivity.
Qed.

Lemma isInteger_inv (n : number) :
  JSNumber.is_integer n = true -> exists z, n = of_Z z.
Proof.
  destruct n as [| |k]; simpl; try discriminate.
  intros H. apply Z.eqb_eq in H. exists (k / one)%Z. unfold of_Z. f_equal.
  pose proof (Z.div_mod k one ltac:(pose proof one_pos; lia)). lia.
Qed.

(** The division that decides the largest years, against the IEEE-754
    division of the Standard Library ([SpecFloat], binary64): both give
    4800000000000008 * 2^-3, that is 600000000000001. *)
Example division_as_in_SpecFloat :
  SFdiv 53 1024 (binary_normalize 53 1024 60000000000000096 0 false)
                (binary_normalize 53 1024 100 0 false) =
    S754_finite false 4800000000000008 (-3) /\
  of_Z 60000000000000096 / of_Z 100 = Finite (4800000000000008 * 2 ^ (1074 - 3)) /\
  Math_floor (of_Z 60000000000000096 / of_Z 100) = of_Z 600000000000001.
Proof. split; [|split]; vm_compute; reflexivity. Qed.

End NumberOps.

(** ** The constants of [calculateEasterYMD] are integers *)

Section Computus.

Local Open Scope js_scope.

(** [computus], with the integer literals written [of_Z _]. *)
Lemma computus_unfold (y : number) :
  Easter.computus y =
  let mc := of_Z 19 in
  let a := y rem mc in
  let b := Math_floor (y / of_Z 100) in
  let c := y rem of_Z 100 in
  let d := Math_floor (b / of_Z 4) in
  let e := b rem of_Z 4 in
  let f := Math_floor ((b + of_Z 8) / of_Z 25) in
  let g := Math_floor ((b - f + of_Z 1) / of_Z 3) in
  let h := ((mc * a) + b - d - g + of_Z 15) rem of_Z 30 in
  let i := Math_floor (c / of_Z 4) in
  let k := c rem of_Z 4 in
  let l := (of_Z 32 + (of_Z 2 * e) + (of_Z 2 * i) - h - k) rem of_Z 7 in
  let m := Math_floor ((a + (of_Z 11 * h) + (of_Z 22 * l)) / of_Z 451) in
  let month := Math_floor ((h + l - (of_Z 7 * m) + of_Z 114) / of_Z 31) in
  let day := ((h + l - (of_Z 7 * m) + of_Z 114) rem of_Z 31) + of_Z 1 in
  {| Easter.a := a; Easter.b := b; Easter.c := c; Easter.d := d;
     Easter.e := e; Easter.f := f; Easter.g := g; Easter.h := h;
     Easter.i := i; Easter.k := k; Easter.l := l; Easter.m := m;
     Easter.month := month; Easter.day := day |}.
Proof. reflexivity. Qed.

(** Every constant is an integer.  The century and its corrections and the
    dividend of the epact are the rounded ones: below 2^53 the division by
    100 does not round, and with a century below 2^52 no later operation
    rounds, so that they are those of the specification. *)
Theorem computus_int (y : Z) :
  (1583 <= y <= MAX_VALUE)%Z ->
  exists b d f g S : Z,
    (0 <= b /\ 0 <= d /\ 0 <= f /\ 0 <= g /\ 0 <= S)%Z /\
    Easter.computus (of_Z y) = embed (Spec41.from_century y b d f g S) /\
    of_Z 19 * of_Z (y mod 19) + of_Z b - of_Z d - of_Z g + of_Z 15 = of_Z S /\
    (y < 2 ^ 53 -> b = y / 100)%Z /\
    (b < 2 ^ 52 ->
     d = b / 4 /\ f = (b + 8) / 25 /\ g = (b - f + 1) / 3 /\
     S = 19 * (y mod 19) + b - d - g + 15)%Z.
Proof.
  intros [Hy HyM].
  assert (HM : (2 ^ 53 <= MAX_VALUE)%Z) by (vm_compute; discriminate).
  assert (H53 : (2 ^ 53 = 9007199254740992)%Z) by reflexivity.
  (* the century and its corrections *)
  destruct (floor_div_big y 100) as (b0 & Eb & Hb0 & Hbu & Hbl & Hbe); [lia | lia |].
  destruct (floor_div_big b0 4) as (d0 & Ed & Hd0 & Hdu & Hdl & Hde); [lia | lia |].
  destruct (add_big b0 8) as (z1 & Ez1 & Hz10 & Hz1); [lia|].
  destruct (floor_div_big z1 25) as (f0 & Ef & Hf0 & Hfu & Hfl & Hfe); [lia | lia |].
  destruct (sub_big b0 f0) as (z2 & Ez2 & Hz20 & Hz2); [lia|].
  destruct (add_big z2 1) as (z3 & Ez3 & Hz30 & Hz3); [lia|].
  destruct (floor_div_big z3 3) as (g0 & Eg & Hg0 & Hgu & Hgl & Hge); [lia | lia |].
  (* the dividend of the epact *)
  pose proof (Z.mod_pos_bound y 19 ltac:(lia)) as Ha.
  set (a0 := (y mod 19)%Z) in *.
  destruct (add_big (19 * a0) b0) as (t1 & Et1 & Ht10 & Ht1); [lia|].
  destruct (sub_big t1 d0) as (t2 & Et2 & Ht20 & Ht2); [lia|].
  destruct (sub_big t2 g0) as (t3 & Et3 & Ht30 & Ht3); [lia|].
  destruct (add_big t3 15) as (S0 & ES & HS0 & HS); [lia|].
  exists b0, d0, f0, g0, S0.
  split; [lia|].
  assert (Eop : of_Z 19 * of_Z a0 + of_Z b0 - of_Z d0 - of_Z g0 + of_Z 15 = of_Z S0).
  { rewrite mul_small by lia. rewrite Et1, Et2, Et3, ES. reflexivity. }
  split; [|split; [exact Eop|]].
  2:{ assert (H52 : (2 ^ 52 = 4503599627370496)%Z) by reflexivity.
      split; [intros Hs; apply Hbe; lia|]. intros Hs.
      assert (d0 = b0 / 4)%Z by (apply Hde; lia).
      assert (z1 = b0 + 8)%Z by lia.
      assert (f0 = z1 / 25)%Z by (apply Hfe; lia).
      assert (Hff : (0 <= z1 / 25 <= z1)%Z) by (Z.to_euclidean_division_equations; lia).
      assert (z2 = b0 - f0)%Z by lia.
      assert (z3 = z2 + 1)%Z by lia.
      assert (g0 = z3 / 3)%Z by (apply Hge; lia).
      assert (Hgg : (0 <= z3 / 3 <= z3)%Z) by (Z.to_euclidean_division_equations; lia).
      assert (Hdd : (0 <= b0 / 4 <= b0)%Z) by (Z.to_euclidean_division_equations; lia).
      assert (t1 = 19 * a0 + b0)%Z by lia.
      assert (t2 = t1 - d0)%Z by lia.
      assert (t3 = t2 - g0)%Z by lia.
      assert (S0 = t3 + 15)%Z by lia.
      repeat split; try congruence; lia. }
  rewrite computus_unfold. cbv zeta.
  rewrite (rem_of_Z y 19), (rem_of_Z y 100) by lia.
  rewrite !Z.rem_mod_nonneg by lia. fold a0.
  pose proof (Z.mod_pos_bound y 100 ltac:(lia)) as Hc.
  set (c0 := (y mod 100)%Z) in *.
  rewrite Eb, Ed, (rem_of_Z b0 4), Z.rem_mod_nonneg by lia.
  pose proof (Z.mod_pos_bound b0 4 ltac:(lia)) as He.
  set (e0 := (b0 mod 4)%Z) in *.
  rewrite Ez1, Ef, Ez2, Ez3, Eg, Eop.
  rewrite (rem_of_Z S0 30), Z.rem_mod_nonneg by lia.
  pose proof (Z.mod_pos_bound S0 30 ltac:(lia)) as Hh.
  set (h0 := (S0 mod 30)%Z) in *.
  rewrite (floor_div_small c0 4), (rem_of_Z c0 4), Z.rem_mod_nonneg by lia.
  assert (Hi : (0 <= c0 / 4 <= 24)%Z) by (Z.to_euclidean_division_equations; lia).
  set (i0 := (c0 / 4)%Z) in *.
  pose proof (Z.mod_pos_bound c0 4 ltac:(lia)) as Hk.
  set (k0 := (c0 mod 4)%Z) in *.
  rewrite !mul_small, !add_small, !sub_small by lia.
  rewrite (rem_of_Z _ 7), Z.rem_mod_nonneg by lia.
  pose proof (Z.mod_pos_bound (32 + 2 * e0 + 2 * i0 - h0 - k0) 7 ltac:(lia)) as Hl.
  set (l0 := ((32 + 2 * e0 + 2 * i0 - h0 - k0) mod 7)%Z) in *.
  rewrite !mul_small, !add_small by lia.
  rewrite floor_div_small by lia.
  assert (Hm : (0 <= (a0 + 11 * h0 + 22 * l0) / 451 <= 1)%Z)
    by (Z.to_euclidean_division_equations; lia).
  set (m0 := ((a0 + 11 * h0 + 22 * l0) / 451)%Z) in *.
  rewrite !mul_small, !sub_small, !add_small by lia.
  rewrite floor_div_small, (rem_of_Z _ 31), Z.rem_mod_nonneg by lia.
  pose proof (Z.mod_pos_bound (h0 + l0 - 7 * m0 + 114) 31 ltac:(lia)).
  rewrite add_small by lia.
  reflexivity.
Qed.

End Computus.

(** ** The integer algorithm: ranges *)

Section Ranges.

Variables year century blocks skip lunar dividend : Z.

Let q := Spec41.from_century year century blocks skip lunar dividend.

(** The ranges of the remainders and of what is computed from them. *)
Lemma from_century_ranges :
  0 <= Spec41.goldenNumber q <= 18 /\
  0 <= Spec41.yearInCentury q <= 99 /\
  0 <= Spec41.centuryLeapRemainder q <= 3 /\
  0 <= Spec41.epact q <= 29 /\
  0 <= Spec41.yearLeapBlocks q <= 24 /\
  0 <= Spec41.yearLeapRemainder q <= 3 /\
  0 <= Spec41.weekdayShift q <= 6 /\
  0 <= Spec41.overflowCorrection q <= 1.
Proof.
  subst q. unfold Spec41.from_century. cbv zeta.
  cbv [Spec41.goldenNumber Spec41.yearInCentury Spec41.centuryLeapRemainder
       Spec41.epact Spec41.yearLeapBlocks Spec41.yearLeapRemainder
       Spec41.weekdayShift Spec41.overflowCorrection].
  pose proof (Z.mod_pos_bound year 19 ltac:(lia)).
  pose proof (Z.mod_pos_bound year 100 ltac:(lia)).
  pose proof (Z.mod_pos_bound century 4 ltac:(lia)).
  pose proof (Z.mod_pos_bound dividend 30 ltac:(lia)).
  pose proof (Z.mod_pos_bound (year mod 100) 4 ltac:(lia)).
  set (a := year mod 19) in *. set (c := year mod 100) in *.
  set (e := century mod 4) in *. set (h := dividend mod 30) in *.
  set (k := c mod 4) in *.
  assert (0 <= c / 4 <= 24) by (Z.to_euclidean_division_equations; lia).
  set (i := c / 4) in *.
  pose proof (Z.mod_pos_bound (32 + 2 * e + 2 * i - h - k) 7 ltac:(lia)).
  set (l := (32 + 2 * e + 2 * i - h - k) mod 7) in *.
  assert (0 <= (a + 11 * h + 22 * l) / 451 <= 1)
    by (Z.to_euclidean_division_equations; lia).
  lia.
Qed.

End Ranges.

Section Dates.

Variables a h l : Z.
Hypothesis Ha : 0 <= a <= 18.
Hypothesis Hh : 0 <= h <= 29.
Hypothesis Hl : 0 <= l <= 6.

Let m := (a + 11 * h + 22 * l) / 451.

(** The final correction is 1 exactly from 451 on, that is for an epact of
    29 with a weekday shift of 6, and for an epact of 28 with a weekday shift
    of 6 and a Golden Number of at least 11. *)
Lemma correction_cases :
  (m = 0 \/ m = 1) /\
  (m = 1 <-> (h = 29 /\ l = 6) \/ (h = 28 /\ l = 6 /\ 11 <= a)).
Proof.
  subst m. split.
  - Z.to_euclidean_division_equations; lia.
  - split; intros H; Z.to_euclidean_division_equations; lia.
Qed.

(** The corrected date lies between March 22 and April 25. *)
Lemma date_window :
  let r := h + l - 7 * m + 114 in
  (r / 31 = 3 \/ r / 31 = 4) /\
  (r / 31 = 3 -> 22 <= r mod 31 + 1 <= 31) /\
  (r / 31 = 4 -> 1 <= r mod 31 + 1 <= 25).
Proof.
  destruct correction_cases as [Hm Hiff]. cbv zeta.
  assert (Hr : 114 <= h + l - 7 * m + 114 <= 148) by lia.
  set (r := h + l - 7 * m + 114) in *. clearbody r. clear Hm Hiff.
  split; [|split]; try intros ?; Z.to_euclidean_division_equations; lia.
Qed.

End Dates.

(** Without the correction the date lies between March 22 and April 26. *)
Lemma uncorrected_cases (h l : Z) :
  0 <= h <= 29 -> 0 <= l <= 6 ->
  let r := h + l - 7 * 0 + 114 in
  (r / 31 = 3 /\ 22 <= r mod 31 + 1 <= 31 \/ r / 31 = 4 /\ 1 <= r mod 31 + 1 <= 26) /\
  (r / 31 = 4 /\ r mod 31 + 1 = 26 <-> h = 29 /\ l = 6) /\
  (r / 31 = 4 /\ r mod 31 + 1 = 25 <-> h + l = 34).
Proof.
  intros Hh Hl. cbv zeta.
  repeat split; try intros ?; Z.to_euclidean_division_equations; lia.
Qed.

(** ** The guards of [calculateEasterYMD] *)

Section Guards.

Lemma guard_not_integer (v : JSValue) :
  (forall z : Z, v <> JSNumber (of_Z z)) ->
  Easter.calculateEasterYMD v = Throw (TypeError "year must be an integer").
Proof.
  intros Hv. unfold Easter.calculateEasterYMD.
  destruct v as [ | | ? | ? | ? | ? | n]; try reflexivity.
  unfold typeof_is_number, Number_isInteger. cbn [negb orb].
  destruct (is_integer n) eqn:Hn; [|reflexivity].
  destruct (isInteger_inv n Hn) as [z ->]. elim (Hv z). reflexivity.
Qed.

Lemma guard_passed (y : Z) :
  Easter.calculateEasterYMD (JSNumber (of_Z y)) =
  if y <? 1583
  then Throw (RangeError "Gregorian Easter is defined for years >= 1583")
  else Return (of_Z y, Easter.month (Easter.computus (of_Z y)),
               Easter.day (Easter.computus (of_Z y))).
Proof.
  unfold Easter.calculateEasterYMD, typeof_is_number, Number_isInteger.
  rewrite isInteger_of_Z. cbn [negb orb Easter.as_number].
  change (lt (of_Z y) 1583%js) with (lt (of_Z y) (of_Z 1583)).
  rewrite lt_of_Z. reflexivity.
Qed.

End Guards.


(** ** Years up to MAX_SAFE_INTEGER *)

Section SafeYears.

Lemma safe_is_double (y : Z) : y <= MAX_SAFE_INTEGER -> y <= MAX_VALUE /\ y < 2 ^ 53.
Proof.
  unfold MAX_SAFE_INTEGER. intros Hy.
  assert (2 ^ 53 <= MAX_VALUE) by (vm_compute; discriminate). lia.
Qed.

(** No operation rounds: the constants are the quantities of section 4.1. *)
Lemma computus_safe (y : Z) :
  1583 <= y <= MAX_SAFE_INTEGER ->
  Easter.computus (of_Z y) = embed (Spec41.steps y).
Proof.
  intros [Hy Hs]. apply safe_is_double in Hs. destruct Hs as [HM Hs].
  destruct (computus_int y) as (b & d & f & g & S & _ & Hc & _ & Hb & Hr); [lia|].
  rewrite Hc. specialize (Hb Hs). subst b.
  assert (H52 : 2 ^ 52 = 4503599627370496) by reflexivity.
  assert (H53 : 2 ^ 53 = 9007199254740992) by reflexivity.
  destruct Hr as (-> & -> & -> & ->);
    [Z.to_euclidean_division_equations; lia | reflexivity].
Qed.

Lemma calculateEasterYMD_safe (y : Z) :
  1583 <= y <= MAX_SAFE_INTEGER ->
  Easter.calculateEasterYMD (JSNumber (of_Z y)) = Return (tuple (Spec41.compute y)).
Proof.
  intros Hy. rewrite guard_passed, computus_safe by assumption.
  destruct (Z.ltb_spec y 1583) as [Hc | _]; [lia | reflexivity].
Qed.

End SafeYears.

(** ** The dividends of [% 7] and [% 31], and the date without the correction *)

Section SmallValues.

Local Open Scope js_scope.

Lemma weekday_dividend_int (e i h k : Z) :
  (0 <= e <= 3)%Z -> (0 <= i <= 24)%Z -> (0 <= h <= 29)%Z -> (0 <= k <= 3)%Z ->
  of_Z 32 + of_Z 2 * of_Z e + of_Z 2 * of_Z i - of_Z h - of_Z k =
  of_Z (32 + 2 * e + 2 * i - h - k).
Proof.
  intros. rewrite !mul_small, !add_small, !sub_small by lia. reflexivity.
Qed.

Lemma offset_int (h l m : Z) :
  (0 <= h <= 29)%Z -> (0 <= l <= 6)%Z -> (0 <= m <= 1)%Z ->
  of_Z h + of_Z l - of_Z 7 * of_Z m + of_Z 114 = of_Z (h + l - 7 * m + 114).
Proof.
  intros. rewrite !mul_small, !add_small, !sub_small, !add_small by lia.
  reflexivity.
Qed.

(** Lines 124-125 on integers, for a correction [m] of 0 or 1. *)
Lemma month_day_int (h l m : Z) :
  (0 <= h <= 29)%Z -> (0 <= l <= 6)%Z -> (0 <= m <= 1)%Z ->
  Math_floor ((of_Z h + of_Z l - of_Z 7 * of_Z m + of_Z 114) / of_Z 31) =
    of_Z ((h + l - 7 * m + 114) / 31) /\
  (of_Z h + of_Z l - of_Z 7 * of_Z m + of_Z 114) rem of_Z 31 + of_Z 1 =
    of_Z ((h + l - 7 * m + 114) mod 31 + 1).
Proof.
  intros. rewrite offset_int by assumption.
  rewrite floor_div_small, rem_of_Z, Z.rem_mod_nonneg by lia.
  pose proof (Z.mod_pos_bound (h + l - 7 * m + 114) 31 ltac:(lia)).
  rewrite add_small by lia. split; reflexivity.
Qed.

Lemma uncorrected_embed (q : Spec41.quantities) :
  (0 <= Spec41.epact q <= 29)%Z -> (0 <= Spec41.weekdayShift q <= 6)%Z ->
  Easter.uncorrected (embed q) =
  (of_Z ((Spec41.epact q + Spec41.weekdayShift q - 7 * 0 + 114) / 31),
   of_Z ((Spec41.epact q + Spec41.weekdayShift q - 7 * 0 + 114) mod 31 + 1)).
Proof.
  intros Hh Hl.
  destruct (month_day_int (Spec41.epact q) (Spec41.weekdayShift q) 0 Hh Hl ltac:(lia))
    as [Hm Hd].
  change (Easter.uncorrected (embed q)) with
    (Math_floor ((of_Z (Spec41.epact q) + of_Z (Spec41.weekdayShift q)
                  - of_Z 7 * of_Z 0 + of_Z 114) / of_Z 31),
     (of_Z (Spec41.epact q) + of_Z (Spec41.weekdayShift q)
                  - of_Z 7 * of_Z 0 + of_Z 114) rem of_Z 31 + of_Z 1).
  rewrite Hm, Hd. reflexivity.
Qed.

(** The copy of the Computus in the first script of [main.js] divides
    [a + 11 * h + 22 * 1], which stays below 451: its [m] is 0. *)
Lemma inline_correction_int (a h : Z) :
  (0 <= a <= 18)%Z -> (0 <= h <= 29)%Z ->
  Math_floor ((of_Z a + of_Z 11 * of_Z h + of_Z 22 * of_Z 1) / of_Z 451) = of_Z 0.
Proof.
  intros. rewrite !mul_small, !add_small by lia.
  rewrite floor_div_small by lia. f_equal. apply Z.div_small. lia.
Qed.

(** The copy shares every line with [calculateEasterYMD] but the one of [m]. *)
Lemma inline_unfold (y : number) :
  Main1.calculateEaster y =
  let v := Easter.computus y in
  let h := Easter.h v in
  let l := Easter.l v in
  let m := Math_floor ((Easter.a v + of_Z 11 * h + of_Z 22 * of_Z 1) / of_Z 451) in
  (y,
   Math_floor ((h + l - of_Z 7 * m + of_Z 114) / of_Z 31),
   (h + l - of_Z 7 * m + of_Z 114) rem of_Z 31 + of_Z 1).
Proof. reflexivity. Qed.

(** So the copy returns the date without the correction. *)
Lemma inline_is_uncorrected (y : Z) :
  (1583 <= y <= MAX_VALUE)%Z ->
  Main1.calculateEaster (of_Z y) =
  (of_Z y, fst (Easter.uncorrected (Easter.computus (of_Z y))),
           snd (Easter.uncorrected (Easter.computus (of_Z y)))).
Proof.
  intros Hy.
  destruct (computus_int y Hy) as (b & d & f & g & S & _ & Hc & _).
  rewrite inline_unfold, Hc. cbv zeta.
  set (q := Spec41.from_century y b d f g S).
  pose proof (from_century_ranges y b d f g S) as R. fold q in R.
  destruct R as (Ha & _ & _ & Hh & _ & _ & Hl & _).
  rewrite uncorrected_embed by assumption.
  change (Easter.a (embed q)) with (of_Z (Spec41.goldenNumber q)).
  change (Easter.h (embed q)) with (of_Z (Spec41.epact q)).
  change (Easter.l (embed q)) with (of_Z (Spec41.weekdayShift q)).
  rewrite inline_correction_int by assumption.
  destruct (month_day_int (Spec41.epact q) (Spec41.weekdayShift q) 0 Hh Hl ltac:(lia))
    as [-> ->].
  reflexivity.
Qed.

End SmallValues.

(** The century is line 70. *)
Lemma century_unfold (y : number) :
  Easter.b (Easter.computus y) = Math_floor (div y (of_Z 100)).
Proof. reflexivity. Qed.

(** ** The properties of the specification *)

(** C1, as stated, fails: the year 60000000000000096 is an integer-valued
    double of at least 1583, [Math.floor(y / 100)] rounds up to
    600000000000001, and [calculateEasterYMD] returns April 3 where the
    thirteen steps on the integers give April 1. *)
Lemma C1_large_year_differs :
  1583 <= 60000000000000096 /\
  is_double (of_Z 60000000000000096) = true /\
  Easter.calculateEasterYMD (JSNumber (of_Z 60000000000000096)) =
    Return (tuple (60000000000000096, 4, 3)) /\
  Spec41.compute 60000000000000096 = (60000000000000096, 4, 1) /\
  Easter.calculateEasterYMD (JSNumber (of_Z 60000000000000096)) <>
    Return (tuple (Spec41.compute 60000000000000096)).
Proof.
  assert (E1 : Easter.calculateEasterYMD (JSNumber (of_Z 60000000000000096)) =
               Return (tuple (60000000000000096, 4, 3))).
  { rewrite guard_passed.
    destruct (computus_int 60000000000000096)
      as (b & d & f & g & S & _ & Hc & _ & _ & Hr);
      [split; [lia | vm_compute; discriminate]|].
    assert (Hb : Math_floor (div (of_Z 60000000000000096) (of_Z 100)) =
                 of_Z 600000000000001) by (vm_compute; reflexivity).
    rewrite <- century_unfold, Hc in Hb. apply of_Z_inj in Hb.
    change (Spec41.century (Spec41.from_century 60000000000000096 b d f g S))
      with b in Hb. subst b.
    destruct Hr as (-> & -> & -> & ->); [reflexivity|].
    rewrite Hc. reflexivity. }
  assert (E2 : Spec41.compute 60000000000000096 = (60000000000000096, 4, 1))
    by reflexivity.
  split; [lia|]. split; [vm_compute; reflexivity|].
  split; [exact E1|]. split; [exact E2|].
  rewrite E1, E2. unfold tuple. intros H.
  assert (H3 : of_Z 3 = of_Z 1) by congruence.
  apply of_Z_inj in H3. discriminate H3.
Qed.

(** C1, amended: for every integer year from 1583 to Number.MAX_SAFE_INTEGER
    (2^53 - 1), [calculateEasterYMD] returns exactly the triple of the
    thirteen steps of section 4.1, computed with floor division and
    non-negative modulo. *)
Theorem C1_safe_years_follow_the_thirteen_steps (y : Z) :
  1583 <= y <= MAX_SAFE_INTEGER ->
  Easter.calculateEasterYMD (JSNumber (of_Z y)) = Return (tuple (Spec41.compute y)).
Proof.
  intros Hy. rewrite guard_passed.
  destruct (Z.ltb_spec y 1583) as [Hlt | _]; [lia|].
  rewrite computus_safe by assumption.
  unfold Spec41.compute, tuple. reflexivity.
Qed.

(** The year 2024 is such a year. *)
Lemma C1_safe_years_witness :
  Easter.calculateEasterYMD (JSNumber (of_Z 2024)) = Return (tuple (Spec41.compute 2024)).
Proof.
  apply (C1_safe_years_follow_the_thirteen_steps 2024).
  vm_compute. split; discriminate.
Defined.

(** The returned date lies between March 22 and April 25, for every year that
    is a double. *)
Lemma date_in_window (y : Z) :
  1583 <= y <= MAX_VALUE ->
  exists month day : Z,
    Easter.calculateEasterYMD (JSNumber (of_Z y)) = Return (tuple (y, month, day)) /\
    (month = 3 \/ month = 4) /\
    (month = 3 -> 22 <= day <= 31) /\
    (month = 4 -> 1 <= day <= 25).
Proof.
  intros Hy.
  destruct (computus_int y Hy) as (b & d & f & g & S & _ & Hc & _).
  pose proof (from_century_ranges y b d f g S) as (Ha & _ & _ & Hh & _ & _ & Hl & _).
  set (q := Spec41.from_century y b d f g S) in *.
  exists (Spec41.month q), (Spec41.day q). split.
  - rewrite guard_passed, Hc.
    destruct (Z.ltb_spec y 1583) as [Hlt | _]; [lia | reflexivity].
  - exact (date_window _ _ _ Ha Hh Hl).
Qed.

(** C2: for every integer year from 1583 to 2583 the returned month is 3 or
    4; in month 3 the day is between 22 and 31, in month 4 between 1 and 25. *)
Theorem C2_date_between_March_22_and_April_25 (y : Z) :
  1583 <= y <= 2583 ->
  exists month day : Z,
    Easter.calculateEasterYMD (JSNumber (of_Z y)) = Return (tuple (y, month, day)) /\
    (month = 3 \/ month = 4) /\
    (month = 3 -> 22 <= day <= 31) /\
    (month = 4 -> 1 <= day <= 25).
Proof.
  intros Hy. apply date_in_window.
  assert (2583 <= MAX_VALUE) by (vm_compute; discriminate). lia.
Qed.

(** The year 1583 is such a year. *)
Lemma C2_date_witness :
  exists month day : Z,
    Easter.calculateEasterYMD (JSNumber (of_Z 1583)) = Return (tuple (1583, month, day)) /\
    (month = 3 \/ month = 4) /\
    (month = 3 -> 22 <= day <= 31) /\
    (month = 4 -> 1 <= day <= 25).
Proof. apply (C2_date_between_March_22_and_April_25 1583). lia. Defined.

(** C3: a value that is not an integer number (a value of another type, NaN,
    an infinity, a number with a fractional part) makes [calculateEasterYMD]
    throw the TypeError 'year must be an integer'; an integer below 1583 makes
    it throw the RangeError 'Gregorian Easter is defined for years >= 1583';
    an integer from 1583 on, however large, makes it return a triple whose
    first component is the year, and when the year is a double (up to
    MAX_VALUE) month and day are integers. *)
Theorem C3_guards_and_no_upper_bound :
  (forall v : JSValue,
     (forall z : Z, v <> JSNumber (of_Z z)) ->
     Easter.calculateEasterYMD v = Throw (TypeError "year must be an integer")) /\
  (forall y : Z,
     y < 1583 ->
     Easter.calculateEasterYMD (JSNumber (of_Z y)) =
     Throw (RangeError "Gregorian Easter is defined for years >= 1583")) /\
  (forall y : Z,
     1583 <= y ->
     exists month day : number,
       Easter.calculateEasterYMD (JSNumber (of_Z y)) = Return (of_Z y, month, day)) /\
  (forall y : Z,
     1583 <= y <= MAX_VALUE ->
     exists month day : Z,
       Easter.calculateEasterYMD (JSNumber (of_Z y)) = Return (tuple (y, month, day))).
Proof.
  split; [exact guard_not_integer|]. split; [|split].
  - intros y Hy. rewrite guard_passed.
    destruct (Z.ltb_spec y 1583) as [_ | Hc]; [reflexivity | lia].
  - intros y Hy. rewrite guard_passed.
    destruct (Z.ltb_spec y 1583) as [Hc | _]; [lia|]. eauto.
  - intros y Hy. destruct (date_in_window y Hy) as (month & day & H & _). eauto.
Qed.

(** The string '2024', NaN, 1582.5, 1582 and 2^1023. *)
Lemma C3_guards_witness :
  Easter.calculateEasterYMD (JSString "2024") = Throw (TypeError "year must be an integer") /\
  Easter.calculateEasterYMD (JSNumber NaN) = Throw (TypeError "year must be an integer") /\
  Easter.calculateEasterYMD (JSNumber (Finite (3165 * 2 ^ 1073))) =
    Throw (TypeError "year must be an integer") /\
  Easter.calculateEasterYMD (JSNumber (of_Z 1582)) =
    Throw (RangeError "Gregorian Easter is defined for years >= 1583") /\
  (exists month day : number,
     Easter.calculateEasterYMD (JSNumber (of_Z (2 ^ 1023))) =
     Return (of_Z (2 ^ 1023), month, day)) /\
  (exists month day : Z,
     Easter.calculateEasterYMD (JSNumber (of_Z (2 ^ 1023))) =
     Return (tuple (2 ^ 1023, month, day))).
Proof.
  destruct C3_guards_and_no_upper_bound as (H1 & H2 & H3 & H4).
  split; [apply H1; discriminate|].
  split; [apply H1; discriminate|].
  split.
  { apply H1. intros z H. injection H as H.
    assert (E : one = 2 * 2 ^ 1073) by reflexivity. rewrite E in H.
    pose proof (pow2_pos 1073 ltac:(lia)). nia. }
  split; [apply H2; lia|].
  split; [apply H3; vm_compute; discriminate|].
  apply H4. vm_compute. split; discriminate.
Defined.

(** The returned triple of a year up to MAX_SAFE_INTEGER, by evaluating the
    thirteen steps. *)
Lemma calculateEasterYMD_eval (y month day : Z) :
  1583 <= y <= MAX_SAFE_INTEGER ->
  Spec41.compute y = (y, month, day) ->
  Easter.calculateEasterYMD (JSNumber (of_Z y)) = Return (tuple (y, month, day)).
Proof. intros Hy <-. apply calculateEasterYMD_safe, Hy. Qed.

Ltac safe_year := vm_compute; split; discriminate.

(** C4: [calculateEasterYMD] returns [2024, 3, 31], [2025, 4, 20],
    [2000, 4, 23] and [1900, 4, 15] for the years 2024, 2025, 2000, 1900. *)
Theorem C4_known_values :
  Easter.calculateEasterYMD (JSNumber (of_Z 2024)) = Return (tuple (2024, 3, 31)) /\
  Easter.calculateEasterYMD (JSNumber (of_Z 2025)) = Return (tuple (2025, 4, 20)) /\
  Easter.calculateEasterYMD (JSNumber (of_Z 2000)) = Return (tuple (2000, 4, 23)) /\
  Easter.calculateEasterYMD (JSNumber (of_Z 1900)) = Return (tuple (1900, 4, 15)).
Proof.
  split; [|split; [|split]];
    (apply calculateEasterYMD_eval; [safe_year | reflexivity]).
Qed.

(** C5, as stated, fails: for 1583 the function does not return March 31. *)
Lemma C5_1583_is_not_March_31 :
  Easter.calculateEasterYMD (JSNumber (of_Z 1583)) <> Return (tuple (1583, 3, 31)).
Proof.
  rewrite (calculateEasterYMD_eval 1583 4 10); [|safe_year|reflexivity].
  unfold tuple. intros H.
  assert (H3 : of_Z 4 = of_Z 3) by congruence.
  apply of_Z_inj in H3. discriminate H3.
Qed.

(** C5, amended: [calculateEasterYMD(1583)] returns [1583, 4, 10], April 10. *)
Theorem C5_1583_is_April_10 :
  Easter.calculateEasterYMD (JSNumber (of_Z 1583)) = Return (tuple (1583, 4, 10)).
Proof. apply calculateEasterYMD_eval; [safe_year | reflexivity]. Qed.

(** C6, as stated, fails: in 1954 the final correction [m] is 1, and the
    date without the correction is April 25, neither March 21 nor April 26. *)
Lemma C6_1954_corrects_April_25 :
  1583 <= 1954 /\
  Easter.m (Easter.computus (of_Z 1954)) = of_Z 1 /\
  Easter.uncorrected (Easter.computus (of_Z 1954)) = (of_Z 4, of_Z 25) /\
  (of_Z 4, of_Z 25) <> (of_Z 3, of_Z 21) /\
  (of_Z 4, of_Z 25) <> (of_Z 4, of_Z 26).
Proof.
  split; [lia|]. rewrite computus_safe by safe_year.
  split; [reflexivity|]. split.
  - rewrite uncorrected_embed; [reflexivity | vm_compute; split; discriminate ..].
  - split; intros H.
    + assert (H3 : of_Z 4 = of_Z 3) by congruence.
      apply of_Z_inj in H3. discriminate H3.
    + assert (H3 : of_Z 25 = of_Z 26) by congruence.
      apply of_Z_inj in H3. discriminate H3.
Qed.

(** C6, amended: for every integer year from 1583 on (a double, so at most
    Number.MAX_VALUE), the final correction
    [m] is 0 or 1; it is 1 exactly when the date without the correction is
    April 26, or is April 25 with an epact of 28 and a Golden Number of at
    least 11; the date without the correction is never March 21. *)
Theorem C6_final_correction (y : Z) :
  1583 <= y <= MAX_VALUE ->
  exists a h m month0 day0 : Z,
    Easter.a (Easter.computus (of_Z y)) = of_Z a /\
    Easter.h (Easter.computus (of_Z y)) = of_Z h /\
    Easter.m (Easter.computus (of_Z y)) = of_Z m /\
    Easter.uncorrected (Easter.computus (of_Z y)) = (of_Z month0, of_Z day0) /\
    (m = 0 \/ m = 1) /\
    (m = 1 <->
     (month0 = 4 /\ day0 = 26) \/ (month0 = 4 /\ day0 = 25 /\ h = 28 /\ 11 <= a)) /\
    ~ (month0 = 3 /\ day0 = 21).
Proof.
  intros Hy.
  destruct (computus_int y Hy) as (b & d & f & g & S & _ & Hc & _).
  pose proof (from_century_ranges y b d f g S) as (Ha & _ & _ & Hh & _ & _ & Hl & _).
  set (q := Spec41.from_century y b d f g S) in *.
  rewrite Hc, uncorrected_embed by assumption.
  exists (Spec41.goldenNumber q), (Spec41.epact q), (Spec41.overflowCorrection q).
  eexists _, _. do 4 (split; [reflexivity|]).
  destruct (correction_cases _ _ _ Ha Hh Hl) as [Hm Hiff].
  destruct (uncorrected_cases (Spec41.epact q) (Spec41.weekdayShift q) Hh Hl)
    as (Hu & H26 & H25).
  change (Spec41.overflowCorrection q)
    with ((Spec41.goldenNumber q + 11 * Spec41.epact q + 22 * Spec41.weekdayShift q) / 451).
  set (month0 := (Spec41.epact q + Spec41.weekdayShift q - 7 * 0 + 114) / 31) in *.
  set (day0 := (Spec41.epact q + Spec41.weekdayShift q - 7 * 0 + 114) mod 31 + 1) in *.
  set (m := (Spec41.goldenNumber q + 11 * Spec41.epact q + 22 * Spec41.weekdayShift q) / 451) in *.
  clearbody month0 day0 m.
  split; [exact Hm|]. split; [|lia].
  rewrite Hiff. clear Hiff Hm. intuition lia.
Qed.

(** The year 1981, whose date without the correction is April 26. *)
Lemma C6_final_correction_witness :
  exists a h m month0 day0 : Z,
    Easter.a (Easter.computus (of_Z 1981)) = of_Z a /\
    Easter.h (Easter.computus (of_Z 1981)) = of_Z h /\
    Easter.m (Easter.computus (of_Z 1981)) = of_Z m /\
    Easter.uncorrected (Easter.computus (of_Z 1981)) = (of_Z month0, of_Z day0) /\
    (m = 0 \/ m = 1) /\
    (m = 1 <->
     (month0 = 4 /\ day0 = 26) \/ (month0 = 4 /\ day0 = 25 /\ h = 28 /\ 11 <= a)) /\
    ~ (month0 = 3 /\ day0 = 21).
Proof. apply (C6_final_correction 1981). vm_compute. split; discriminate. Defined.

Lemma rem_is_modulo_intro (z n : Z) :
  0 <= z -> 0 < n -> rem_is_modulo (of_Z z, of_Z n).
Proof.
  intros Hz Hn. exists z, n. cbn [fst snd].
  rewrite rem_of_Z, Z.rem_mod_nonneg by lia. repeat split; assumption.
Qed.

(** The dividends of the seven [%], on the constants of the source. *)
Lemma rem_operands_unfold (y : number) :
  Easter.rem_operands y =
  let v := Easter.computus y in
  [ (y, of_Z 19); (y, of_Z 100); (Easter.b v, of_Z 4);
    (add (sub (sub (add (mul (of_Z 19) (Easter.a v)) (Easter.b v)) (Easter.d v))
          (Easter.g v)) (of_Z 15), of_Z 30);
    (Easter.c v, of_Z 4);
    (sub (sub (add (add (of_Z 32) (mul (of_Z 2) (Easter.e v)))
                   (mul (of_Z 2) (Easter.i v))) (Easter.h v)) (Easter.k v), of_Z 7);
    (add (sub (add (Easter.h v) (Easter.l v)) (mul (of_Z 7) (Easter.m v))) (of_Z 114),
     of_Z 31) ].
Proof. reflexivity. Qed.

(** C7: for every integer year from 1583 on (a double, so at most
    Number.MAX_VALUE), the left operand of every [%]
    of [calculateEasterYMD] is a non-negative integer (the sixth one is
    32 + 2 * e + 2 * i - h - k), so [%] gives the non-negative modulo, and
    the weekday shift [l] lies between 0 and 6. *)
Theorem C7_rem_operands_nonnegative (y : Z) :
  1583 <= y <= MAX_VALUE ->
  Forall rem_is_modulo (Easter.rem_operands (of_Z y)) /\
  int_between 0 6 (Easter.l (Easter.computus (of_Z y))).
Proof.
  intros Hy.
  destruct (computus_int y Hy) as (b & d & f & g & S & Hpos & Hc & Hop & _).
  pose proof (from_century_ranges y b d f g S)
    as (Ha & Hcc & He & Hh & Hi & Hk & Hl & Hm).
  rewrite rem_operands_unfold, Hc. cbv zeta.
  set (q := Spec41.from_century y b d f g S) in *.
  split; [|exists (Spec41.weekdayShift q); split; [reflexivity | assumption]].
  change (Easter.a (embed q)) with (of_Z (y mod 19)).
  change (Easter.b (embed q)) with (of_Z b).
  change (Easter.c (embed q)) with (of_Z (Spec41.yearInCentury q)).
  change (Easter.d (embed q)) with (of_Z d).
  change (Easter.g (embed q)) with (of_Z g).
  change (Easter.e (embed q)) with (of_Z (Spec41.centuryLeapRemainder q)).
  change (Easter.i (embed q)) with (of_Z (Spec41.yearLeapBlocks q)).
  change (Easter.h (embed q)) with (of_Z (Spec41.epact q)).
  change (Easter.k (embed q)) with (of_Z (Spec41.yearLeapRemainder q)).
  change (Easter.l (embed q)) with (of_Z (Spec41.weekdayShift q)).
  change (Easter.m (embed q)) with (of_Z (Spec41.overflowCorrection q)).
  rewrite Hop, weekday_dividend_int, offset_int by assumption.
  repeat (apply Forall_cons; [apply rem_is_modulo_intro; lia|]).
  apply Forall_nil.
Qed.

(** The year 2024. *)
Lemma C7_rem_operands_witness :
  Forall rem_is_modulo (Easter.rem_operands (of_Z 2024)) /\
  int_between 0 6 (Easter.l (Easter.computus (of_Z 2024))).
Proof.
  apply (C7_rem_operands_nonnegative 2024). vm_compute. split; discriminate.
Defined.

(** C8, as stated, fails: the century of the year 45200 is 452. *)
Lemma C8_century_of_45200 :
  1583 <= 45200 /\
  Easter.b (Easter.computus (of_Z 45200)) = of_Z 452 /\
  ~ int_between 0 451 (Easter.b (Easter.computus (of_Z 45200))).
Proof.
  split; [lia|]. rewrite computus_safe by (vm_compute; split; discriminate).
  split; [reflexivity|].
  intros (z & Hz & Hr).
  change (Easter.b (embed (Spec41.steps 45200))) with (of_Z 452) in Hz.
  apply of_Z_inj in Hz. lia.
Qed.

(** C8, amended: for every integer year from 1583 on (a double, so at most
    Number.MAX_VALUE), the twelve constants
    are non-negative integers; [a] is at most 18, [c] at most 99, [e] and [k]
    at most 3, [h] at most 29, [i] at most 24, [l] at most 6 and [m] at most
    1; the century [b] and its corrections [d], [f] and [g] grow with the
    year, and are at most 451 for the years up to 45199. *)
Theorem C8_ranges_of_the_constants (y : Z) :
  1583 <= y <= MAX_VALUE ->
  let v := Easter.computus (of_Z y) in
  int_between 0 18 (Easter.a v) /\
  int_nonneg (Easter.b v) /\
  int_between 0 99 (Easter.c v) /\
  int_nonneg (Easter.d v) /\
  int_between 0 3 (Easter.e v) /\
  int_nonneg (Easter.f v) /\
  int_nonneg (Easter.g v) /\
  int_between 0 29 (Easter.h v) /\
  int_between 0 24 (Easter.i v) /\
  int_between 0 3 (Easter.k v) /\
  int_between 0 6 (Easter.l v) /\
  int_between 0 1 (Easter.m v) /\
  (y <= 45199 ->
   int_between 0 451 (Easter.b v) /\ int_between 0 451 (Easter.d v) /\
   int_between 0 451 (Easter.f v) /\ int_between 0 451 (Easter.g v)).
Proof.
  intros Hy.
  destruct (computus_int y Hy) as (b & d & f & g & S & Hpos & Hc & _ & Hb & Hr).
  pose proof (from_century_ranges y b d f g S)
    as (Ha & Hcc & He & Hh & Hi & Hk & Hl & Hm).
  cbv zeta. rewrite Hc.
  set (q := Spec41.from_century y b d f g S) in *.
  assert (I : forall lo hi z, lo <= z <= hi -> int_between lo hi (of_Z z))
    by (intros lo hi z Hz; exists z; split; [reflexivity | exact Hz]).
  assert (N : forall z, 0 <= z -> int_nonneg (of_Z z))
    by (intros z Hz; exists z; split; [reflexivity | exact Hz]).
  split; [exact (I _ _ _ Ha)|]. split; [apply (N b); lia|].
  split; [exact (I _ _ _ Hcc)|]. split; [apply (N d); lia|].
  split; [exact (I _ _ _ He)|]. split; [apply (N f); lia|].
  split; [apply (N g); lia|]. split; [exact (I _ _ _ Hh)|].
  split; [exact (I _ _ _ Hi)|]. split; [exact (I _ _ _ Hk)|].
  split; [exact (I _ _ _ Hl)|]. split; [exact (I _ _ _ Hm)|].
  intros Hs.
  assert (H52 : 2 ^ 52 = 4503599627370496) by reflexivity.
  assert (H53 : 2 ^ 53 = 9007199254740992) by reflexivity.
  specialize (Hb ltac:(lia)).
  assert (Hb' : 15 <= b <= 451) by (subst b; Z.to_euclidean_division_equations; lia).
  destruct (Hr ltac:(lia)) as (Hd & Hf & Hg & _).
  split; [apply (I 0 451 b); lia|].
  split; [apply (I 0 451 d); Z.to_euclidean_division_equations; lia|].
  split; [apply (I 0 451 f); Z.to_euclidean_division_equations; lia|].
  apply (I 0 451 g). Z.to_euclidean_division_equations; lia.
Qed.

(** The year 2024. *)
Lemma C8_ranges_witness :
  let v := Easter.computus (of_Z 2024) in
  int_between 0 18 (Easter.a v) /\
  int_nonneg (Easter.b v) /\
  int_between 0 99 (Easter.c v) /\
  int_nonneg (Easter.d v) /\
  int_between 0 3 (Easter.e v) /\
  int_nonneg (Easter.f v) /\
  int_nonneg (Easter.g v) /\
  int_between 0 29 (Easter.h v) /\
  int_between 0 24 (Easter.i v) /\
  int_between 0 3 (Easter.k v) /\
  int_between 0 6 (Easter.l v) /\
  int_between 0 1 (Easter.m v) /\
  (2024 <= 45199 ->
   int_between 0 451 (Easter.b v) /\ int_between 0 451 (Easter.d v) /\
   int_between 0 451 (Easter.f v) /\ int_between 0 451 (Easter.g v)).
Proof.
  apply (C8_ranges_of_the_constants 2024). vm_compute. split; discriminate.
Defined.

(** C9, as stated, fails: in the two scripts of [main.js] the phrase for
    'future' is "will Easter be". *)
Lemma C9_future_phrase_in_main :
  Main1.tenseSetter (JSString "future") <> JSString "will be Easter" /\
  Main2.tenseSetter (JSString "future") <> "will be Easter"%string.
Proof. split; discriminate. Qed.

(** C9, amended: in each of the three scripts [tenseSetter] returns
    "was Easter" for 'past' and "is Easter" for 'present'; for 'future' the
    third script returns "will be Easter" and the two scripts of [main.js]
    return "will Easter be". *)
Theorem C9_tense_phrases :
  (Main1.tenseSetter (JSString "past") = JSString "was Easter" /\
   Main1.tenseSetter (JSString "present") = JSString "is Easter" /\
   Main1.tenseSetter (JSString "future") = JSString "will Easter be") /\
  (Main2.tenseSetter (JSString "past") = "was Easter"%string /\
   Main2.tenseSetter (JSString "present") = "is Easter"%string /\
   Main2.tenseSetter (JSString "future") = "will Easter be"%string) /\
  (Script3.tenseSetter (JSString "past") = "was Easter"%string /\
   Script3.tenseSetter (JSString "present") = "is Easter"%string /\
   Script3.tenseSetter (JSString "future") = "will be Easter"%string).
Proof.
  split; [|split]; (split; [|split]); reflexivity.
Qed.

(** C10 fails on the code: for 1954 the copy of the Computus in the first
    script of [main.js] returns April 25 and [calculateEasterYMD] returns
    April 18. *)
Theorem C10_inline_copy_differs_in_1954 :
  Main1.calculateEaster (of_Z 1954) = tuple (1954, 4, 25) /\
  Easter.calculateEasterYMD (JSNumber (of_Z 1954)) = Return (tuple (1954, 4, 18)).
Proof.
  split.
  - rewrite inline_is_uncorrected by (vm_compute; split; discriminate).
    rewrite computus_safe by safe_year.
    rewrite uncorrected_embed; [reflexivity | vm_compute; split; discriminate ..].
  - apply calculateEasterYMD_eval; [safe_year | reflexivity].
Qed.

(** The copy returns the triple of [calculateEasterYMD] exactly in the years
    whose final correction is 0. *)
Lemma inline_agrees_iff (y : Z) :
  1583 <= y <= MAX_VALUE ->
  (Return (Main1.calculateEaster (of_Z y)) = Easter.calculateEasterYMD (JSNumber (of_Z y))
   <-> Easter.m (Easter.computus (of_Z y)) = of_Z 0).
Proof.
  intros Hy. rewrite inline_is_uncorrected, guard_passed by assumption.
  destruct (Z.ltb_spec y 1583) as [Hlt | _]; [lia|].
  destruct (computus_int y Hy) as (b & d & f & g & S & _ & Hc & _).
  pose proof (from_century_ranges y b d f g S) as (Ha & _ & _ & Hh & _ & _ & Hl & _).
  rewrite Hc.
  set (q := Spec41.from_century y b d f g S) in *.
  rewrite uncorrected_embed by assumption. cbn [fst snd].
  change (Easter.month (embed q)) with (of_Z (Spec41.month q)).
  change (Easter.day (embed q)) with (of_Z (Spec41.day q)).
  change (Easter.m (embed q)) with (of_Z (Spec41.overflowCorrection q)).
  destruct (correction_cases _ _ _ Ha Hh Hl) as [Hm Hiff].
  change (Spec41.month q) with
    ((Spec41.epact q + Spec41.weekdayShift q - 7 * Spec41.overflowCorrection q + 114) / 31).
  change (Spec41.day q) with
    ((Spec41.epact q + Spec41.weekdayShift q - 7 * Spec41.overflowCorrection q + 114) mod 31 + 1).
  change ((Spec41.goldenNumber q + 11 * Spec41.epact q + 22 * Spec41.weekdayShift q) / 451)
    with (Spec41.overflowCorrection q) in Hm, Hiff.
  set (m := Spec41.overflowCorrection q) in *. clearbody m.
  split.
  - intros H. f_equal.
    assert (Hd : of_Z ((Spec41.epact q + Spec41.weekdayShift q - 7 * 0 + 114) mod 31 + 1) =
                of_Z ((Spec41.epact q + Spec41.weekdayShift q - 7 * m + 114) mod 31 + 1))
      by congruence.
    apply of_Z_inj in Hd.
    destruct Hm as [-> | ->]; [reflexivity|]. exfalso.
    destruct Hiff as [Hiff _]. specialize (Hiff eq_refl).
    revert Hd. Z.to_euclidean_division_equations; lia.
  - intros H. apply of_Z_inj in H. subst m. reflexivity.
Qed.

(** * The Date of Easter and the messages of the pages *)

Import JSDate.

(** ** The calendar of ECMA-262 *)


Lemma DaysInYear_cases (y : Z) : DaysInYear y = 365 \/ DaysInYear y = 366.
Proof.
  unfold DaysInYear.
  destruct (y mod 4 =? 0), (y mod 100 =? 0), (y mod 400 =? 0); cbn [negb]; auto.
Qed.

Lemma leap_day_cases (y : Z) : DaysInYear y = 365 + leap_day y /\ 0 <= leap_day y <= 1.
Proof.
  unfold leap_day. destruct (DaysInYear_cases y) as [-> | ->]; cbn; lia.
Qed.

(** A year has DaysInYear days. *)
Lemma DayFromYear_succ (y : Z) : DayFromYear (y + 1) = DayFromYear y + DaysInYear y.
Proof.
  unfold DayFromYear, DaysInYear.
  destruct (Z.eqb_spec (y mod 4) 0); destruct (Z.eqb_spec (y mod 100) 0);
    destruct (Z.eqb_spec (y mod 400) 0); cbn [negb];
    Z.to_euclidean_division_equations; lia.
Qed.

Lemma DayFromYear_add (y n : Z) :
  0 <= n ->
  DayFromYear y + 365 * n <= DayFromYear (y + n) <= DayFromYear y + 366 * n.
Proof.
  intros Hn. revert n Hn. apply natlike_ind.
  - replace (y + 0) with y by lia. lia.
  - intros n Hn IH. replace (y + Z.succ n) with (y + n + 1) by lia.
    rewrite DayFromYear_succ. destruct (DaysInYear_cases (y + n)); lia.
Qed.

Lemma DayFromYear_lt (y y' : Z) : y < y' -> DayFromYear y < DayFromYear y'.
Proof.
  intros H. pose proof (DayFromYear_add y (y' - y) ltac:(lia)) as B.
  replace (y + (y' - y)) with y' in B by lia. lia.
Qed.

(** The year of a day number is unique. *)
Lemma DayFromYear_le (y y' : Z) : y <= y' -> DayFromYear y <= DayFromYear y'.
Proof.
  intros H. destruct (Z.eq_dec y y') as [-> | Hn]; [lia|].
  pose proof (DayFromYear_lt y y' ltac:(lia)). lia.
Qed.

Lemma year_unique (D y y' : Z) :
  DayFromYear y <= D < DayFromYear (y + 1) ->
  DayFromYear y' <= D < DayFromYear (y' + 1) ->
  y = y'.
Proof.
  intros H H'. destruct (Z.lt_trichotomy y y') as [Hlt | [He | Hgt]]; [|exact He|].
  - destruct (Z.eq_dec (y + 1) y') as [<- | Hne]; [lia|].
    pose proof (DayFromYear_lt (y + 1) y' ltac:(lia)). lia.
  - destruct (Z.eq_dec (y' + 1) y) as [<- | Hne]; [lia|].
    pose proof (DayFromYear_lt (y' + 1) y ltac:(lia)). lia.
Qed.

Lemma nearer_year_spec (D y : Z) :
  DayFromYear y <= D ->
  DayFromYear (nearer_year D y) <= D /\
  D - DayFromYear (nearer_year D y) <= (D - DayFromYear y) / 366 + 365.
Proof.
  intros H. unfold nearer_year.
  assert (Hq : 0 <= (D - DayFromYear y) / 366) by (apply Z.div_pos; lia).
  pose proof (DayFromYear_add y _ Hq) as B.
  pose proof (Z.div_mod (D - DayFromYear y) 366 ltac:(lia)) as E.
  pose proof (Z.mod_pos_bound (D - DayFromYear y) 366 ltac:(lia)) as R.
  set (q := (D - DayFromYear y) / 366) in *. lia.
Qed.

Lemma DayFromYear_1970 : DayFromYear 1970 = 0.
Proof. reflexivity. Qed.

(** [YearFromDay] is YearFromTime: the largest year that starts on or before
    the day, for every day number within 10^12 days of the epoch (the time
    values reach 10^8 days). *)
Lemma YearFromDay_spec (D : Z) :
  - 10 ^ 12 <= D <= 10 ^ 12 ->
  DayFromYear (YearFromDay D) <= D < DayFromYear (YearFromDay D + 1).
Proof.
  intros HD. change (10 ^ 12) with 1000000000000 in HD.
  unfold YearFromDay. cbv zeta.
  set (y0 := 1970 + Z.min (D / 366) (D / 365)).
  assert (H0 : DayFromYear y0 <= D /\ D - DayFromYear y0 <= 3000000000).
  { subst y0. destruct (Z.le_gt_cases 0 D) as [Hp | Hn].
    - assert (Z.min (D / 366) (D / 365) = D / 366) as ->
        by (apply Z.min_l; Z.to_euclidean_division_equations; lia).
      pose proof (DayFromYear_add 1970 (D / 366) ltac:(apply Z.div_pos; lia)) as B.
      rewrite DayFromYear_1970 in B. Z.to_euclidean_division_equations; lia.
    - assert (Z.min (D / 366) (D / 365) = D / 365) as ->
        by (apply Z.min_r; Z.to_euclidean_division_equations; lia).
      assert (Hq : 0 <= - (D / 365)) by (Z.to_euclidean_division_equations; lia).
      pose proof (DayFromYear_add (1970 + D / 365) _ Hq) as B.
      replace (1970 + D / 365 + - (D / 365)) with 1970 in B by lia.
      rewrite DayFromYear_1970 in B. Z.to_euclidean_division_equations; lia. }
  destruct H0 as [I0 R0].
  destruct (nearer_year_spec D y0 I0) as [I1 R1]. set (y1 := nearer_year D y0) in *.
  destruct (nearer_year_spec D y1 I1) as [I2 R2]. set (y2 := nearer_year D y1) in *.
  destruct (nearer_year_spec D y2 I2) as [I3 R3]. set (y3 := nearer_year D y2) in *.
  assert (R : D - DayFromYear y3 < 730) by (Z.to_euclidean_division_equations; lia).
  pose proof (DayFromYear_succ y3) as S3. pose proof (DayFromYear_succ (y3 + 1)) as S4.
  destruct (DaysInYear_cases y3), (DaysInYear_cases (y3 + 1));
    destruct (Z.leb_spec (DayFromYear (y3 + 1)) D); lia.
Qed.

Lemma YearFromDay_unique (D y : Z) :
  - 10 ^ 12 <= D <= 10 ^ 12 ->
  DayFromYear y <= D < DayFromYear (y + 1) ->
  YearFromDay D = y.
Proof.
  intros HD Hy. symmetry. apply (year_unique D); [exact Hy|].
  apply YearFromDay_spec, HD.
Qed.

Ltac month_cases m :=
  let H := fresh in
  assert (H : m = 0 \/ m = 1 \/ m = 2 \/ m = 3 \/ m = 4 \/ m = 5 \/ m = 6 \/
              m = 7 \/ m = 8 \/ m = 9 \/ m = 10 \/ m = 11) by lia;
  repeat (destruct H as [H | H]; [subst m|]); [..|subst m].

Lemma month_of_day_before (m leap d : Z) :
  0 <= m <= 11 -> 0 <= leap <= 1 -> 1 <= d <= DaysInMonth m leap ->
  month_of_day (days_before_month m leap + d - 1) leap = m.
Proof.
  intros Hm Hl Hd. month_cases m; cbn [days_before_month DaysInMonth] in *;
    unfold month_of_day;
    repeat match goal with
           | |- context [?a <? ?b] => destruct (Z.ltb_spec a b); try lia
           end; reflexivity.
Qed.

Lemma day_within_year (m leap d : Z) :
  0 <= m <= 11 -> 0 <= leap <= 1 -> 1 <= d <= DaysInMonth m leap ->
  0 <= days_before_month m leap + d - 1 < 365 + leap.
Proof.
  intros Hm Hl Hd. month_cases m; cbn [days_before_month DaysInMonth] in *; lia.
Qed.

(** The month and the day of a day within the year form a date of the
    calendar, of which it is the day. *)
Lemma month_of_day_spec (dwy leap : Z) :
  0 <= dwy < 365 + leap -> 0 <= leap <= 1 ->
  let m := month_of_day dwy leap in
  0 <= m <= 11 /\
  1 <= dwy - days_before_month m leap + 1 <= DaysInMonth m leap.
Proof.
  intros Hd Hl. cbv zeta. unfold month_of_day.
  repeat match goal with
         | |- context [if ?a <? ?b then _ else _] =>
             destruct (Z.ltb_spec a b);
             [cbn [days_before_month DaysInMonth]; lia|]
         end.
  cbn [days_before_month DaysInMonth]. lia.
Qed.

(** The year, month and day of the day number of a date are the date. *)
Lemma fields_of_day_number (y m d : Z) :
  calendar_date y m d ->
  - 10 ^ 12 <= day_number y m d <= 10 ^ 12 ->
  let D := day_number y m d in
  YearFromDay D = y /\
  month_of_day (D - DayFromYear y) (leap_day y) = m /\
  D - DayFromYear y - days_before_month m (leap_day y) + 1 = d.
Proof.
  intros [Hm Hd] HD. cbv zeta.
  destruct (leap_day_cases y) as [Hy Hl].
  pose proof (day_within_year m _ d Hm Hl Hd) as Hw.
  pose proof (DayFromYear_succ y) as Hs.
  split; [|split].
  - apply YearFromDay_unique; [exact HD|]. unfold day_number in *. lia.
  - unfold day_number.
    replace (DayFromYear y + days_before_month m (leap_day y) + d - 1 - DayFromYear y)
      with (days_before_month m (leap_day y) + d - 1) by lia.
    apply month_of_day_before; assumption.
  - unfold day_number. lia.
Qed.

(** Every day number is the day number of a date: that of its fields. *)
Lemma day_number_of_fields (D : Z) :
  - 10 ^ 12 <= D <= 10 ^ 12 ->
  let y := YearFromDay D in
  let m := month_of_day (D - DayFromYear y) (leap_day y) in
  let d := D - DayFromYear y - days_before_month m (leap_day y) + 1 in
  calendar_date y m d /\ day_number y m d = D.
Proof.
  intros HD. cbv zeta.
  pose proof (YearFromDay_spec D HD) as Hy. set (y := YearFromDay D) in *.
  destruct (leap_day_cases y) as [Hdy Hl].
  pose proof (DayFromYear_succ y) as Hs.
  destruct (month_of_day_spec (D - DayFromYear y) (leap_day y) ltac:(lia) Hl)
    as [Hm Hd].
  split; [split; [exact Hm|lia] | unfold day_number; lia].
Qed.

Lemma days_before_month_next (m leap : Z) :
  0 <= m <= 10 ->
  days_before_month (m + 1) leap = days_before_month m leap + DaysInMonth m leap.
Proof.
  intros Hm. month_cases m; try lia;
    match goal with
    | |- days_before_month ?k _ = _ =>
        let v := eval compute in k in change k with v
    end; cbv [days_before_month DaysInMonth]; lia.
Qed.

Lemma days_before_month_lt (m m' leap : Z) :
  0 <= m -> m < m' -> m' <= 11 -> 0 <= leap <= 1 ->
  days_before_month m leap + DaysInMonth m leap <= days_before_month m' leap.
Proof.
  intros Hm Hlt Hm' Hl.
  assert (Hn : 0 <= m' - (m + 1)) by lia.
  replace m' with (m + 1 + (m' - (m + 1))) by lia.
  generalize Hm'. replace m' with (m + 1 + (m' - (m + 1))) at 1 by lia.
  generalize (m' - (m + 1)) Hn. clear Hlt Hm' Hn m'.
  apply (natlike_ind (fun n => m + 1 + n <= 11 ->
    days_before_month m leap + DaysInMonth m leap <= days_before_month (m + 1 + n) leap)).
  - intros H. rewrite Z.add_0_r, days_before_month_next by lia. lia.
  - intros n Hn IH H. replace (m + 1 + Z.succ n) with (m + 1 + n + 1) by lia.
    rewrite days_before_month_next by lia. specialize (IH ltac:(lia)).
    assert (0 < DaysInMonth (m + 1 + n) leap).
    { unfold DaysInMonth. destruct (m + 1 + n) as [|[ | | ]|]; try lia;
        repeat match goal with |- context [match ?p with _ => _ end] => destruct p end; lia. }
    lia.
Qed.

(** The day number orders the dates of the calendar as year, month and day
    do. *)
Lemma day_number_lt (y m d y' m' d' : Z) :
  calendar_date y m d -> calendar_date y' m' d' ->
  (y < y' \/ y = y' /\ (m < m' \/ m = m' /\ d < d')) ->
  day_number y m d < day_number y' m' d'.
Proof.
  intros [Hm Hd] [Hm' Hd'] H. unfold day_number.
  destruct (leap_day_cases y) as [Hy Hl]. destruct (leap_day_cases y') as [Hy' Hl'].
  pose proof (day_within_year m _ d Hm Hl Hd) as Hw.
  pose proof (day_within_year m' _ d' Hm' Hl' Hd') as Hw'.
  destruct H as [Hlt | [-> [Hlt | [-> Hlt]]]].
  - pose proof (DayFromYear_succ y) as Hs.
    destruct (Z.eq_dec (y + 1) y') as [<- | Hne]; [lia|].
    pose proof (DayFromYear_lt (y + 1) y' ltac:(lia)). lia.
  - pose proof (days_before_month_lt m m' (leap_day y') ltac:(lia) Hlt ltac:(lia) Hl').
    lia.
  - lia.
Qed.

(** ** The Date operations on integers *)


Lemma of_Z_div_one (z : Z) : z * one / one = z.
Proof. apply Z.div_mul. pose proof one_pos. lia. Qed.

Lemma truncated_of_Z (z : Z) : truncated (of_Z z) = Some z.
Proof.
  unfold truncated, of_Z. rewrite Z.quot_mul by (pose proof one_pos; lia).
  reflexivity.
Qed.

Lemma number_of_integer_small (z : Z) :
  Z.abs z < 2 ^ 53 -> number_of_integer z = of_Z z.
Proof. apply round_ratio_int_small. Qed.

Lemma strict_equal_of_Z (a b : Z) : strict_equal (of_Z a) (of_Z b) = (a =? b).
Proof.
  unfold strict_equal, of_Z. pose proof one_pos.
  destruct (Z.eqb_spec (a * one) (b * one)), (Z.eqb_spec a b);
    try reflexivity; nia.
Qed.

(** [Math.round] leaves an integer as it is. *)
Lemma Math_round_of_Z (z : Z) : Math_round (of_Z z) = of_Z z.
Proof.
  unfold Math_round, of_Z. f_equal. f_equal. pose proof one_pos as H1.
  symmetry. apply (Z.div_unique _ _ z one); lia.
Qed.

(** A multiple divided by its divisor: the division is exact. *)
Lemma div_exact (a n : Z) :
  Z.abs a < 2 ^ 53 -> 0 < n -> div (of_Z (a * n)) (of_Z n) = of_Z a.
Proof.
  intros Ha Hn. rewrite div_of_Z by assumption.
  replace (a * n * one) with (n * (a * one)) by ring.
  rewrite <- (Z.mul_1_r n) at 2.
  rewrite round_ratio_scale by lia.
  apply round_ratio_int_small, Ha.
Qed.

(** [*] on integers with a non-negative result up to MAX_VALUE. *)
Lemma mul_big (x y : Z) :
  0 <= x * y <= MAX_VALUE ->
  exists z : Z, mul (of_Z x) (of_Z y) = of_Z z /\ 0 <= z /\
                - (x * y) <= 2 ^ 53 * (z - x * y) <= x * y.
Proof.
  intros H.
  assert (E : mul (of_Z x) (of_Z y) = round_ratio (x * y * one) 1).
  { change (mul (of_Z x) (of_Z y)) with (round_ratio (x * one * (y * one)) one).
    replace (x * one * (y * one)) with (one * (x * y * one)) by ring.
    rewrite <- (Z.mul_1_r one) at 3.
    apply round_ratio_scale; pose proof one_pos; lia. }
  destruct (round_ratio_int_big _ H) as (z & Hz & Hb & He).
  exists z. rewrite E. repeat split; try assumption; lia.
Qed.

Lemma MakeTime_zero : MakeTime 0%js 0%js 0%js 0%js = of_Z 0.
Proof.
  change (MakeTime 0%js 0%js 0%js 0%js)
    with (add (add (add (mul (of_Z 0) (of_Z msPerHour)) (mul (of_Z 0) (of_Z msPerMinute)))
                   (mul (of_Z 0) (of_Z msPerSecond))) (of_Z 0)).
  rewrite !mul_small by (vm_compute; reflexivity).
  rewrite !add_small by (vm_compute; reflexivity). reflexivity.
Qed.

Lemma MakeFullYear_of_Z (y : Z) :
  MakeFullYear (of_Z y) = of_Z (if (0 <=? y) && (y <=? 99) then 1900 + y else y).
Proof.
  unfold MakeFullYear, of_Z at 1. rewrite Z.quot_mul by (pose proof one_pos; lia).
  destruct ((0 <=? y) && (y <=? 99)); reflexivity.
Qed.

(** MakeDay on a year within 280000 years of the year 0, a month from 0 to
    11 and a day within 1000: the day number of the year and month, plus the
    day. *)
Lemma MakeDay_of_Z (y m d : Z) :
  - 280000 <= y <= 280000 -> 0 <= m <= 11 -> - 1000 <= d <= 1000 ->
  MakeDay (of_Z y) (of_Z m) (of_Z d) = of_Z (day_number y m d).
Proof.
  intros Hy Hm Hd. unfold MakeDay. rewrite !truncated_of_Z.
  assert (H53 : 2 ^ 53 = 9007199254740992) by reflexivity.
  rewrite (Z.div_small m 12), (Z.mod_small m 12) by lia.
  rewrite number_of_integer_small, add_small by lia.
  rewrite Z.add_0_r. unfold of_Z at 1. rewrite of_Z_div_one.
  destruct (leap_day_cases y) as [_ Hl].
  assert (Hb : 0 <= days_before_month m (leap_day y) <= 335)
    by (month_cases m; cbn [days_before_month]; lia).
  pose proof (DayFromYear_add (-280000) (y + 280000) ltac:(lia)) as B.
  replace (-280000 + (y + 280000)) with y in B by lia.
  assert (E : DayFromYear (-280000) = -102987428) by reflexivity.
  rewrite E in B. clear E.
  set (D := DayFromYear y + days_before_month m (leap_day y)).
  assert (HD : - 103000000 <= D <= 104000000) by (subst D; lia).
  unfold msPerDay.
  destruct (Z.leb_spec (D * 86400000) (2 ^ 53)); [|lia].
  destruct (Z.ltb_spec (- 2 ^ 53) ((D + 1) * 86400000)); [|lia].
  cbn [andb]. rewrite add_small, sub_small by lia.
  reflexivity.
Qed.

Lemma MakeDate_of_Z (D : Z) :
  Z.abs (D * msPerDay) < 2 ^ 53 ->
  MakeDate (of_Z D) (of_Z 0) = of_Z (D * msPerDay).
Proof.
  intros H. unfold MakeDate. unfold of_Z at 1 2.
  change (mul (Finite (D * one)) (of_Z msPerDay)) with (mul (of_Z D) (of_Z msPerDay)).
  rewrite mul_small by assumption.
  rewrite add_small by (rewrite Z.add_0_r; assumption).
  rewrite Z.add_0_r. reflexivity.
Qed.

Lemma TimeClip_of_Z (t : Z) :
  TimeClip (of_Z t) = if 8640000000000000 <? Z.abs t then NaN else of_Z t.
Proof.
  unfold TimeClip, of_Z at 1. pose proof one_pos as H1.
  rewrite Z.quot_mul by lia. rewrite Z.abs_mul, (Z.abs_eq one) by lia.
  destruct (Z.ltb_spec (8640000000000000 * one) (Z.abs t * one)),
           (Z.ltb_spec 8640000000000000 (Z.abs t)); try reflexivity; nia.
Qed.

(** [Date.UTC] on a date of the calendar of a year from 100 to 275759: the
    milliseconds of its day number. *)
Lemma Date_UTC_of_Z (y m d : Z) :
  100 <= y <= 275759 -> calendar_date y m d ->
  Date_UTC (of_Z y) (of_Z m) (of_Z d) = of_Z (day_number y m d * msPerDay).
Proof.
  intros Hy [Hm Hd]. unfold Date_UTC.
  destruct (leap_day_cases y) as [_ Hl].
  assert (Hd' : 1 <= d <= 31)
    by (revert Hd; month_cases m; cbn [DaysInMonth]; lia).
  rewrite MakeFullYear_of_Z.
  destruct (Z.leb_spec 0 y), (Z.leb_spec y 99); try lia. cbn [andb].
  rewrite MakeDay_of_Z, MakeTime_zero by lia.
  assert (H53 : 2 ^ 53 = 9007199254740992) by reflexivity.
  pose proof (day_within_year m _ d Hm Hl Hd) as Hw.
  pose proof (DayFromYear_add 100 (y - 100) ltac:(lia)) as B.
  replace (100 + (y - 100)) with y in B by lia.
  assert (E : DayFromYear 100 = -683003) by reflexivity. rewrite E in B. clear E.
  pose proof (DayFromYear_add y (275760 - y) ltac:(lia)) as B'.
  replace (y + (275760 - y)) with 275760 in B' by lia.
  assert (E : DayFromYear 275760 = 99999744) by reflexivity. rewrite E in B'. clear E.
  assert (HD : - 683003 <= day_number y m d <= 99999744)
    by (unfold day_number; lia).
  set (D := day_number y m d) in *. clearbody D. unfold msPerDay in *.
  rewrite MakeDate_of_Z by (unfold msPerDay; lia).
  rewrite TimeClip_of_Z.
  destruct (Z.ltb_spec 8640000000000000 (Z.abs (D * msPerDay)));
    [unfold msPerDay in *; lia | reflexivity].
Qed.

(** ** Date objects *)

Lemma local_time_of_Z (host : Host) (t : Z) :
  local_time host {| time_value := of_Z t |} = Some (LocalTime host t).
Proof. unfold local_time, time_value, of_Z. rewrite of_Z_div_one. reflexivity. Qed.

Lemma getter_of_Z (f : Z -> Z) (host : Host) (t : Z) :
  getter f host {| time_value := of_Z t |} = of_Z (f (LocalTime host t)).
Proof. unfold getter. rewrite local_time_of_Z. reflexivity. Qed.

(** The fields of a time are a date of the calendar, and the time lies in
    the day of that date. *)
Lemma fields_of_time (l : Z) :
  - 10 ^ 12 <= Day l <= 10 ^ 12 ->
  calendar_date (YearFromTime l) (MonthFromTime l) (DateFromTime l) /\
  day_number (YearFromTime l) (MonthFromTime l) (DateFromTime l) = Day l.
Proof.
  intros H. exact (day_number_of_fields (Day l) H).
Qed.

(** A time in the day of a date of the calendar has the fields of that
    date. *)
Lemma fields_in_day (y m d l : Z) :
  calendar_date y m d ->
  - 10 ^ 12 <= Day l <= 10 ^ 12 ->
  Day l = day_number y m d ->
  YearFromTime l = y /\ MonthFromTime l = m /\ DateFromTime l = d.
Proof.
  intros Hc Hb He. rewrite He in Hb.
  destruct (fields_of_day_number y m d Hc Hb) as (Hy & Hm & Hd). cbv zeta in *.
  unfold DateFromTime, MonthFromTime, DayWithinYear, YearFromTime.
  rewrite He, Hy, Hm. repeat split. lia.
Qed.

(** [new Date(y, m, d)] for a date of the calendar of a year within 280000
    years of the year 0, and not from 0 to 99: the time value is the one the
    host picks for that local midnight, when TimeClip keeps it. *)
Lemma construct_of_Z (host : Host) (y m d : Z) :
  - 280000 <= y <= 280000 -> y < 0 \/ 100 <= y -> calendar_date y m d ->
  Z.abs (offset_at_local host (day_number y m d * msPerDay)) < msPerDay ->
  construct host (of_Z y) (of_Z m) (of_Z d) =
  {| time_value :=
       TimeClip (of_Z (day_number y m d * msPerDay
                       - offset_at_local host (day_number y m d * msPerDay))) |}.
Proof.
  intros Hy Hy' Hc Ho. unfold construct. f_equal.
  destruct Hc as [Hm Hd]. destruct (leap_day_cases y) as [_ Hl].
  assert (Hd' : 1 <= d <= 31)
    by (revert Hd; month_cases m; cbn [DaysInMonth]; lia).
  rewrite MakeFullYear_of_Z.
  assert ((0 <=? y) && (y <=? 99) = false) as ->
    by (destruct (Z.leb_spec 0 y), (Z.leb_spec y 99); try reflexivity; lia).
  rewrite MakeDay_of_Z, MakeTime_zero by lia.
  pose proof (day_within_year m _ d Hm Hl Hd) as Hw.
  pose proof (DayFromYear_add (-280000) (y + 280000) ltac:(lia)) as B.
  replace (-280000 + (y + 280000)) with y in B by lia.
  assert (E1 : DayFromYear (-280000) = -102987428) by reflexivity.
  rewrite E1 in B. clear E1.
  assert (HD : - 103000000 <= day_number y m d <= 104000000)
    by (unfold day_number; lia).
  set (D := day_number y m d) in *. clearbody D.
  assert (H53 : 2 ^ 53 = 9007199254740992) by reflexivity.
  rewrite MakeDate_of_Z by (unfold msPerDay; lia).
  unfold UTC. unfold of_Z at 1 2. rewrite of_Z_div_one.
  change (Finite (D * msPerDay * one)) with (of_Z (D * msPerDay)).
  rewrite sub_small by (unfold msPerDay in *; lia). reflexivity.
Qed.

(** ** Easter Sunday *)

(** The first of March of the year 400 d + 100 e + 4 i + k is the weekday
    that the weekday shift of the Computus assumes. *)
Lemma weekday_of_march_first (d e i k : Z) :
  0 <= e <= 3 -> 0 <= i <= 24 -> 0 <= k <= 3 ->
  let y := 400 * d + 100 * e + 4 * i + k in
  (DayFromYear y + leap_day y + 4 + 2 * e + 2 * i - k) mod 7 = 0.
Proof.
  intros He Hi Hk. cbv zeta. unfold leap_day, DayFromYear, DaysInYear.
  set (y := 400 * d + 100 * e + 4 * i + k).
  assert (E4 : y mod 4 = k) by (subst y; Z.to_euclidean_division_equations; lia).
  assert (E100 : y mod 100 = 4 * i + k) by (subst y; Z.to_euclidean_division_equations; lia).
  assert (E400 : y mod 400 = 100 * e + 4 * i + k)
    by (subst y; Z.to_euclidean_division_equations; lia).
  assert (F4 : (y - 1969) / 4 = 100 * d + 25 * e + i - 493 + (k + 3) / 4)
    by (subst y; Z.to_euclidean_division_equations; lia).
  assert (F100 : (y - 1901) / 100 = 4 * d + e - 20 + (4 * i + k + 99) / 100)
    by (subst y; Z.to_euclidean_division_equations; lia).
  assert (F400 : (y - 1601) / 400 = d - 5 + (100 * e + 4 * i + k + 399) / 400)
    by (subst y; Z.to_euclidean_division_equations; lia).
  rewrite E4, E100, E400, F4, F100, F400.
  replace (y - 1970) with (400 * d + 100 * e + 4 * i + k - 1970) by (subst y; lia).
  clearbody y. clear E4 E100 E400 F4 F100 F400 y.
  destruct (Z.eqb_spec k 0); destruct (Z.eqb_spec (4 * i + k) 0);
    destruct (Z.eqb_spec (100 * e + 4 * i + k) 0); cbn [negb];
    match goal with |- context [?a =? 366] => change (a =? 366) with true
                  | |- context [?a =? 366] => change (a =? 366) with false end;
    cbv iota; Z.to_euclidean_division_equations; lia.
Qed.

(** The date of the thirteen steps is a date of the calendar, in March or
    April, and a Sunday: its day number plus 4 is a multiple of 7. *)
Lemma easter_date (y : Z) :
  let q := Spec41.steps y in
  (Spec41.month q = 3 /\ 22 <= Spec41.day q <= 31 \/
   Spec41.month q = 4 /\ 1 <= Spec41.day q <= 25) /\
  calendar_date y (Spec41.month q - 1) (Spec41.day q) /\
  (day_number y (Spec41.month q - 1) (Spec41.day q) + 4) mod 7 = 0.
Proof.
  cbv zeta.
  change (Spec41.steps y) with
    (Spec41.from_century y (y / 100) (y / 100 / 4) (((y / 100) + 8) / 25)
       ((y / 100 - ((y / 100) + 8) / 25 + 1) / 3)
       (19 * (y mod 19) + y / 100 - y / 100 / 4
        - (y / 100 - ((y / 100) + 8) / 25 + 1) / 3 + 15)).
  set (b := y / 100). set (S := 19 * (y mod 19) + _ - _ - _ + 15).
  set (g := (b - (b + 8) / 25 + 1) / 3). set (f := (b + 8) / 25).
  pose proof (from_century_ranges y b (b / 4) f g S)
    as (Ha & Hc & He & Hh & Hi & Hk & Hl & Hm).
  set (q := Spec41.from_century y b (b / 4) f g S) in *.
  pose proof (date_window _ _ _ Ha Hh Hl) as W. cbv zeta in W.
  pose proof (correction_cases _ _ _ Ha Hh Hl) as [Hm' Hiff].
  change (Spec41.month q) with (Spec41.rawOffset q / 31).
  change (Spec41.day q) with (Spec41.rawOffset q mod 31 + 1).
  assert (Hr : Spec41.rawOffset q =
               Spec41.epact q + Spec41.weekdayShift q
               - 7 * Spec41.overflowCorrection q + 114) by reflexivity.
  change ((Spec41.goldenNumber q + 11 * Spec41.epact q + 22 * Spec41.weekdayShift q) / 451)
    with (Spec41.overflowCorrection q) in *.
  rewrite <- Hr in W.
  assert (Hl7 : Spec41.weekdayShift q =
                (32 + 2 * Spec41.centuryLeapRemainder q + 2 * Spec41.yearLeapBlocks q
                 - Spec41.epact q - Spec41.yearLeapRemainder q) mod 7) by reflexivity.
  assert (Ey : y = 400 * (b / 4) + 100 * Spec41.centuryLeapRemainder q
                   + 4 * Spec41.yearLeapBlocks q + Spec41.yearLeapRemainder q).
  { change (Spec41.centuryLeapRemainder q) with (b mod 4).
    change (Spec41.yearLeapBlocks q) with (y mod 100 / 4).
    change (Spec41.yearLeapRemainder q) with (y mod 100 mod 4).
    subst b. Z.to_euclidean_division_equations; lia. }
  pose proof (weekday_of_march_first (b / 4) _ _ _ He Hi Hk) as Wd.
  cbv zeta in Wd. rewrite <- Ey in Wd.
  destruct (leap_day_cases y) as [_ Hly].
  set (r := Spec41.rawOffset q) in *. set (l := Spec41.weekdayShift q) in *.
  set (h := Spec41.epact q) in *. set (m := Spec41.overflowCorrection q) in *.
  set (e := Spec41.centuryLeapRemainder q) in *.
  set (i := Spec41.yearLeapBlocks q) in *. set (k := Spec41.yearLeapRemainder q) in *.
  clearbody r l h m e i k. clear Hiff.
  destruct W as (Wm & W3 & W4).
  split; [destruct Wm as [E | E]; [left | right]; auto|].
  assert (Hdn : day_number y (r / 31 - 1) (r mod 31 + 1) = DayFromYear y + leap_day y + r - 34).
  { unfold day_number. pose proof (Z.div_mod r 31 ltac:(lia)) as Er.
    destruct Wm as [E | E]; rewrite E in *;
      [change (3 - 1) with 2 | change (4 - 1) with 3];
      cbv [days_before_month]; lia. }
  split.
  - unfold calendar_date. destruct Wm as [E | E]; rewrite E.
    + specialize (W3 E). change (3 - 1) with 2. cbv [DaysInMonth]. lia.
    + specialize (W4 E). change (4 - 1) with 3. cbv [DaysInMonth]. lia.
  - rewrite Hdn. revert Wd. Z.to_euclidean_division_equations; lia.
Qed.

(** The thirteen steps give the same month and day 5 700 000 years later. *)
Lemma steps_period (y : Z) :
  Spec41.month (Spec41.steps (y + 5700000)) = Spec41.month (Spec41.steps y) /\
  Spec41.day (Spec41.steps (y + 5700000)) = Spec41.day (Spec41.steps y).
Proof.
  unfold Spec41.steps. cbv zeta. cbn [Spec41.month Spec41.day].
  assert (Ea : (y + 5700000) mod 19 = y mod 19)
    by (Z.to_euclidean_division_equations; lia).
  assert (Eb : (y + 5700000) / 100 = y / 100 + 57000)
    by (Z.to_euclidean_division_equations; lia).
  assert (Ec : (y + 5700000) mod 100 = y mod 100)
    by (Z.to_euclidean_division_equations; lia).
  rewrite Ea, Eb, Ec. set (b := y / 100).
  assert (Ed : (b + 57000) / 4 = b / 4 + 14250)
    by (Z.to_euclidean_division_equations; lia).
  assert (Ee : (b + 57000) mod 4 = b mod 4)
    by (Z.to_euclidean_division_equations; lia).
  assert (Ef : (b + 57000 + 8) / 25 = (b + 8) / 25 + 2280)
    by (Z.to_euclidean_division_equations; lia).
  rewrite Ed, Ee, Ef. set (f := (b + 8) / 25).
  assert (Eg : (b + 57000 - (f + 2280) + 1) / 3 = (b - f + 1) / 3 + 18240)
    by (Z.to_euclidean_division_equations; lia).
  rewrite Eg. set (g := (b - f + 1) / 3).
  assert (Eh : (19 * (y mod 19) + (b + 57000) - (b / 4 + 14250) - (g + 18240) + 15) mod 30
               = (19 * (y mod 19) + b - b / 4 - g + 15) mod 30)
    by (Z.to_euclidean_division_equations; lia).
  rewrite Eh. split; reflexivity.
Qed.

(** ** The fields of a Date that is not invalid *)

Lemma local_day_bounds (host : Host) (t : Z) :
  offsets_below_a_day host -> time_in_range t ->
  - 100000001 <= local_day host t <= 100000001.
Proof.
  intros Ho Ht. destruct (Ho t) as [Hu _]. unfold time_in_range in Ht.
  unfold local_day, LocalTime, Day, msPerDay in *.
  Z.to_euclidean_division_equations; lia.
Qed.

Lemma local_fields_calendar (host : Host) (t : Z) :
  offsets_below_a_day host -> time_in_range t ->
  calendar_date (local_year host t) (local_month host t) (local_date host t) /\
  day_number (local_year host t) (local_month host t) (local_date host t)
  = local_day host t.
Proof.
  intros Ho Ht. pose proof (local_day_bounds host t Ho Ht) as Hb.
  apply fields_of_time. fold (local_day host t).
  change (10 ^ 12) with 1000000000000. lia.
Qed.

(** The year of a day: the years follow the days. *)
Lemma local_year_spec (host : Host) (t : Z) :
  offsets_below_a_day host -> time_in_range t ->
  DayFromYear (local_year host t) <= local_day host t
  < DayFromYear (local_year host t + 1).
Proof.
  intros Ho Ht. pose proof (local_day_bounds host t Ho Ht) as Hb.
  apply YearFromDay_spec. fold (local_day host t).
  change (10 ^ 12) with 1000000000000. lia.
Qed.

Lemma getFullYear_of_Z (host : Host) (t : Z) :
  getFullYear host {| time_value := of_Z t |} = of_Z (local_year host t).
Proof. apply getter_of_Z. Qed.

Lemma getMonth_of_Z (host : Host) (t : Z) :
  getMonth host {| time_value := of_Z t |} = of_Z (local_month host t).
Proof. apply getter_of_Z. Qed.

Lemma getDate_of_Z (host : Host) (t : Z) :
  getDate host {| time_value := of_Z t |} = of_Z (local_date host t).
Proof. apply getter_of_Z. Qed.

(** [Date.UTC] of the local fields: the midnight of the local day. *)
Lemma Date_UTC_local (host : Host) (t : Z) :
  offsets_below_a_day host -> time_in_range t ->
  100 <= local_year host t <= 275759 ->
  Date_UTC (of_Z (local_year host t)) (of_Z (local_month host t))
           (of_Z (local_date host t))
  = of_Z (local_day host t * msPerDay).
Proof.
  intros Ho Ht Hy. destruct (local_fields_calendar host t Ho Ht) as [Hc Hd].
  rewrite Date_UTC_of_Z by assumption. rewrite Hd. reflexivity.
Qed.

Lemma day_length : (24 * 60 * 60 * 1000)%js = of_Z msPerDay.
Proof.
  change ((24 * 60 * 60 * 1000)%js)
    with (mul (mul (mul (of_Z 24) (of_Z 60)) (of_Z 60)) (of_Z 1000)).
  rewrite !mul_small by (vm_compute; reflexivity). reflexivity.
Qed.

(** The difference of two midnights in days: nothing is rounded. *)
Lemma diffDays_of_Z (D1 D0 : Z) :
  - 683003 <= D1 < 99999744 -> - 683003 <= D0 < 99999744 ->
  Math_round (div (sub (of_Z (D1 * msPerDay)) (of_Z (D0 * msPerDay)))
                  (24 * 60 * 60 * 1000)%js)
  = of_Z (D1 - D0).
Proof.
  intros H1 H0. rewrite day_length.
  assert (H53 : 2 ^ 53 = 9007199254740992) by reflexivity.
  rewrite sub_small by (unfold msPerDay; lia).
  replace (D1 * msPerDay - D0 * msPerDay) with ((D1 - D0) * msPerDay) by ring.
  rewrite div_exact by (unfold msPerDay; lia).
  apply Math_round_of_Z.
Qed.

(** The days of the years from 100 to 275759. *)
Lemma local_day_of_year (host : Host) (t : Z) :
  offsets_below_a_day host -> time_in_range t ->
  100 <= local_year host t <= 275759 ->
  - 683003 <= local_day host t < 99999744.
Proof.
  intros Ho Ht Hy. pose proof (local_year_spec host t Ho Ht) as Hs.
  pose proof (DayFromYear_le 100 _ (proj1 Hy)) as H1.
  pose proof (DayFromYear_le (local_year host t + 1) 275760 ltac:(lia)) as H2.
  assert (E1 : DayFromYear 100 = -683003) by reflexivity.
  assert (E2 : DayFromYear 275760 = 99999744) by reflexivity.
  lia.
Qed.

(** ** [calculateEaster]: the Date of Easter *)

Lemma calculateEaster_unfold (host : Host) (year : JSValue) :
  EasterWrapper.calculateEaster host year =
  match Easter.calculateEasterYMD year with
  | Throw error => Throw error
  | Return (y, month, day) => Return (construct host y (sub month (of_Z 1)) day)
  end.
Proof. reflexivity. Qed.

Lemma easter_day_number_bounds (y : Z) :
  DayFromYear y + 80 <= EasterWrapper.easter_day_number y <= DayFromYear y + 115.
Proof.
  unfold EasterWrapper.easter_day_number. cbv zeta.
  destruct (easter_date y) as (Hm & _ & _). cbv zeta in *.
  destruct (leap_day_cases y) as [_ Hl]. unfold day_number.
  destruct Hm as [[E Hd] | [E Hd]]; rewrite E.
  - change (3 - 1) with 2. cbv [days_before_month]. lia.
  - change (4 - 1) with 3. cbv [days_before_month]. lia.
Qed.

Lemma easter_day_number_range (y : Z) :
  1583 <= y <= 275760 ->
  - 141269 <= EasterWrapper.easter_day_number y <= 99999859.
Proof.
  intros Hy. pose proof (easter_day_number_bounds y) as Hb.
  pose proof (DayFromYear_le 1583 y ltac:(lia)) as B.
  pose proof (DayFromYear_le y 275760 ltac:(lia)) as B'.
  assert (E1 : DayFromYear 1583 = -141349) by reflexivity.
  assert (E2 : DayFromYear 275760 = 99999744) by reflexivity.
  lia.
Qed.

Lemma easter_time_in_range (host : Host) (y : Z) :
  1583 <= y <= 275760 ->
  Z.abs (offset_at_local host (EasterWrapper.easter_midnight y)) < msPerDay ->
  time_in_range (EasterWrapper.easter_time host y).
Proof.
  intros Hy Ho. pose proof (easter_day_number_range y Hy) as Hb.
  unfold time_in_range, EasterWrapper.easter_time, EasterWrapper.easter_midnight, msPerDay in *.
  lia.
Qed.

Lemma calculateEaster_in_range (host : Host) (y : Z) :
  1583 <= y <= 275760 ->
  Z.abs (offset_at_local host (EasterWrapper.easter_midnight y)) < msPerDay ->
  EasterWrapper.calculateEaster host (JSNumber (of_Z y))
  = Return {| time_value := of_Z (EasterWrapper.easter_time host y) |}.
Proof.
  intros Hy Ho.
  assert (Hs : 1583 <= y <= MAX_SAFE_INTEGER) by (unfold MAX_SAFE_INTEGER; lia).
  pose proof (calculateEasterYMD_safe y Hs) as E.
  pose proof (easter_time_in_range host y Hy Ho) as Hr.
  destruct (easter_date y) as (Hm & Hc & _). cbv zeta in *.
  unfold EasterWrapper.easter_time, EasterWrapper.easter_midnight,
    EasterWrapper.easter_day_number in *.
  cbv zeta in *.
  set (month := Spec41.month (Spec41.steps y)) in *.
  set (day := Spec41.day (Spec41.steps y)) in *.
  change (Spec41.compute y) with (y, month, day) in E.
  rewrite calculateEaster_unfold, E. unfold tuple.
  assert (H53 : 2 ^ 53 = 9007199254740992) by reflexivity.
  rewrite sub_small by lia.
  rewrite construct_of_Z by (try assumption; lia).
  rewrite TimeClip_of_Z.
  set (u := day_number y (month - 1) day * msPerDay - _) in *.
  unfold time_in_range in Hr.
  destruct (Z.ltb_spec 8640000000000000 (Z.abs u)) as [Hc' | _]; [lia|].
  reflexivity.
Qed.

(** The local fields of that time value, on a host that keeps the local day
    of that midnight. *)
Lemma easter_time_fields (host : Host) (y : Z) :
  1583 <= y <= 275760 ->
  keeps_local_day host (EasterWrapper.easter_midnight y) ->
  local_day host (EasterWrapper.easter_time host y) = EasterWrapper.easter_day_number y /\
  local_year host (EasterWrapper.easter_time host y) = y /\
  local_month host (EasterWrapper.easter_time host y) = Spec41.month (Spec41.steps y) - 1 /\
  local_date host (EasterWrapper.easter_time host y) = Spec41.day (Spec41.steps y) /\
  WeekDay (LocalTime host (EasterWrapper.easter_time host y)) = 0.
Proof.
  intros Hy Hk. pose proof (easter_day_number_range y Hy) as Hb.
  destruct (easter_date y) as (_ & Hc & Hsun). cbv zeta in *.
  unfold keeps_local_day in Hk. fold (EasterWrapper.easter_time host y) in Hk.
  assert (HD : Day (EasterWrapper.easter_midnight y) = EasterWrapper.easter_day_number y)
    by (apply Z.div_mul; unfold msPerDay; lia).
  rewrite HD in Hk.
  unfold local_day, local_year, local_month, local_date, WeekDay.
  assert (Hbd : - 10 ^ 12 <= Day (LocalTime host (EasterWrapper.easter_time host y)) <= 10 ^ 12)
    by (rewrite Hk; change (10 ^ 12) with 1000000000000; lia).
  destruct (fields_in_day y _ _ _ Hc Hbd Hk) as (E2 & E3 & E4).
  rewrite E2, E3, E4, Hk.
  split; [reflexivity|]. split; [reflexivity|]. split; [reflexivity|].
  split; [reflexivity|]. exact Hsun.
Qed.

(** X1: for a year from 1583 to 275760, [calculateEaster] returns a Date whose
    local year, month and day are the date of [calculateEasterYMD], and
    whose local weekday is Sunday, on a host that keeps the local day of
    that midnight. *)
Theorem calculateEaster_local_date (host : Host) (y : Z) :
  1583 <= y <= 275760 ->
  Z.abs (offset_at_local host (EasterWrapper.easter_midnight y)) < msPerDay ->
  keeps_local_day host (EasterWrapper.easter_midnight y) ->
  exists (month day : Z) (d : Date),
    Easter.calculateEasterYMD (JSNumber (of_Z y)) = Return (tuple (y, month, day)) /\
    EasterWrapper.calculateEaster host (JSNumber (of_Z y)) = Return d /\
    (exists t : Z, time_value d = of_Z t) /\
    getFullYear host d = of_Z y /\
    getMonth host d = of_Z (month - 1) /\
    getDate host d = of_Z day /\
    getDay host d = of_Z 0.
Proof.
  intros Hy Ho Hk.
  assert (Hs : 1583 <= y <= MAX_SAFE_INTEGER) by (unfold MAX_SAFE_INTEGER; lia).
  exists (Spec41.month (Spec41.steps y)), (Spec41.day (Spec41.steps y)).
  exists {| time_value := of_Z (EasterWrapper.easter_time host y) |}.
  split; [exact (calculateEasterYMD_safe y Hs)|].
  split; [exact (calculateEaster_in_range host y Hy Ho)|].
  split; [exists (EasterWrapper.easter_time host y); reflexivity|].
  destruct (easter_time_fields host y Hy Hk) as (_ & E2 & E3 & E4 & E5).
  rewrite getFullYear_of_Z, getMonth_of_Z, getDate_of_Z.
  unfold getDay. rewrite getter_of_Z.
  rewrite E2, E3, E4, E5.
  split; [|split; [|split]]; reflexivity.
Qed.

(** [new Date(y, m, d)] for a day of March or April of a year from 275761
    on: the time value is beyond the 8.64e15 milliseconds of TimeClip,
    whatever the time zone, and the Date is invalid. *)
Lemma construct_beyond_range (host : Host) (y m day : Z) :
  275761 <= y <= MAX_VALUE -> 2 <= m <= 3 -> 1 <= day <= 31 ->
  offsets_below_a_day host ->
  construct host (of_Z y) (of_Z m) (of_Z day) = {| time_value := NaN |}.
Proof.
  intros Hy Hm Hd Ho.
  assert (H53 : 2 ^ 53 = 9007199254740992) by reflexivity.
  assert (HM : 2 ^ 53 <= MAX_VALUE) by (vm_compute; discriminate).
  unfold construct. f_equal.
  rewrite MakeFullYear_of_Z.
  assert ((0 <=? y) && (y <=? 99) = false) as ->
    by (destruct (Z.leb_spec 0 y), (Z.leb_spec y 99); try reflexivity; lia).
  rewrite MakeTime_zero. unfold MakeDay. rewrite !truncated_of_Z.
  rewrite (Z.div_small m 12), (Z.mod_small m 12) by lia.
  rewrite number_of_integer_small by lia.
  destruct (add_big y 0) as (ym & -> & Hym0 & Hym); [lia|].
  unfold of_Z at 1. rewrite of_Z_div_one.
  assert (Hym' : 275761 <= ym) by lia.
  pose proof (DayFromYear_add 275761 (ym - 275761) ltac:(lia)) as B.
  replace (275761 + (ym - 275761)) with ym in B by lia.
  assert (E1 : DayFromYear 275761 = 100000110) by reflexivity. rewrite E1 in B. clear E1.
  destruct (leap_day_cases ym) as [_ Hl].
  assert (Hb : 59 <= days_before_month m (leap_day ym))
    by (assert (Hc : m = 2 \/ m = 3) by lia; destruct Hc as [-> | ->];
        cbv [days_before_month]; lia).
  set (D := DayFromYear ym + days_before_month m (leap_day ym)) in *.
  assert (HD : 100000169 <= D) by (subst D; lia). clearbody D.
  destruct ((D * msPerDay <=? 2 ^ 53) && (- 2 ^ 53 <? (D + 1) * msPerDay)) eqn:Hin;
    [|reflexivity].
  apply andb_prop in Hin. destruct Hin as [Hin _]. apply Z.leb_le in Hin.
  unfold msPerDay in Hin.
  rewrite add_small, sub_small by lia.
  assert (HMV : 10000000000000000 <= MAX_VALUE) by (vm_compute; discriminate).
  change (MakeDate (of_Z (D + day - 1)) (of_Z 0))
    with (match add (mul (of_Z (D + day - 1)) (of_Z msPerDay)) (of_Z 0) with
          | Finite tv => Finite tv
          | _ => NaN
          end).
  destruct (mul_big (D + day - 1) msPerDay) as (z2 & -> & Hz20 & Hz2);
    [unfold msPerDay; lia|].
  destruct (add_big z2 0) as (z3 & -> & Hz30 & Hz3); [unfold msPerDay in *; lia|].
  change (match of_Z z3 with Finite tv => Finite tv | _ => NaN end) with (of_Z z3).
  change (UTC host (of_Z z3))
    with (sub (of_Z z3) (of_Z (offset_at_local host (z3 * one / one)))).
  rewrite of_Z_div_one.
  destruct (Ho z3) as [_ Hoff]. unfold msPerDay in *.
  destruct (sub_big z3 (offset_at_local host z3)) as (z4 & -> & Hz40 & Hz4); [lia|].
  rewrite TimeClip_of_Z.
  destruct (Z.ltb_spec 8640000000000000 (Z.abs z4)); [reflexivity | lia].
Qed.

Lemma calculateEaster_beyond_range (host : Host) (y : Z) :
  275761 <= y <= MAX_VALUE ->
  offsets_below_a_day host ->
  EasterWrapper.calculateEaster host (JSNumber (of_Z y))
  = Return {| time_value := NaN |}.
Proof.
  intros Hy Ho.
  destruct (date_in_window y ltac:(lia)) as (month & day & E & Hm & H3 & H4).
  assert (H53 : 2 ^ 53 = 9007199254740992) by reflexivity.
  rewrite calculateEaster_unfold, E. unfold tuple.
  rewrite sub_small by lia.
  rewrite construct_beyond_range by (try assumption; lia). reflexivity.
Qed.

(** X2: from the year 275761 on the Date is an Invalid Date: the time value of
    Easter is beyond the 8.64e15 milliseconds of TimeClip, whatever the
    time zone. *)
Theorem calculateEaster_invalid_from_275761 (host : Host) (y : Z) :
  275761 <= y <= MAX_VALUE ->
  offsets_below_a_day host ->
  exists d : Date,
    EasterWrapper.calculateEaster host (JSNumber (of_Z y)) = Return d /\
    time_value d = NaN /\
    getFullYear host d = NaN /\ getMonth host d = NaN /\ getDate host d = NaN /\
    toLocaleDateString_month_long host d = "Invalid Date"%string.
Proof.
  intros Hy Ho. exists {| time_value := NaN |}.
  split; [apply calculateEaster_beyond_range; assumption|].
  split; [|split; [|split; [|split]]]; reflexivity.
Qed.

Lemma calculateEaster_local_date_witness :
  exists (month day : Z) (d : Date),
    Easter.calculateEasterYMD (JSNumber (of_Z 2025)) = Return (tuple (2025, month, day)) /\
    EasterWrapper.calculateEaster greenwich (JSNumber (of_Z 2025)) = Return d /\
    (exists t : Z, time_value d = of_Z t) /\
    getFullYear greenwich d = of_Z 2025 /\
    getMonth greenwich d = of_Z (month - 1) /\
    getDate greenwich d = of_Z day /\
    getDay greenwich d = of_Z 0.
Proof.
  apply (calculateEaster_local_date greenwich 2025).
  - lia.
  - reflexivity.
  - vm_compute. reflexivity.
Defined.

Lemma calculateEaster_invalid_witness :
  exists d : Date,
    EasterWrapper.calculateEaster greenwich (JSNumber (of_Z 275761)) = Return d /\
    time_value d = NaN /\
    getFullYear greenwich d = NaN /\ getMonth greenwich d = NaN /\
    getDate greenwich d = NaN /\
    toLocaleDateString_month_long greenwich d = "Invalid Date"%string.
Proof.
  apply (calculateEaster_invalid_from_275761 greenwich 275761).
  - vm_compute. split; discriminate.
  - intros t. split; reflexivity.
Defined.

Lemma zero_literal : 0%js = of_Z 0.
Proof. reflexivity. Qed.
Lemma one_literal : 1%js = of_Z 1.
Proof. reflexivity. Qed.
Lemma minus_one_literal : (-1)%js = of_Z (-1).
Proof. reflexivity. Qed.

(** The tests of a [compareDate], one after the other, and what each one
    says of the integers. *)
Ltac integer_facts :=
  repeat match goal with
         | H : _ && _ = true |- _ => apply andb_prop in H; destruct H
         | H : _ && _ = false |- _ => apply andb_false_iff in H
         | H : _ || _ = true |- _ => apply orb_prop in H
         | H : _ || _ = false |- _ => apply orb_false_elim in H; destruct H
         | H : (_ =? _) = true |- _ => apply Z.eqb_eq in H
         | H : (_ =? _) = false |- _ => apply Z.eqb_neq in H
         | H : (_ <? _) = true |- _ => apply Z.ltb_lt in H
         | H : (_ <? _) = false |- _ => apply Z.ltb_ge in H
         end.

Ltac next_test :=
  let E := fresh "E" in
  match goal with
  | |- context [snd (if ?c then _ else _)] => destruct c eqn:E; cbv iota
  | |- context [(if ?c then _ else _) = Return _] => destruct c eqn:E; cbv iota
  end.

Ltac settle :=
  let HH := fresh in
  split; intros HH; try discriminate HH; try reflexivity; try lia.

(** ** [compareDate] of the second script, on two Dates that are not invalid *)

Lemma compareDate_cases (host : Host) (t0 t1 : Z) :
  offsets_below_a_day host ->
  time_in_range t0 -> time_in_range t1 ->
  100 <= local_year host t0 <= 275759 ->
  100 <= local_year host t1 <= 275759 ->
  let D0 := local_day host t0 in
  let D1 := local_day host t1 in
  let Y0 := local_year host t0 in
  let Y1 := local_year host t1 in
  exists r : report,
    Main2UI.compareDate host {| time_value := of_Z t0 |}
                        (ADate {| time_value := of_Z t1 |}) = Return r /\
    ((tense r = "present"%string <-> D1 = D0) /\
     (tense r = "past"%string <-> D1 < D0) /\
     (tense r = "future"%string <-> D0 < D1)) /\
    ((hd_error (msg r) = Some (Text "Today, ") <-> D1 = D0) /\
     (hd_error (msg r) = Some (Text "Tomorrow, ") <-> D1 = D0 + 1) /\
     (hd_error (msg r) = Some (Text "Yesterday, ") <-> D1 = D0 - 1) /\
     (hd_error (msg r) = Some (Text "This year, Easter was on ")
      <-> Y1 = Y0 /\ D1 < D0 - 1) /\
     (hd_error (msg r) = Some (Text "This year, Easter will be on ")
      <-> Y1 = Y0 /\ D0 + 1 < D1) /\
     (hd_error (msg r) = Some (Text "Last year, Easter was on ")
      <-> Y1 = Y0 - 1 /\ D1 < D0 - 1) /\
     (hd_error (msg r) = Some (Text "Next year, Easter will be on ")
      <-> Y1 = Y0 + 1 /\ D0 + 1 < D1) /\
     (hd_error (msg r) = Some (Text "In ")
      <-> (Y1 < Y0 - 1 /\ D1 < D0 - 1) \/ (Y0 + 1 < Y1 /\ D0 + 1 < D1))).
Proof.
  intros Ho Ht0 Ht1 Hy0 Hy1. cbv zeta.
  pose proof (local_year_spec host t0 Ho Ht0) as S0.
  pose proof (local_year_spec host t1 Ho Ht1) as S1.
  pose proof (local_day_of_year host t0 Ho Ht0 Hy0) as B0.
  pose proof (local_day_of_year host t1 Ho Ht1 Hy1) as B1.
  unfold Main2UI.compareDate. cbv zeta.
  rewrite !getFullYear_of_Z, !getMonth_of_Z, !getDate_of_Z.
  rewrite !Date_UTC_local by assumption.
  rewrite diffDays_of_Z by assumption.
  rewrite zero_literal, one_literal, minus_one_literal.
  assert (H53 : 2 ^ 53 = 9007199254740992) by reflexivity.
  rewrite sub_small, add_small by lia.
  rewrite !strict_equal_of_Z, !lt_of_Z.
  pose proof (DayFromYear_le (local_year host t1 + 1) (local_year host t0)) as M1.
  pose proof (DayFromYear_le (local_year host t0 + 1) (local_year host t1)) as M0.
  set (D0 := local_day host t0) in *. set (D1 := local_day host t1) in *.
  set (Y0 := local_year host t0) in *. set (Y1 := local_year host t1) in *.
  clearbody D0 D1 Y0 Y1.
  repeat next_test; integer_facts;
    (eexists; split; [reflexivity|]; cbn [tense msg hd_error];
     split; [split; [|split] | split; [|split; [|split; [|split; [|split; [|split; [|split]]]]]]];
     settle).
Qed.

(** ** [compareDate] of the first script *)

(** The same month of another year is more than 300 days away. *)
Lemma same_month_other_year (y m d y' d' : Z) :
  calendar_date y m d -> calendar_date y' m d' -> y < y' ->
  day_number y m d + 300 < day_number y' m d'.
Proof.
  intros [Hm Hd] [_ Hd'] Hy. unfold day_number.
  pose proof (DayFromYear_add y 1 ltac:(lia)) as A.
  pose proof (DayFromYear_le (y + 1) y' ltac:(lia)) as L.
  destruct (leap_day_cases y) as [_ Hl]. destruct (leap_day_cases y') as [_ Hl'].
  revert Hd Hd'. month_cases m; cbv [days_before_month DaysInMonth]; lia.
Qed.

Lemma calendar_date_bounds (y m d : Z) :
  calendar_date y m d -> 0 <= m <= 11 /\ 1 <= d <= 31.
Proof.
  intros [Hm Hd]. split; [exact Hm|].
  destruct (leap_day_cases y) as [_ Hl].
  revert Hd. month_cases m; cbv [DaysInMonth]; lia.
Qed.

(** In one month of one year the day numbers differ as the days do. *)
Lemma same_month_same_year (y m d d' : Z) :
  day_number y m d' - day_number y m d = d' - d.
Proof. unfold day_number. lia. Qed.

Lemma first_compareDate_cases (host : Host) (t0 t1 : Z) (jahr monat tag : number) :
  offsets_below_a_day host ->
  time_in_range t0 -> time_in_range t1 ->
  100 <= local_year host t0 <= 275759 ->
  100 <= local_year host t1 <= 275759 ->
  construct host jahr (sub monat 1%js) tag = {| time_value := of_Z t1 |} ->
  let D0 := local_day host t0 in
  let D1 := local_day host t1 in
  let Y0 := local_year host t0 in
  let Y1 := local_year host t1 in
  let M0 := local_month host t0 in
  let M1 := local_month host t1 in
  let r := Main1UI.compareDate host {| time_value := of_Z t0 |} jahr monat tag in
  ((snd r = "present"%string <-> D1 = D0) /\
   (snd r = "past"%string <-> D1 < D0) /\
   (snd r = "future"%string <-> D0 < D1)) /\
  ((hd_error (fst r) = Some (Text "Today, ") <-> D1 = D0) /\
   (hd_error (fst r) = Some (Text "Tomorrow, ") <-> D1 = D0 + 1 /\ M1 = M0) /\
   (hd_error (fst r) = Some (Text "Yesterday, ") <-> D1 = D0 - 1 /\ M1 = M0) /\
   (hd_error (fst r) = Some (Text "This year, Easter was on ")
    <-> Y1 = Y0 /\ D1 < D0 /\ ~ (D1 = D0 - 1 /\ M1 = M0)) /\
   (hd_error (fst r) = Some (Text "This year, Easter will be on ")
    <-> Y1 = Y0 /\ D0 < D1 /\ ~ (D1 = D0 + 1 /\ M1 = M0)) /\
   (hd_error (fst r) = Some (Text "Last year, Easter was on ") <-> Y1 = Y0 - 1) /\
   (hd_error (fst r) = Some (Text "Next year, Easter will be on ") <-> Y1 = Y0 + 1) /\
   (hd_error (fst r) = Some (Text "In ") <-> Y1 < Y0 - 1 \/ Y0 + 1 < Y1)).
Proof.
  intros Ho Ht0 Ht1 Hy0 Hy1 Hc. cbv zeta.
  destruct (local_fields_calendar host t0 Ho Ht0) as [C0 N0].
  destruct (local_fields_calendar host t1 Ho Ht1) as [C1 N1].
  unfold Main1UI.compareDate. cbv zeta. rewrite Hc.
  rewrite !getFullYear_of_Z, !getMonth_of_Z, !getDate_of_Z.
  rewrite one_literal.
  assert (H53 : 2 ^ 53 = 9007199254740992) by reflexivity.
  pose proof (calendar_date_bounds _ _ _ C0) as B0.
  pose proof (calendar_date_bounds _ _ _ C1) as B1.
  rewrite !sub_small, !add_small by lia.
  rewrite !strict_equal_of_Z, !lt_of_Z.
  pose proof (fun H => day_number_lt _ _ _ _ _ _ C1 C0 (or_introl H)) as L1.
  pose proof (fun H => day_number_lt _ _ _ _ _ _ C0 C1 (or_introl H)) as L0.
  pose proof (fun H1 H2 => day_number_lt _ _ _ _ _ _ C1 C0
                             (or_intror (conj H1 (or_introl H2)))) as L1m.
  pose proof (fun H1 H2 => day_number_lt _ _ _ _ _ _ C0 C1
                             (or_intror (conj H1 (or_introl H2)))) as L0m.
  pose proof (same_month_same_year (local_year host t0) (local_month host t0)
                (local_date host t0) (local_date host t1)) as Sm.
  assert (O1 : local_month host t1 = local_month host t0 ->
               local_year host t1 < local_year host t0 ->
               local_day host t1 + 300 < local_day host t0).
  { intros Em Hlt. rewrite <- N0, <- N1. rewrite Em in C1 |- *.
    apply same_month_other_year; assumption. }
  assert (O0 : local_month host t1 = local_month host t0 ->
               local_year host t0 < local_year host t1 ->
               local_day host t0 + 300 < local_day host t1).
  { intros Em Hlt. rewrite <- N0, <- N1. rewrite Em in C1 |- *.
    apply same_month_other_year; assumption. }
  assert (Sm' : local_year host t1 = local_year host t0 ->
                local_month host t1 = local_month host t0 ->
                local_day host t1 - local_day host t0
                = local_date host t1 - local_date host t0).
  { intros Ey Em. rewrite <- N0, <- N1, Ey, Em. apply same_month_same_year. }
  rewrite N0 in *. rewrite N1 in *. clear Sm C0 C1 N0 N1 Hc.
  set (D0 := local_day host t0) in *. set (D1 := local_day host t1) in *.
  set (Y0 := local_year host t0) in *. set (Y1 := local_year host t1) in *.
  set (M0 := local_month host t0) in *. set (M1 := local_month host t1) in *.
  set (d0 := local_date host t0) in *. set (d1 := local_date host t1) in *.
  clearbody D0 D1 Y0 Y1 M0 M1 d0 d1.
  repeat next_test; integer_facts; cbn [fst snd hd_error];
    (split; [split; [|split] | split; [|split; [|split; [|split; [|split; [|split; [|split]]]]]]];
     settle).
Qed.

(** ** An Invalid Date *)

Lemma first_compareDate_invalid (host : Host) (today : Date) (jahr monat tag : number) :
  construct host jahr (sub monat 1%js) tag = {| time_value := NaN |} ->
  Main1UI.compareDate host today jahr monat tag = (invalid_message, "future"%string).
Proof. intros H. unfold Main1UI.compareDate. cbv zeta. rewrite H. reflexivity. Qed.

(** ** The tense is always one of the three *)

Lemma compareDate_known_tense (host : Host) (today dateObj : Date) :
  exists r : report,
    Main2UI.compareDate host today (ADate dateObj) = Return r /\ known_tense (tense r).
Proof.
  unfold Main2UI.compareDate, known_tense. cbv zeta.
  generalize (Math_round
       (div (sub (Date_UTC (getFullYear host dateObj) (getMonth host dateObj)
                   (getDate host dateObj))
                 (Date_UTC (getFullYear host today) (getMonth host today)
                   (getDate host today)))
            (24 * 60 * 60 * 1000)%js)).
  intros diffDays.
  generalize (strict_equal diffDays 0%js), (strict_equal diffDays 1%js),
    (strict_equal diffDays (-1)%js), (lt diffDays 0%js).
  intros c1 c2 c3 c4.
  generalize (strict_equal (getFullYear host dateObj) (getFullYear host today)),
    (strict_equal (getFullYear host dateObj) (sub (getFullYear host today) 1%js)),
    (strict_equal (getFullYear host dateObj) (add (getFullYear host today) 1%js)),
    (lt (getFullYear host dateObj) (getFullYear host today)).
  intros c5 c6 c7 c8.
  destruct c1, c2, c3, c4, c5, c6, c7, c8;
    (eexists; split; [reflexivity|]; cbn [tense]; auto).
Qed.

Lemma first_compareDate_known_tense (host : Host) (today : Date) (jahr monat tag : number) :
  known_tense (snd (Main1UI.compareDate host today jahr monat tag)).
Proof.
  unfold Main1UI.compareDate, known_tense. cbv zeta.
  generalize (construct host jahr (sub monat 1%js) tag). intros compDate.
  generalize (getFullYear host compDate), (add (getMonth host compDate) 1%js),
    (getDate host compDate), (getFullYear host today),
    (add (getMonth host today) 1%js), (getDate host today).
  intros compYear compMonth compDay year month day.
  generalize (lt compYear year), (strict_equal compYear (sub year 1%js)),
    (strict_equal compYear year), (strict_equal compYear (add year 1%js)),
    (strict_equal compMonth month), (strict_equal compDay day),
    (strict_equal compDay (add day 1%js)), (strict_equal compDay (sub day 1%js)),
    (lt compMonth month), (lt compDay day).
  intros c1 c2 c3 c4 c5 c6 c7 c8 c9 c10.
  destruct c1, c2, c3, c4, c5, c6, c7, c8, c9, c10; cbn [andb orb snd]; auto.
Qed.

Lemma tenseSetter_known (t : string) :
  known_tense t ->
  (exists p : string, Main1.tenseSetter (JSString t) = JSString p /\
     (p = "was Easter" \/ p = "is Easter" \/ p = "will Easter be")%string) /\
  (Main2.tenseSetter (JSString t) = "was Easter" \/
   Main2.tenseSetter (JSString t) = "is Easter" \/
   Main2.tenseSetter (JSString t) = "will Easter be")%string /\
  (Script3.tenseSetter (JSString t) = "was Easter" \/
   Script3.tenseSetter (JSString t) = "is Easter" \/
   Script3.tenseSetter (JSString t) = "will be Easter")%string.
Proof.
  intros [-> | [-> | ->]]; (split; [eexists; split; [reflexivity|] | split]); cbn; auto.
Qed.

(** ** The guards, as [calculateEaster] sees them *)

Lemma integer_or_not (v : JSValue) :
  (exists z : Z, v = JSNumber (of_Z z)) \/ (forall z : Z, v <> JSNumber (of_Z z)).
Proof.
  destruct v as [ | | ? | ? | ? | ? | n]; try (right; intros ?; discriminate).
  destruct (is_integer n) eqn:Hn.
  - left. destruct (isInteger_inv n Hn) as [z ->]. exists z. reflexivity.
  - right. intros z H. injection H as ->. rewrite isInteger_of_Z in Hn. discriminate.
Qed.

Lemma calculateEasterYMD_returns_iff (v : JSValue) :
  (exists t, Easter.calculateEasterYMD v = Return t)
  <-> (exists z : Z, v = JSNumber (of_Z z) /\ 1583 <= z).
Proof.
  split.
  - intros [t Ht]. destruct (integer_or_not v) as [[z ->] | Hn].
    + exists z. split; [reflexivity|]. rewrite guard_passed in Ht.
      destruct (Z.ltb_spec z 1583); [discriminate | assumption].
    + rewrite (guard_not_integer v Hn) in Ht. discriminate.
  - intros (z & -> & Hz). rewrite guard_passed.
    destruct (Z.ltb_spec z 1583); [lia|]. eexists. reflexivity.
Qed.

(** ** The thirteen steps, once more *)

Lemma steps_from_century (y : Z) :
  Spec41.steps y
  = Spec41.from_century y (y / 100) (y / 100 / 4) ((y / 100 + 8) / 25)
      ((y / 100 - (y / 100 + 8) / 25 + 1) / 3)
      (19 * (y mod 19) + y / 100 - y / 100 / 4
       - (y / 100 - (y / 100 + 8) / 25 + 1) / 3 + 15).
Proof. reflexivity. Qed.

Lemma steps_ranges (y : Z) :
  0 <= Spec41.goldenNumber (Spec41.steps y) <= 18 /\
  0 <= Spec41.epact (Spec41.steps y) <= 29 /\
  0 <= Spec41.weekdayShift (Spec41.steps y) <= 6 /\
  0 <= Spec41.overflowCorrection (Spec41.steps y) <= 1.
Proof.
  rewrite steps_from_century.
  pose proof (from_century_ranges y (y / 100) (y / 100 / 4) ((y / 100 + 8) / 25)
      ((y / 100 - (y / 100 + 8) / 25 + 1) / 3)
      (19 * (y mod 19) + y / 100 - y / 100 / 4
       - (y / 100 - (y / 100 + 8) / 25 + 1) / 3 + 15))
    as (Ha & _ & _ & Hh & _ & _ & Hl & Hm).
  repeat split; lia.
Qed.

(** The day number of the offset [r] of lines 124-125: March 22 is 114. *)
Lemma day_number_of_offset (y r : Z) :
  114 <= r <= 153 ->
  calendar_date y (r / 31 - 1) (r mod 31 + 1) /\
  day_number y (r / 31 - 1) (r mod 31 + 1) = DayFromYear y + leap_day y + r - 34.
Proof.
  intros Hr. destruct (leap_day_cases y) as [_ Hl].
  assert (Hc : r / 31 = 3 /\ 21 <= r mod 31 <= 30 /\ r = 93 + r mod 31 \/
               r / 31 = 4 /\ 0 <= r mod 31 <= 30 /\ r = 124 + r mod 31)
    by (Z.to_euclidean_division_equations; lia).
  unfold calendar_date, day_number.
  destruct Hc as [(E & Hd & Er) | (E & Hd & Er)]; rewrite E; clear E;
    set (rm := r mod 31) in *; clearbody rm;
    set (F := DayFromYear y); clearbody F.
  - change (3 - 1) with 2. cbv [days_before_month DaysInMonth]. split; lia.
  - change (4 - 1) with 3. cbv [days_before_month DaysInMonth]. split; lia.
Qed.

(** ** [calculateEaster] and the guards *)

(** X3: [calculateEaster] throws exactly what [calculateEasterYMD] throws,
    and returns a Date exactly for the integer-valued numbers from 1583
    on. *)
Theorem calculateEaster_throws_as_calculateEasterYMD (host : Host) (v : JSValue) :
  (forall e : JSError,
     EasterWrapper.calculateEaster host v = Throw e
     <-> Easter.calculateEasterYMD v = Throw e) /\
  ((exists d : Date, EasterWrapper.calculateEaster host v = Return d)
   <-> (exists z : Z, v = JSNumber (of_Z z) /\ 1583 <= z)).
Proof.
  rewrite <- calculateEasterYMD_returns_iff. rewrite calculateEaster_unfold.
  destruct (Easter.calculateEasterYMD v) as [[[y month] day] | e'].
  - split.
    + intros e. split; discriminate.
    + split; intros _; eexists; reflexivity.
  - split.
    + intros e. split; intros H; injection H as ->; reflexivity.
    + split; intros [? H]; discriminate H.
Qed.

(** ** The date of Easter *)

(** X4: for a year from 1583 to MAX_SAFE_INTEGER the month and the day that
    [calculateEasterYMD] returns are a date of the calendar of that year,
    and that day is a Sunday. *)
Theorem easter_is_a_Sunday (y : Z) :
  1583 <= y <= MAX_SAFE_INTEGER ->
  exists month day : Z,
    Easter.calculateEasterYMD (JSNumber (of_Z y)) = Return (tuple (y, month, day)) /\
    calendar_date y (month - 1) day /\
    WeekDay (day_number y (month - 1) day * msPerDay) = 0.
Proof.
  intros Hy. exists (Spec41.month (Spec41.steps y)), (Spec41.day (Spec41.steps y)).
  split; [exact (calculateEasterYMD_safe y Hy)|].
  destruct (easter_date y) as (_ & Hc & Hs). cbv zeta in *.
  split; [exact Hc|]. unfold WeekDay, Day.
  rewrite Z.div_mul by (unfold msPerDay; lia). exact Hs.
Qed.

Lemma easter_is_a_Sunday_witness :
  exists month day : Z,
    Easter.calculateEasterYMD (JSNumber (of_Z 2025)) = Return (tuple (2025, month, day)) /\
    calendar_date 2025 (month - 1) day /\
    WeekDay (day_number 2025 (month - 1) day * msPerDay) = 0.
Proof. apply (easter_is_a_Sunday 2025). vm_compute. split; discriminate. Defined.

(** X5: the dates of Easter repeat after 5 700 000 years: a year from 1583
    on and the year 5 700 000 years later, up to MAX_SAFE_INTEGER, get the
    same month and day. *)
Theorem easter_repeats_after_5700000_years (y : Z) :
  1583 <= y -> y + 5700000 <= MAX_SAFE_INTEGER ->
  exists month day : Z,
    Easter.calculateEasterYMD (JSNumber (of_Z y)) = Return (tuple (y, month, day)) /\
    Easter.calculateEasterYMD (JSNumber (of_Z (y + 5700000)))
    = Return (tuple (y + 5700000, month, day)).
Proof.
  intros Hy Hs. exists (Spec41.month (Spec41.steps y)), (Spec41.day (Spec41.steps y)).
  split; [apply calculateEasterYMD_safe; lia|].
  rewrite calculateEasterYMD_safe by lia.
  destruct (steps_period y) as [Em Ed].
  unfold Spec41.compute. cbv zeta. rewrite Em, Ed. reflexivity.
Qed.

Lemma easter_repeats_witness :
  exists month day : Z,
    Easter.calculateEasterYMD (JSNumber (of_Z 2025)) = Return (tuple (2025, month, day)) /\
    Easter.calculateEasterYMD (JSNumber (of_Z (2025 + 5700000)))
    = Return (tuple (2025 + 5700000, month, day)).
Proof.
  apply (easter_repeats_after_5700000_years 2025); vm_compute; discriminate.
Defined.

(** X6: the copy of the Computus in the first script of [main.js] returns
    the date of [calculateEasterYMD] or the date one week later, and the
    latter exactly in the years whose final correction is 1. *)
Theorem inline_copy_is_Easter_or_a_week_later (y : Z) :
  1583 <= y <= MAX_SAFE_INTEGER ->
  exists month day month' day' : Z,
    Easter.calculateEasterYMD (JSNumber (of_Z y)) = Return (tuple (y, month, day)) /\
    Main1.calculateEaster (of_Z y) = tuple (y, month', day') /\
    calendar_date y (month' - 1) day' /\
    day_number y (month' - 1) day'
    = day_number y (month - 1) day + 7 * Spec41.overflowCorrection (Spec41.steps y) /\
    (Spec41.overflowCorrection (Spec41.steps y) = 0 \/
     Spec41.overflowCorrection (Spec41.steps y) = 1).
Proof.
  intros Hy. destruct (steps_ranges y) as (Ha & Hh & Hl & Hm).
  pose proof (safe_is_double y (proj2 Hy)) as [HM _].
  set (q := Spec41.steps y) in *.
  set (r0 := Spec41.epact q + Spec41.weekdayShift q - 7 * 0 + 114).
  exists (Spec41.month q), (Spec41.day q), (r0 / 31), (r0 mod 31 + 1).
  split; [exact (calculateEasterYMD_safe y Hy)|].
  split.
  { rewrite inline_is_uncorrected by lia. rewrite computus_safe by assumption.
    fold q. rewrite uncorrected_embed by assumption. reflexivity. }
  destruct (day_number_of_offset y r0 ltac:(subst r0; lia)) as [Hc Hn].
  split; [exact Hc|]. split; [|lia].
  rewrite Hn.
  change (Spec41.month q) with (Spec41.rawOffset q / 31).
  change (Spec41.day q) with (Spec41.rawOffset q mod 31 + 1).
  assert (Hr : Spec41.rawOffset q = r0 - 7 * Spec41.overflowCorrection q)
    by (subst r0; change (Spec41.rawOffset q)
          with (Spec41.epact q + Spec41.weekdayShift q
                - 7 * Spec41.overflowCorrection q + 114); lia).
  destruct (easter_date y) as (Hw & _ & _). cbv zeta in Hw. fold q in Hw.
  change (Spec41.month q) with (Spec41.rawOffset q / 31) in Hw.
  change (Spec41.day q) with (Spec41.rawOffset q mod 31 + 1) in Hw.
  assert (Hb : 114 <= Spec41.rawOffset q <= 153).
  { revert Hw. generalize (Spec41.rawOffset q). intros r Hw.
    Z.to_euclidean_division_equations; lia. }
  destruct (day_number_of_offset y (Spec41.rawOffset q) Hb) as [_ ->]. lia.
Qed.

Lemma inline_copy_witness :
  exists month day month' day' : Z,
    Easter.calculateEasterYMD (JSNumber (of_Z 1981)) = Return (tuple (1981, month, day)) /\
    Main1.calculateEaster (of_Z 1981) = tuple (1981, month', day') /\
    calendar_date 1981 (month' - 1) day' /\
    day_number 1981 (month' - 1) day'
    = day_number 1981 (month - 1) day + 7 * Spec41.overflowCorrection (Spec41.steps 1981) /\
    (Spec41.overflowCorrection (Spec41.steps 1981) = 0 \/
     Spec41.overflowCorrection (Spec41.steps 1981) = 1).
Proof.
  apply (inline_copy_is_Easter_or_a_week_later 1981). vm_compute. split; discriminate.
Defined.

(** ** Greenwich, for the examples *)

Lemma greenwich_construct (y m d : Z) :
  100 <= y <= 275759 -> calendar_date y m d ->
  construct greenwich (of_Z y) (of_Z m) (of_Z d)
  = {| time_value := of_Z (day_number y m d * msPerDay) |}.
Proof.
  intros Hy Hc. rewrite construct_of_Z; try assumption; try lia; [|reflexivity].
  cbn [offset_at_local greenwich]. rewrite Z.sub_0_r, TimeClip_of_Z.
  destruct (calendar_date_bounds y m d Hc) as [Hm Hd].
  destruct (leap_day_cases y) as [_ Hl].
  pose proof (day_within_year m _ d (proj1 Hc) Hl (proj2 Hc)) as Hw.
  pose proof (DayFromYear_le 100 y ltac:(lia)) as B.
  pose proof (DayFromYear_add y (275760 - y) ltac:(lia)) as B'.
  replace (y + (275760 - y)) with 275760 in B' by lia.
  assert (E1 : DayFromYear 100 = -683003) by reflexivity.
  assert (E2 : DayFromYear 275760 = 99999744) by reflexivity.
  unfold day_number, msPerDay.
  destruct (Z.ltb_spec 8640000000000000
              (Z.abs ((DayFromYear y + days_before_month m (leap_day y) + d - 1)
                      * 86400000))); [lia | reflexivity].
Qed.

(** ** [compareDate] of the second script of [main.js] *)

(** X7: on a Date and a today that are not invalid, with local years from
    100 to 275759, the tense that [compareDate] returns follows the local
    days: 'present' for the same day, 'past' for an earlier and 'future' for
    a later one. *)
Theorem compareDate_tense_follows_the_days (host : Host) (t0 t1 : Z) :
  offsets_below_a_day host ->
  time_in_range t0 -> time_in_range t1 ->
  100 <= local_year host t0 <= 275759 ->
  100 <= local_year host t1 <= 275759 ->
  exists r : report,
    Main2UI.compareDate host {| time_value := of_Z t0 |}
                        (ADate {| time_value := of_Z t1 |}) = Return r /\
    (tense r = "present"%string <-> local_day host t1 = local_day host t0) /\
    (tense r = "past"%string <-> local_day host t1 < local_day host t0) /\
    (tense r = "future"%string <-> local_day host t0 < local_day host t1).
Proof.
  intros Ho Ht0 Ht1 Hy0 Hy1.
  destruct (compareDate_cases host t0 t1 Ho Ht0 Ht1 Hy0 Hy1) as (r & E & Ht & _).
  exists r. split; [exact E | exact Ht].
Qed.

Lemma compareDate_tense_witness :
  exists r : report,
    Main2UI.compareDate greenwich {| time_value := of_Z 1745107200000 |}
                        (ADate {| time_value := of_Z 1745193600000 |}) = Return r /\
    (tense r = "present"%string
     <-> local_day greenwich 1745193600000 = local_day greenwich 1745107200000) /\
    (tense r = "past"%string
     <-> local_day greenwich 1745193600000 < local_day greenwich 1745107200000) /\
    (tense r = "future"%string
     <-> local_day greenwich 1745107200000 < local_day greenwich 1745193600000).
Proof.
  apply (compareDate_tense_follows_the_days greenwich 1745107200000 1745193600000).
  - intros t. split; reflexivity.
  - unfold time_in_range. lia.
  - unfold time_in_range. lia.
  - vm_compute. split; discriminate.
  - vm_compute. split; discriminate.
Defined.

(** X8: under the same conditions the first words of the message are
    'Today', 'Tomorrow' and 'Yesterday' exactly for a difference of 0, 1 and
    -1 local days, also across the end of a year; the other messages name
    this year, last year, next year or the year itself, by the difference
    of the local years. *)
Theorem compareDate_opening_words (host : Host) (t0 t1 : Z) :
  offsets_below_a_day host ->
  time_in_range t0 -> time_in_range t1 ->
  100 <= local_year host t0 <= 275759 ->
  100 <= local_year host t1 <= 275759 ->
  let D0 := local_day host t0 in
  let D1 := local_day host t1 in
  let Y0 := local_year host t0 in
  let Y1 := local_year host t1 in
  exists r : report,
    Main2UI.compareDate host {| time_value := of_Z t0 |}
                        (ADate {| time_value := of_Z t1 |}) = Return r /\
    (hd_error (msg r) = Some (Text "Today, ") <-> D1 = D0) /\
    (hd_error (msg r) = Some (Text "Tomorrow, ") <-> D1 = D0 + 1) /\
    (hd_error (msg r) = Some (Text "Yesterday, ") <-> D1 = D0 - 1) /\
    (hd_error (msg r) = Some (Text "This year, Easter was on ")
     <-> Y1 = Y0 /\ D1 < D0 - 1) /\
    (hd_error (msg r) = Some (Text "This year, Easter will be on ")
     <-> Y1 = Y0 /\ D0 + 1 < D1) /\
    (hd_error (msg r) = Some (Text "Last year, Easter was on ")
     <-> Y1 = Y0 - 1 /\ D1 < D0 - 1) /\
    (hd_error (msg r) = Some (Text "Next year, Easter will be on ")
     <-> Y1 = Y0 + 1 /\ D0 + 1 < D1) /\
    (hd_error (msg r) = Some (Text "In ")
     <-> (Y1 < Y0 - 1 /\ D1 < D0 - 1) \/ (Y0 + 1 < Y1 /\ D0 + 1 < D1)).
Proof.
  intros Ho Ht0 Ht1 Hy0 Hy1.
  destruct (compareDate_cases host t0 t1 Ho Ht0 Ht1 Hy0 Hy1) as (r & E & _ & Hw).
  exists r. split; [exact E | exact Hw].
Qed.

(** New Year's Eve of 2025 and New Year's Day of 2026. *)
Lemma compareDate_opening_words_witness :
  let D0 := local_day greenwich 1767139200000 in
  let D1 := local_day greenwich 1767225600000 in
  let Y0 := local_year greenwich 1767139200000 in
  let Y1 := local_year greenwich 1767225600000 in
  exists r : report,
    Main2UI.compareDate greenwich {| time_value := of_Z 1767139200000 |}
                        (ADate {| time_value := of_Z 1767225600000 |}) = Return r /\
    (hd_error (msg r) = Some (Text "Today, ") <-> D1 = D0) /\
    (hd_error (msg r) = Some (Text "Tomorrow, ") <-> D1 = D0 + 1) /\
    (hd_error (msg r) = Some (Text "Yesterday, ") <-> D1 = D0 - 1) /\
    (hd_error (msg r) = Some (Text "This year, Easter was on ")
     <-> Y1 = Y0 /\ D1 < D0 - 1) /\
    (hd_error (msg r) = Some (Text "This year, Easter will be on ")
     <-> Y1 = Y0 /\ D0 + 1 < D1) /\
    (hd_error (msg r) = Some (Text "Last year, Easter was on ")
     <-> Y1 = Y0 - 1 /\ D1 < D0 - 1) /\
    (hd_error (msg r) = Some (Text "Next year, Easter will be on ")
     <-> Y1 = Y0 + 1 /\ D0 + 1 < D1) /\
    (hd_error (msg r) = Some (Text "In ")
     <-> (Y1 < Y0 - 1 /\ D1 < D0 - 1) \/ (Y0 + 1 < Y1 /\ D0 + 1 < D1)).
Proof.
  apply (compareDate_opening_words greenwich 1767139200000 1767225600000).
  - intros t. split; reflexivity.
  - unfold time_in_range. lia.
  - unfold time_in_range. lia.
  - vm_compute. split; discriminate.
  - vm_compute. split; discriminate.
Defined.

(** X9: for an Invalid Date, whatever today is, [compareDate] of the second
    script and of the third return the message 'In NaN, Easter will be on
    Invalid Date NaN.' with the tense 'future'. *)
Theorem compareDate_of_an_Invalid_Date (host : Host) (today : Date) :
  Main2UI.compareDate host today (ADate {| time_value := NaN |})
  = Return {| msg := invalid_message; tense := "future" |} /\
  Script3UI.compareDate host today (ADate {| time_value := NaN |})
  = Return {| msg := invalid_message; tense := "future" |}.
Proof. split; reflexivity. Qed.

(** X10: [compareDate] of the third script computes what [compareDate] of
    the second script of [main.js] computes, on every argument. *)
Theorem third_script_compareDate_is_the_second
  (host : Host) (today : Date) (dateObj : argument) :
  Script3UI.compareDate host today dateObj = Main2UI.compareDate host today dateObj.
Proof. reflexivity. Qed.

(** ** [compareDate] of the first script of [main.js] *)

(** X11: when the Date it builds and today are not invalid, with local
    years from 100 to 275759, the tense that [compareDate] of the first
    script returns follows the local days as well. *)
Theorem first_compareDate_tense_follows_the_days
  (host : Host) (t0 t1 : Z) (jahr monat tag : number) :
  offsets_below_a_day host ->
  time_in_range t0 -> time_in_range t1 ->
  100 <= local_year host t0 <= 275759 ->
  100 <= local_year host t1 <= 275759 ->
  construct host jahr (sub monat 1%js) tag = {| time_value := of_Z t1 |} ->
  let r := Main1UI.compareDate host {| time_value := of_Z t0 |} jahr monat tag in
  (snd r = "present"%string <-> local_day host t1 = local_day host t0) /\
  (snd r = "past"%string <-> local_day host t1 < local_day host t0) /\
  (snd r = "future"%string <-> local_day host t0 < local_day host t1).
Proof.
  intros Ho Ht0 Ht1 Hy0 Hy1 Hc.
  exact (proj1 (first_compareDate_cases host t0 t1 jahr monat tag Ho Ht0 Ht1 Hy0 Hy1 Hc)).
Qed.

Lemma first_compareDate_tense_witness :
  let r := Main1UI.compareDate greenwich {| time_value := of_Z 1745107200000 |}
             (of_Z 2025) (of_Z 4) (of_Z 21) in
  (snd r = "present"%string
   <-> local_day greenwich 1745193600000 = local_day greenwich 1745107200000) /\
  (snd r = "past"%string
   <-> local_day greenwich 1745193600000 < local_day greenwich 1745107200000) /\
  (snd r = "future"%string
   <-> local_day greenwich 1745107200000 < local_day greenwich 1745193600000).
Proof.
  apply (first_compareDate_tense_follows_the_days greenwich 1745107200000 1745193600000).
  - intros t. split; reflexivity.
  - unfold time_in_range. lia.
  - unfold time_in_range. lia.
  - vm_compute. split; discriminate.
  - vm_compute. split; discriminate.
  - rewrite one_literal, sub_small by (vm_compute; reflexivity).
    rewrite greenwich_construct; [reflexivity | lia | vm_compute].
    repeat split; discriminate.
Defined.

(** X12: under the same conditions the first script says 'Tomorrow' and
    'Yesterday' only within one month: for the next or the previous local
    day in another month it names the year instead. *)
Theorem first_compareDate_opening_words
  (host : Host) (t0 t1 : Z) (jahr monat tag : number) :
  offsets_below_a_day host ->
  time_in_range t0 -> time_in_range t1 ->
  100 <= local_year host t0 <= 275759 ->
  100 <= local_year host t1 <= 275759 ->
  construct host jahr (sub monat 1%js) tag = {| time_value := of_Z t1 |} ->
  let D0 := local_day host t0 in
  let D1 := local_day host t1 in
  let Y0 := local_year host t0 in
  let Y1 := local_year host t1 in
  let M0 := local_month host t0 in
  let M1 := local_month host t1 in
  let r := Main1UI.compareDate host {| time_value := of_Z t0 |} jahr monat tag in
  (hd_error (fst r) = Some (Text "Today, ") <-> D1 = D0) /\
  (hd_error (fst r) = Some (Text "Tomorrow, ") <-> D1 = D0 + 1 /\ M1 = M0) /\
  (hd_error (fst r) = Some (Text "Yesterday, ") <-> D1 = D0 - 1 /\ M1 = M0) /\
  (hd_error (fst r) = Some (Text "This year, Easter was on ")
   <-> Y1 = Y0 /\ D1 < D0 /\ ~ (D1 = D0 - 1 /\ M1 = M0)) /\
  (hd_error (fst r) = Some (Text "This year, Easter will be on ")
   <-> Y1 = Y0 /\ D0 < D1 /\ ~ (D1 = D0 + 1 /\ M1 = M0)) /\
  (hd_error (fst r) = Some (Text "Last year, Easter was on ") <-> Y1 = Y0 - 1) /\
  (hd_error (fst r) = Some (Text "Next year, Easter will be on ") <-> Y1 = Y0 + 1) /\
  (hd_error (fst r) = Some (Text "In ") <-> Y1 < Y0 - 1 \/ Y0 + 1 < Y1).
Proof.
  intros Ho Ht0 Ht1 Hy0 Hy1 Hc.
  exact (proj2 (first_compareDate_cases host t0 t1 jahr monat tag Ho Ht0 Ht1 Hy0 Hy1 Hc)).
Qed.

(** March 31 and April 1 of 2018. *)
Lemma first_compareDate_opening_words_witness :
  let D0 := local_day greenwich 1522454400000 in
  let D1 := local_day greenwich 1522540800000 in
  let Y0 := local_year greenwich 1522454400000 in
  let Y1 := local_year greenwich 1522540800000 in
  let M0 := local_month greenwich 1522454400000 in
  let M1 := local_month greenwich 1522540800000 in
  let r := Main1UI.compareDate greenwich {| time_value := of_Z 1522454400000 |}
             (of_Z 2018) (of_Z 4) (of_Z 1) in
  (hd_error (fst r) = Some (Text "Today, ") <-> D1 = D0) /\
  (hd_error (fst r) = Some (Text "Tomorrow, ") <-> D1 = D0 + 1 /\ M1 = M0) /\
  (hd_error (fst r) = Some (Text "Yesterday, ") <-> D1 = D0 - 1 /\ M1 = M0) /\
  (hd_error (fst r) = Some (Text "This year, Easter was on ")
   <-> Y1 = Y0 /\ D1 < D0 /\ ~ (D1 = D0 - 1 /\ M1 = M0)) /\
  (hd_error (fst r) = Some (Text "This year, Easter will be on ")
   <-> Y1 = Y0 /\ D0 < D1 /\ ~ (D1 = D0 + 1 /\ M1 = M0)) /\
  (hd_error (fst r) = Some (Text "Last year, Easter was on ") <-> Y1 = Y0 - 1) /\
  (hd_error (fst r) = Some (Text "Next year, Easter will be on ") <-> Y1 = Y0 + 1) /\
  (hd_error (fst r) = Some (Text "In ") <-> Y1 < Y0 - 1 \/ Y0 + 1 < Y1).
Proof.
  apply (first_compareDate_opening_words greenwich 1522454400000 1522540800000).
  - intros t. split; reflexivity.
  - unfold time_in_range. lia.
  - unfold time_in_range. lia.
  - vm_compute. split; discriminate.
  - vm_compute. split; discriminate.
  - rewrite one_literal, sub_small by (vm_compute; reflexivity).
    rewrite greenwich_construct; [reflexivity | lia | vm_compute].
    repeat split; discriminate.
Defined.

(** X13: under the same conditions the two scripts of [main.js] give the
    same tense to the same date. *)
Theorem compareDate_tenses_agree
  (host : Host) (t0 t1 : Z) (jahr monat tag : number) :
  offsets_below_a_day host ->
  time_in_range t0 -> time_in_range t1 ->
  100 <= local_year host t0 <= 275759 ->
  100 <= local_year host t1 <= 275759 ->
  construct host jahr (sub monat 1%js) tag = {| time_value := of_Z t1 |} ->
  exists r : report,
    Main2UI.compareDate host {| time_value := of_Z t0 |}
      (ADate (construct host jahr (sub monat 1%js) tag)) = Return r /\
    snd (Main1UI.compareDate host {| time_value := of_Z t0 |} jahr monat tag) = tense r.
Proof.
  intros Ho Ht0 Ht1 Hy0 Hy1 Hc.
  destruct (compareDate_cases host t0 t1 Ho Ht0 Ht1 Hy0 Hy1)
    as (r & E & (P2 & Q2 & F2) & _).
  destruct (first_compareDate_cases host t0 t1 jahr monat tag Ho Ht0 Ht1 Hy0 Hy1 Hc)
    as [(P1 & Q1 & F1) _].
  cbv zeta in *. exists r. rewrite Hc. split; [exact E|].
  destruct (Z.lt_trichotomy (local_day host t1) (local_day host t0)) as [H | [H | H]].
  - rewrite (proj2 Q1 H), (proj2 Q2 H). reflexivity.
  - rewrite (proj2 P1 H), (proj2 P2 H). reflexivity.
  - rewrite (proj2 F1 H), (proj2 F2 H). reflexivity.
Qed.

Lemma compareDate_tenses_agree_witness :
  exists r : report,
    Main2UI.compareDate greenwich {| time_value := of_Z 1745107200000 |}
      (ADate (construct greenwich (of_Z 2025) (sub (of_Z 4) 1%js) (of_Z 21))) = Return r /\
    snd (Main1UI.compareDate greenwich {| time_value := of_Z 1745107200000 |}
           (of_Z 2025) (of_Z 4) (of_Z 21)) = tense r.
Proof.
  apply (compareDate_tenses_agree greenwich 1745107200000 1745193600000).
  - intros t. split; reflexivity.
  - unfold time_in_range. lia.
  - unfold time_in_range. lia.
  - vm_compute. split; discriminate.
  - vm_compute. split; discriminate.
  - rewrite one_literal, sub_small by (vm_compute; reflexivity).
    rewrite greenwich_construct; [reflexivity | lia | vm_compute].
    repeat split; discriminate.
Defined.

(** ** [tenseSetter] *)

(** X14: in each script [tenseSetter] falls through exactly on the values
    that are none of the strings 'past', 'present' and 'future'; the first
    script then returns undefined, the other two the empty string. *)
Theorem tenseSetter_falls_through (t : JSValue) :
  let other :=
    t <> JSString "past" /\ t <> JSString "present" /\ t <> JSString "future" in
  (Main1.tenseSetter t = JSUndefined <-> other) /\
  (Main2.tenseSetter t = String.EmptyString <-> other) /\
  (Script3.tenseSetter t = String.EmptyString <-> other).
Proof.
  cbv zeta.
  destruct t as [ | | b | s | z | a | n];
    try (split; [|split]; (split; [intros _; repeat split; discriminate
                                  | intros _; reflexivity])).
  unfold Main1.tenseSetter, Main2.tenseSetter, Script3.tenseSetter, strict_equals.
  cbv zeta.
  destruct (String.eqb_spec s "past") as [-> | H1].
  { cbn. split; [|split]; (split; [discriminate | intros (H & _); elim H; reflexivity]). }
  destruct (String.eqb_spec s "present") as [-> | H2].
  { cbn. split; [|split];
      (split; [discriminate | intros (_ & H & _); elim H; reflexivity]). }
  destruct (String.eqb_spec s "future") as [-> | H3].
  { cbn. split; [|split];
      (split; [discriminate | intros (_ & _ & H); elim H; reflexivity]). }
  split; [|split];
    (split; [intros _; repeat split; intros H; injection H as ->; auto
            | intros _; reflexivity]).
Qed.

(** ** The pages *)

Lemma year_literal : 1583%js = of_Z 1583.
Proof. reflexivity. Qed.

Lemma not_integer_throws (y : number) :
  is_integer y = false ->
  Easter.calculateEasterYMD (JSNumber y) = Throw (TypeError "year must be an integer").
Proof.
  intros H. apply guard_not_integer. intros z E. injection E as ->.
  rewrite isInteger_of_Z in H. discriminate.
Qed.

(** X15: [updateUIForYear] throws exactly what [calculateEasterYMD] throws
    (the TypeError of [compareDate] never arises), and when it returns the
    text it gives to the tense field is one of 'was Easter', 'is Easter' and
    'will Easter be', never the empty string. *)
Theorem updateUIForYear_outcomes (host : Host) (today : Date) (year : JSValue) :
  match Easter.calculateEasterYMD year with
  | Throw e => Main2UI.updateUIForYear host today year = Throw e
  | Return _ =>
      exists (m : template) (p : string),
        Main2UI.updateUIForYear host today year = Return (m, p) /\
        (p = "was Easter" \/ p = "is Easter" \/ p = "will Easter be")%string
  end.
Proof.
  unfold Main2UI.updateUIForYear. rewrite calculateEaster_unfold.
  destruct (Easter.calculateEasterYMD year) as [[[y month] day] | e]; [|reflexivity].
  destruct (compareDate_known_tense host today (construct host y (sub month (of_Z 1)) day))
    as (r & -> & Hk).
  exists (msg r), (Main2.tenseSetter (JSString (tense r))).
  split; [reflexivity|]. exact (proj1 (proj2 (tenseSetter_known _ Hk))).
Qed.

(** X16: [onYearInput] of the third script, on the number that parseInt
    returned: NaN or a number below 1583 gives the request to pick a year
    and an empty tense field; an integer from 1583 on gives a message and
    one of 'was Easter', 'is Easter' and 'will be Easter'; any other number
    (an infinity) makes [calculateEaster] throw the TypeError. *)
Theorem onYearInput_outcomes (host : Host) (today : Date) (y : number) :
  if isNaN y || (y <? 1583)%js then
    Script3UI.onYearInput host today y
    = Return ([Text "Pick any year after 1582."], String.EmptyString)
  else if is_integer y then
    exists (m : template) (p : string),
      Script3UI.onYearInput host today y = Return (m, p) /\
      (p = "was Easter" \/ p = "is Easter" \/ p = "will be Easter")%string
  else
    Script3UI.onYearInput host today y = Throw (TypeError "year must be an integer").
Proof.
  unfold Script3UI.onYearInput.
  destruct (isNaN y || (y <? 1583)%js) eqn:Hg; [reflexivity|].
  rewrite calculateEaster_unfold.
  destruct (is_integer y) eqn:Hi.
  - destruct (isInteger_inv y Hi) as [z ->].
    apply orb_false_elim in Hg. destruct Hg as [_ Hg].
    rewrite year_literal, lt_of_Z in Hg. rewrite guard_passed, Hg.
    change Script3UI.compareDate with Main2UI.compareDate.
    destruct (compareDate_known_tense host today
                (construct host (of_Z z)
                   (sub (Easter.month (Easter.computus (of_Z z))) (of_Z 1))
                   (Easter.day (Easter.computus (of_Z z)))))
      as (r & -> & Hk).
    exists (msg r), (Script3.tenseSetter (JSString (tense r))).
    split; [reflexivity|]. exact (proj2 (proj2 (tenseSetter_known _ Hk))).
  - rewrite (not_integer_throws y Hi). reflexivity.
Qed.

(** X17: the listener of the first script, on the number that parseInt
    returned: NaN or a number below 1583 gives the request to pick a year
    and leaves the tense field; every other number gives a message and one
    of 'was Easter', 'is Easter' and 'will Easter be', never undefined. *)
Theorem input_listener_outcomes (host : Host) (today1 today2 : Date) (y : number) :
  if isNaN y || (y <? 1583)%js then
    Main1UI.input_listener host today1 today2 y
    = ([Text "Pick any year after 1582."], None)
  else
    exists (m : template) (p : string),
      Main1UI.input_listener host today1 today2 y = (m, Some (JSString p)) /\
      (p = "was Easter" \/ p = "is Easter" \/ p = "will Easter be")%string.
Proof.
  unfold Main1UI.input_listener.
  destruct (isNaN y || (y <? 1583)%js); [reflexivity|].
  destruct (Main1.calculateEaster y) as [[jahr monat] tag].
  pose proof (first_compareDate_known_tense host today2 jahr monat tag) as Hk.
  destruct (proj1 (tenseSetter_known _ Hk)) as (p & Hp & Hp').
  exists (fst (Main1UI.compareDate host today1 jahr monat tag)), p.
  rewrite Hp. split; [reflexivity | exact Hp'].
Qed.

(** X18: for a year from 1583 to 275759, on a host that keeps the local day
    of Easter's midnight, with a today that is not invalid and has a local
    year from 100 to 275759, [updateUIForYear] writes 'is Easter' exactly
    when today's local day is the day of Easter, 'was Easter' when it is
    later and 'will Easter be' when it is earlier. *)
Theorem updateUIForYear_phrase (host : Host) (t0 y : Z) :
  offsets_below_a_day host ->
  keeps_local_day host (EasterWrapper.easter_midnight y) ->
  time_in_range t0 ->
  100 <= local_year host t0 <= 275759 ->
  1583 <= y <= 275759 ->
  exists (m : template) (p : string),
    Main2UI.updateUIForYear host {| time_value := of_Z t0 |} (JSNumber (of_Z y))
    = Return (m, p) /\
    (p = "is Easter"%string <-> local_day host t0 = EasterWrapper.easter_day_number y) /\
    (p = "was Easter"%string <-> EasterWrapper.easter_day_number y < local_day host t0) /\
    (p = "will Easter be"%string <-> local_day host t0 < EasterWrapper.easter_day_number y).
Proof.
  intros Ho Hk Ht0 Hy0 Hy.
  destruct (Ho (EasterWrapper.easter_midnight y)) as [_ Hoff].
  assert (Hy' : 1583 <= y <= 275760) by lia.
  pose proof (easter_time_in_range host y Hy' Hoff) as Ht1.
  destruct (easter_time_fields host y Hy' Hk) as (ED & EY & _).
  assert (Hy1 : 100 <= local_year host (EasterWrapper.easter_time host y) <= 275759)
    by (rewrite EY; lia).
  destruct (compareDate_cases host t0 _ Ho Ht0 Ht1 Hy0 Hy1) as (r & E & (P & Q & F) & _).
  cbv zeta in *. rewrite ED in P, Q, F.
  unfold Main2UI.updateUIForYear.
  rewrite (calculateEaster_in_range host y Hy' Hoff), E.
  exists (msg r), (Main2.tenseSetter (JSString (tense r))).
  split; [reflexivity|].
  destruct (Z.lt_trichotomy (EasterWrapper.easter_day_number y) (local_day host t0))
    as [H | [H | H]].
  - rewrite (proj2 Q H). cbn.
    split; [|split]; split; intros HH; try discriminate HH; try reflexivity; lia.
  - rewrite (proj2 P H). cbn.
    split; [|split]; split; intros HH; try discriminate HH; try reflexivity; lia.
  - rewrite (proj2 F H). cbn.
    split; [|split]; split; intros HH; try discriminate HH; try reflexivity; lia.
Qed.

(** Easter Sunday of 2025, April 20, in Greenwich. *)
Lemma updateUIForYear_phrase_witness :
  exists (m : template) (p : string),
    Main2UI.updateUIForYear greenwich {| time_value := of_Z 1745107200000 |}
      (JSNumber (of_Z 2025)) = Return (m, p) /\
    (p = "is Easter"%string
     <-> local_day greenwich 1745107200000 = EasterWrapper.easter_day_number 2025) /\
    (p = "was Easter"%string
     <-> EasterWrapper.easter_day_number 2025 < local_day greenwich 1745107200000) /\
    (p = "will Easter be"%string
     <-> local_day greenwich 1745107200000 < EasterWrapper.easter_day_number 2025).
Proof.
  apply (updateUIForYear_phrase greenwich 1745107200000 2025).
  - intros t. split; reflexivity.
  - vm_compute. reflexivity.
  - unfold time_in_range. lia.
  - vm_compute. split; discriminate.
  - lia.
Defined.

(** X19: from the year 275761 on, whatever the time zone, each of the three
    pages shows 'In NaN, Easter will be on Invalid Date NaN.' with the
    phrase of the future. *)
Theorem pages_beyond_275760 (host : Host) (today today' : Date) (y : Z) :
  275761 <= y <= MAX_VALUE ->
  offsets_below_a_day host ->
  Main1UI.input_listener host today today' (of_Z y)
  = (invalid_message, Some (JSString "will Easter be")) /\
  Main2UI.updateUIForYear host today (JSNumber (of_Z y))
  = Return (invalid_message, "will Easter be"%string) /\
  Script3UI.onYearInput host today (of_Z y)
  = Return (invalid_message, "will be Easter"%string).
Proof.
  intros Hy Ho.
  assert (Hg : isNaN (of_Z y) || (of_Z y <? 1583)%js = false).
  { rewrite year_literal, lt_of_Z. cbn [isNaN of_Z orb].
    destruct (Z.ltb_spec y 1583); [lia | reflexivity]. }
  split; [|split].
  - unfold Main1UI.input_listener. rewrite Hg.
    rewrite inline_is_uncorrected by lia.
    destruct (computus_int y ltac:(lia)) as (b & d & f & g & S & _ & Hc & _).
    rewrite Hc.
    pose proof (from_century_ranges y b d f g S) as (_ & _ & _ & Hh & _ & _ & Hl & _).
    rewrite uncorrected_embed by assumption. cbn [fst snd].
    set (r0 := Spec41.epact _ + Spec41.weekdayShift _ - 7 * 0 + 114).
    assert (Hr : 114 <= r0 <= 149) by (subst r0; lia). clearbody r0.
    assert (Hm : 2 <= r0 / 31 - 1 <= 3 /\ 1 <= r0 mod 31 + 1 <= 31)
      by (Z.to_euclidean_division_equations; lia).
    assert (Hd : construct host (of_Z y) (sub (of_Z (r0 / 31)) 1%js) (of_Z (r0 mod 31 + 1))
                 = {| time_value := NaN |}).
    { assert (H53 : 2 ^ 53 = 9007199254740992) by reflexivity.
      rewrite one_literal, sub_small by lia.
      apply construct_beyond_range; try assumption; lia. }
    rewrite !(first_compareDate_invalid _ _ _ _ _ Hd). reflexivity.
  - unfold Main2UI.updateUIForYear.
    rewrite (calculateEaster_beyond_range host y Hy Ho). reflexivity.
  - unfold Script3UI.onYearInput. rewrite Hg.
    rewrite (calculateEaster_beyond_range host y Hy Ho). reflexivity.
Qed.

Lemma pages_beyond_275760_witness :
  Main1UI.input_listener greenwich {| time_value := of_Z 0 |} {| time_value := of_Z 0 |}
    (of_Z 275761)
  = (invalid_message, Some (JSString "will Easter be")) /\
  Main2UI.updateUIForYear greenwich {| time_value := of_Z 0 |} (JSNumber (of_Z 275761))
  = Return (invalid_message, "will Easter be"%string) /\
  Script3UI.onYearInput greenwich {| time_value := of_Z 0 |} (of_Z 275761)
  = Return (invalid_message, "will be Easter"%string).
Proof.
  apply (pages_beyond_275760 greenwich).
  - vm_compute. split; discriminate.
  - intros t. split; reflexivity.
Defined.


